(** * train_GMVAE.py: the ZINB loss, the composite loss and the epoch driver

    A shallow embedding of [src/train_GMVAE.py] and the properties its
    specification states about it.

    Conventions of the embedding.
    - Scalars are real numbers ([R]): rounding of the float32 arithmetic is
      not part of the model, every statement below is about exact arithmetic.
    - [torch.lgamma], [torch.log], [torch.exp] and [torch.pow] are the
      fields of two interfaces and stay uninterpreted in every theorem.
    - A tensor is a device tag, a shape and an indexing function.  Only
      ranks up to two occur in the statements; a one-dimensional tensor of
      length [k] is held with shape [(1, k)] and a zero-dimensional one
      with shape [(1, 1)], which is how torch's broadcasting aligns them
      against a matrix.
    - The model, the optimizer, UMAP and matplotlib are external
      collaborators: an interface whose operations are left abstract.
    - The effects of [train_GMVAE] (calls on the model and the optimizer,
      lines printed, files written) are threaded through a state and
      exception monad; the log holds the newest event first. *)

From Stdlib Require Import Reals Lra Lia List ZArith String Bool Permutation.
Import ListNotations.

Set Implicit Arguments.

(* ================================================================== *)
(** * Python exceptions and fallible results *)

Inductive exn : Type :=
| AssertionError (line : nat)   (* an [assert] of the source, by its line *)
| UnboundLocalError             (* a local read before any assignment *)
| TypeError                     (* [Path + str] *)
| RuntimeError                  (* torch: shapes or devices do not agree *)
| KeyError.                     (* a missing dictionary key *)

Inductive result (A : Type) : Type :=
| Ok (a : A)
| Err (e : exn).

Arguments Ok {A} a.
Arguments Err {A} e.

Definition rbind {A B} (r : result A) (k : A -> result B) : result B :=
  match r with
  | Ok a => k a
  | Err e => Err e
  end.

Notation "'let!' x ':=' e 'in' k" := (rbind e (fun x => k))
  (at level 10, x name, e at level 100, k at level 200).

(* ================================================================== *)
(** * Tensors with torch's broadcasting *)

Module Tensor.

Inductive Device : Type := Cpu | Cuda.

Definition device_eqb (a b : Device) : bool :=
  match a, b with
  | Cpu, Cpu | Cuda, Cuda => true
  | _, _ => false
  end.

Record tensor (A : Type) : Type := mkTensor
  { tdev : Device;
    nrows : nat;
    ncols : nat;
    get : nat -> nat -> A }.

Definition shape {A} (t : tensor A) : nat * nat := (nrows t, ncols t).

Definition shape_eqb (s1 s2 : nat * nat) : bool :=
  Nat.eqb (fst s1) (fst s2) && Nat.eqb (snd s1) (snd s2).

(** [t.to(device)]: the same values, on the requested device. *)
Definition to {A} (d : Device) (t : tensor A) : tensor A :=
  mkTensor d (nrows t) (ncols t) (get t).

(** [t.float()]: a cast, the identity on real numbers. *)
Definition float (t : tensor R) : tensor R := t.

(** [torch.tensor(x, device=d)]: a zero-dimensional tensor. *)
Definition scalar_tensor {A} (d : Device) (x : A) : tensor A :=
  mkTensor d 1 1 (fun _ _ => x).

(** Broadcasting of one dimension: equal sizes, or one of them is 1. *)
Definition bdim (a b : nat) : option nat :=
  if Nat.eqb a b then Some a
  else if Nat.eqb a 1 then Some b
  else if Nat.eqb b 1 then Some a
  else None.

Definition bdim3 (a b c : nat) : option nat :=
  match bdim a b with
  | Some ab => bdim ab c
  | None => None
  end.

(** Reading a tensor through broadcasting: a dimension of size 1 is
    repeated along the index. *)
Definition bget {A} (t : tensor A) (i j : nat) : A :=
  get t (if Nat.eqb (nrows t) 1 then 0%nat else i)
        (if Nat.eqb (ncols t) 1 then 0%nat else j).

(** A unary elementwise operation, and an operation against a Python
    scalar: the shape and the device are kept. *)
Definition map1 {A B} (f : A -> B) (t : tensor A) : tensor B :=
  mkTensor (tdev t) (nrows t) (ncols t) (fun i j => f (get t i j)).

(** A binary elementwise operation on two tensors: they must live on one
    device and their shapes must broadcast.  (torch also lets a
    zero-dimensional CPU tensor meet a tensor of another device; no
    operand of the source is such a tensor.) *)
Definition ew2 {A B C} (f : A -> B -> C) (a : tensor A) (b : tensor B)
  : result (tensor C) :=
  if device_eqb (tdev a) (tdev b) then
    match bdim (nrows a) (nrows b), bdim (ncols a) (ncols b) with
    | Some n, Some m =>
        Ok (mkTensor (tdev a) n m (fun i j => f (bget a i j) (bget b i j)))
    | _, _ => Err RuntimeError
    end
  else Err RuntimeError.

(** [torch.where(cond, x, other)]. *)
Definition where_ {A} (c : tensor bool) (x other : tensor A)
  : result (tensor A) :=
  if device_eqb (tdev c) (tdev x) && device_eqb (tdev c) (tdev other) then
    match bdim3 (nrows c) (nrows x) (nrows other),
          bdim3 (ncols c) (ncols x) (ncols other) with
    | Some n, Some m =>
        Ok (mkTensor (tdev c) n m
              (fun i j => if bget c i j then bget x i j else bget other i j))
    | _, _ => Err RuntimeError
    end
  else Err RuntimeError.

Definition add := ew2 Rplus.
Definition sub := ew2 Rminus.
Definition mul := ew2 Rmult.
Definition neg := map1 Ropp.
Definition add_s (t : tensor R) (s : R) := map1 (fun x => x + s)%R t.
Definition rsub_s (s : R) (t : tensor R) := map1 (fun x => s - x)%R t.

Definition Rltb (x y : R) : bool := if Rlt_dec x y then true else false.

(** [t < s] against a Python scalar. *)
Definition lt_s (t : tensor R) (s : R) : tensor bool :=
  map1 (fun x => Rltb x s) t.

(** [t.pow(2)] and the like, with a Python integer exponent. *)
Definition pow_int (t : tensor R) (k : nat) : tensor R :=
  map1 (fun x => x ^ k)%R t.

(** The index pairs of a shape, in row-major order. *)
Definition indices (n m : nat) : list (nat * nat) :=
  list_prod (seq 0 n) (seq 0 m).

Definition entries {A} (t : tensor A) : list A :=
  map (fun ij => get t (fst ij) (snd ij)) (indices (nrows t) (ncols t)).

Definition Rsum (l : list R) : R := fold_right Rplus 0%R l.

Definition numel {A} (t : tensor A) : nat := (nrows t * ncols t)%nat.

(** [torch.sum(t)] and [torch.mean(t)], over every entry. *)
Definition sum (t : tensor R) : R := Rsum (entries t).
Definition mean (t : tensor R) : R := (sum t / INR (numel t))%R.

(** [t.mean(0)]: the mean over the sample axis, one value per column. *)
Definition col_mean (t : tensor R) (j : nat) : R :=
  (Rsum (map (fun i => get t i j) (seq 0 (nrows t))) / INR (nrows t))%R.

Definition mean0 (t : tensor R) : tensor R :=
  mkTensor (tdev t) 1 (ncols t) (fun _ j => col_mean t j).

(** [F.mse_loss(input, target)] with its default mean reduction. *)
Definition mse_loss (input target : tensor R) : result R :=
  let! d := ew2 (fun x y => (x - y) ^ 2)%R input target in
  Ok (mean d).

(** The entries of a tensor taken in another order. *)
Definition reindex {A} (s : nat * nat -> nat * nat) (t : tensor A) : tensor A :=
  mkTensor (tdev t) (nrows t) (ncols t)
    (fun i j => get t (fst (s (i, j))) (snd (s (i, j)))).

(** A tensor of given shape from a function of the indices. *)
Definition fill {A} (d : Device) (n m : nat) (x : A) : tensor A :=
  mkTensor d n m (fun _ _ => x).

End Tensor.

Import Tensor.

(* ================================================================== *)
(** * torch's special functions *)

Module torch.

(** [torch.log], [torch.exp] and [torch.pow] on one entry. *)
Class Elementary : Type :=
  { log : R -> R;
    exp : R -> R;
    pow : R -> R -> R }.

(** [torch.lgamma] on one entry. *)
Class LogGamma : Type :=
  { lgamma : R -> R }.

End torch.

(* ================================================================== *)
(** * zinb_loss (lines 9-21) *)

Section ZinbLoss.

Context {E : torch.Elementary} {G : torch.LogGamma}.

Local Open Scope R_scope.

(** Line 14-15, the negative binomial part. *)
Definition nb_case (y_true pi r : tensor R) (eps : R) : result (tensor R) :=
  let t1 := neg (map1 torch.lgamma (add_s r eps)) in
  let! yr := add y_true r in
  let t2 := map1 torch.lgamma (add_s yr eps) in
  let! s1 := add t1 t2 in
  let t3 := map1 torch.lgamma (add_s y_true 1) in
  let! s2 := sub s1 t3 in
  let! t4 := mul r (map1 torch.log (add_s pi eps)) in
  let! s3 := add s2 t4 in
  let! t5 := mul y_true (map1 torch.log (rsub_s 1 (add_s pi eps))) in
  add s3 t5.

(** Line 18. *)
Definition zero_nb (pi r : tensor R) : result (tensor R) :=
  ew2 torch.pow pi r.

(** Line 19, the zero-inflated part. *)
Definition zero_case (y_true pi r : tensor R) (eps : R) : result (tensor R) :=
  let! zero_nb := zero_nb pi r in
  let! e := mul (neg r) (map1 torch.log (add_s (rsub_s 1 pi) eps)) in
  let! p := mul (rsub_s 1 zero_nb) (map1 torch.exp e) in
  let! q := add zero_nb p in
  where_ (lt_s y_true eps)
         (neg (map1 torch.log q))
         (scalar_tensor (tdev y_true) 0).

(** The default of the [eps] argument. *)
Definition default_eps : R := 1e-10.

Definition zinb_loss (y_true y_pred pi r : tensor R) (eps : R) : result R :=
  let y_true := float y_true in
  let y_pred := float y_pred in
  let! nb_case := nb_case y_true pi r eps in
  let! zero_case := zero_case y_true pi r eps in
  let! s := add zero_case nb_case in
  Ok (- mean s).

(** The same two parts on one entry, as the lines above compute them. *)
Definition nb_entry (eps y pi r : R) : R :=
  - torch.lgamma (r + eps) + torch.lgamma (y + r + eps) - torch.lgamma (y + 1)
  + r * torch.log (pi + eps) + y * torch.log (1 - (pi + eps)).

Definition zero_entry (eps y pi r : R) : R :=
  if Rltb y eps
  then - torch.log (torch.pow pi r
                    + (1 - torch.pow pi r)
                      * torch.exp (- r * torch.log (1 - pi + eps)))
  else 0.

End ZinbLoss.

(* ================================================================== *)
(** * The composite loss of one batch (lines 51-68) *)

Record ModelOutput : Type := mkOutput
  { reconstructed : tensor R;
    mus : tensor R;
    logvars : tensor R;
    pis : tensor R;
    zs : tensor R }.

Record Losses : Type := mkLosses
  { fraction_loss : R;
    loss_recon : R;
    zinb_loss_val : R;
    loss_kl : R;
    loss_kl_weighted : R;
    loss : R }.

Section CompositeLoss.

Context {E : torch.Elementary} {G : torch.LogGamma}.

Local Open Scope R_scope.

(** Line 64. *)
Definition kl_raw (mus logvars : tensor R) : result R :=
  let! a := add (rsub_s (-1) logvars) (pow_int mus 2) in
  let! b := add a (map1 torch.exp logvars) in
  Ok (0.5 * sum b / 1e9).

(** Line 66. *)
Definition clamp_kl (loss_kl_weighted : R) : R :=
  if Rltb 1 loss_kl_weighted then 1 else loss_kl_weighted.

(** Line 68. *)
Definition composite
    (loss_recon zinb_loss_val fraction_loss loss_kl_weighted : R) : R :=
  loss_recon * 5 + zinb_loss_val + (fraction_loss * 10) + loss_kl_weighted.

(** Lines 51-68: what one batch contributes, from the model's output. *)
Definition batch_loss (data : tensor R) (out : ModelOutput)
    (prob_extra_zero over_disp proportion_tensor : tensor R) (kl_weight : R)
  : result Losses :=
  let proportion_tensor_reshaped := to (tdev (pis out)) proportion_tensor in
  let! fraction_loss := mse_loss (mean0 (pis out)) proportion_tensor_reshaped in
  let! loss_recon := mse_loss (reconstructed out) data in
  let! zinb_loss_val :=
    zinb_loss data (reconstructed out) prob_extra_zero over_disp default_eps in
  let! loss_kl := kl_raw (mus out) (logvars out) in
  let loss_kl_weighted := loss_kl * kl_weight in
  let loss_kl_weighted := clamp_kl loss_kl_weighted in
  let loss :=
    composite loss_recon zinb_loss_val fraction_loss loss_kl_weighted in
  Ok (mkLosses fraction_loss loss_recon zinb_loss_val loss_kl loss_kl_weighted
        loss).

End CompositeLoss.

(* ================================================================== *)
(** * The collaborators and the world train_GMVAE acts on *)

Inductive Mode : Type := Training | Evaluation.

(** What a caller can pass as [base_dir]. *)
Inductive PyVal : Type :=
| PyNone
| PyStr (s : string)
| PyPath (s : string)
| PyInt (z : Z).

Record Batch : Type := mkBatch
  { data : tensor R;
    labels : list Z }.

(** The model and the optimizer (one value of [Params] holds the model's
    parameters and the optimizer's state) and UMAP's reducer.  The forward
    pass reads the mode of the model; neither it nor the optimizer
    switches the mode, which only [model.train()] and [model.eval()] do. *)
Class Collaborators : Type :=
  { Params : Type;
    Grads : Type;
    forward : Params -> Mode -> tensor R -> list Z -> ModelOutput;
    prob_extra_zero : Params -> tensor R;
    over_disp : Params -> tensor R;
    model_to : Device -> Params -> Params;
    backward : Params -> Mode -> Batch -> tensor R -> R -> Grads;
    optimizer_step : Params -> Grads -> Params;
    fit_transform : tensor R -> tensor R }.

Section World.

Context {C : Collaborators}.

Inductive Artifact : Type :=
| TensorFile (t : tensor R)
| StateDict (p : Params)
| Figure (embedding : tensor R) (colors : list string).

Inductive Event : Type :=
| ModelTrain                              (* model.train() *)
| ModelTo (d : Device)                    (* model.to(device) *)
| ModelEval                               (* model.eval() *)
| ZeroGrad (idx : nat)                    (* optimizer.zero_grad() *)
| Forward (idx : nat) (m : Mode)          (* model(data, labels) *)
| Backward (idx : nat) (m : Mode)         (* loss.backward() *)
| OptimizerStep (idx : nat)               (* optimizer.step() *)
| Print (line : nat) (values : list R)    (* a print, by its line *)
| Save (path : string).                   (* torch.save, plt.savefig *)

Record World : Type := mkWorld
  { mode : Mode;
    params : Params;
    log : list Event;
    files : list (string * Artifact) }.

(** State and exceptions: the world survives a raise. *)
Definition M (A : Type) : Type := World -> World * result A.

Definition ret {A} (a : A) : M A := fun w => (w, Ok a).

Definition raise {A} (e : exn) : M A := fun w => (w, Err e).

Definition bind {A B} (c : M A) (k : A -> M B) : M B :=
  fun w =>
    match c w with
    | (w', Ok a) => k a w'
    | (w', Err e) => (w', Err e)
    end.

Definition lift {A} (r : result A) : M A := fun w => (w, r).

Definition emit (e : Event) : M unit :=
  fun w => (mkWorld (mode w) (params w) (e :: log w) (files w), Ok tt).

Definition get_mode : M Mode := fun w => (w, Ok (mode w)).

Definition get_params : M Params := fun w => (w, Ok (params w)).

Definition set_mode (m : Mode) : M unit :=
  fun w => (mkWorld m (params w) (log w) (files w), Ok tt).

Definition set_params (p : Params) : M unit :=
  fun w => (mkWorld (mode w) p (log w) (files w), Ok tt).

Definition write_file (path : string) (a : Artifact) : M unit :=
  fun w => (mkWorld (mode w) (params w) (Save path :: log w)
              ((path, a) :: files w), Ok tt).

End World.

Notation "x <- c ;; k" := (bind c (fun x => k))
  (at level 61, c at next level, right associativity).
Notation "c ;; k" := (bind c (fun _ => k))
  (at level 61, right associativity).

(* ================================================================== *)
(** * train_GMVAE (lines 24-179) *)

(** Python dictionaries with insertion order, as association lists. *)
Section Dict.

Variables (K V : Type) (eqb : K -> K -> bool).

Fixpoint dict_get (d : list (K * V)) (k : K) : result V :=
  match d with
  | [] => Err KeyError
  | (k', v) :: d' => if eqb k' k then Ok v else dict_get d' k
  end.

Fixpoint dict_set (d : list (K * V)) (k : K) (v : V) : list (K * V) :=
  match d with
  | [] => [(k, v)]
  | (k', v') :: d' =>
      if eqb k' k then (k', v) :: d' else (k', v') :: dict_set d' k v
  end.

End Dict.

(** [base_dir + suffix]: only [str + str] is defined. *)
Definition py_add (base_dir : PyVal) (suffix : string) : result string :=
  match base_dir with
  | PyStr s => Ok (s ++ suffix)%string
  | PyNone | PyPath _ | PyInt _ => Err TypeError
  end.

Definition is_not_None (v : PyVal) : bool :=
  match v with
  | PyNone => false
  | _ => true
  end.

Definition isinstance_str (v : PyVal) : bool :=
  match v with
  | PyStr _ => true
  | _ => false
  end.

Definition isinstance_Path (v : PyVal) : bool :=
  match v with
  | PyPath _ => true
  | _ => false
  end.

(** Which of the branches of lines 87 and 154 is taken. *)
Inductive Branch : Type := PeriodicSave | FinalSave | NoSave.

Definition checkpoint_branch (epoch max_epochs : Z) : Branch :=
  if (((epoch + 1) mod 10 =? 0) && negb (epoch =? max_epochs - 1))%Z
  then PeriodicSave
  else if (epoch =? max_epochs - 1)%Z then FinalSave
  else NoSave.

(** Line 120: the keys are [str(v)], compared here as the integers they
    print (printing an integer is injective). *)
Definition label_map (mapping_dict : list (string * Z)) : list (Z * string) :=
  fold_left (fun d kv => dict_set Z.eqb d (snd kv) (fst kv)) mapping_dict [].

(** Lines 121-122: one colour per label, or the first [KeyError]. *)
Fixpoint colors_of (color_map : list (string * string))
    (label_map : list (Z * string)) (k : list Z) : result (list string) :=
  match k with
  | [] => Ok []
  | label :: k' =>
      let! name := dict_get Z.eqb label_map label in
      let! c := dict_get String.eqb color_map name in
      let! cs := colors_of color_map label_map k' in
      Ok (c :: cs)
  end.

Section Train.

Context {E : torch.Elementary} {G : torch.LogGamma} {C : Collaborators}.

Local Open Scope R_scope.

(** The locals a batch leaves behind for the code after the loop. *)
Record BatchVars : Type := mkBatchVars
  { v_labels : list Z;
    v_out : ModelOutput;
    v_losses : Losses }.

Definition assert_ (b : bool) (line : nat) : M unit :=
  if b then ret tt else raise (AssertionError line).

Definition shape_values {A} (t : tensor A) : list R :=
  [INR (nrows t); INR (ncols t)].

(** Lines 41-47. *)
Definition print_first_batch (out : ModelOutput) (data : tensor R) : M unit :=
  emit (Print 41 []) ;;
  emit (Print 42 (shape_values (reconstructed out))) ;;
  emit (Print 43 (shape_values data)) ;;
  emit (Print 44 (shape_values (mus out))) ;;
  emit (Print 45 (shape_values (logvars out))) ;;
  emit (Print 46 (shape_values (pis out))) ;;
  emit (Print 47 (shape_values (zs out))).

(** Lines 35-78, the body of the loop. *)
Definition train_batch (epoch : Z) (device : Device)
    (proportion_tensor : tensor R) (kl_weight : R)
    (idx : nat) (b : Batch) (total_loss : R) : M (R * BatchVars) :=
  let data := to device (data b) in
  let labels := labels b in
  emit (ZeroGrad idx) ;;
  m <- get_mode ;;
  p <- get_params ;;
  emit (Forward idx m) ;;
  let out := forward p m data labels in
  (if ((epoch =? 0)%Z && (idx =? 0)%nat)%bool
   then print_first_batch out data else ret tt) ;;
  assert_ (shape_eqb (shape (reconstructed out)) (shape data)) 49 ;;
  l <- lift (batch_loss data out (prob_extra_zero p) (over_disp p)
               proportion_tensor kl_weight) ;;
  emit (Backward idx m) ;;
  emit (OptimizerStep idx) ;;
  set_params
    (optimizer_step p
       (backward p m (mkBatch data labels) proportion_tensor kl_weight)) ;;
  emit (Print 77 [loss l]) ;;
  ret (total_loss + loss l, mkBatchVars labels out l).

(** Line 31: the loop, with the running total and the locals of the last
    batch seen. *)
Fixpoint batch_loop (epoch : Z) (device : Device)
    (proportion_tensor : tensor R) (kl_weight : R)
    (idx : nat) (dataloader : list Batch)
    (total_loss : R) (last : option BatchVars) : M (R * option BatchVars) :=
  match dataloader with
  | [] => ret (total_loss, last)
  | b :: rest =>
      r <- train_batch epoch device proportion_tensor kl_weight idx b
             total_loss ;;
      batch_loop epoch device proportion_tensor kl_weight (S idx) rest
        (fst r) (Some (snd r))
  end.

(** A read of the locals assigned in the loop body. *)
Definition read_locals (last : option BatchVars) : M BatchVars :=
  match last with
  | Some v => ret v
  | None => raise UnboundLocalError
  end.

Definition summary_values (total_loss : R) (l : Losses) : list R :=
  [loss_kl l; loss_recon l; total_loss; fraction_loss l; zinb_loss_val l].

Definition save_tensor (base_dir : PyVal) (suffix : string) (t : tensor R)
  : M unit :=
  path <- lift (py_add base_dir suffix) ;;
  write_file path (TensorFile t).

Definition save_figure (base_dir : PyVal) (suffix : string)
    (embedding : tensor R) (colors : list string) : M unit :=
  path <- lift (py_add base_dir suffix) ;;
  write_file path (Figure embedding colors).

(** Lines 110-152. *)
Definition plot_umap_block (base_dir : PyVal)
    (mapping_dict : list (string * Z)) (color_map : list (string * string))
    (v : BatchVars) : M unit :=
  emit (Print 111 []) ;;
  let k := v_labels v in
  let reconstructed := reconstructed (v_out v) in
  let z := zs (v_out v) in
  let label_map := label_map mapping_dict in
  mean_colors <- lift (colors_of color_map label_map k) ;;
  z_colors <- lift (colors_of color_map label_map k) ;;
  let embedding_z := fit_transform z in
  let embedding_recon := fit_transform reconstructed in
  save_figure base_dir "umap_latent.png" embedding_z z_colors ;;
  save_figure base_dir "umap_recon.png" embedding_recon mean_colors.

(** Lines 88-152. *)
Definition periodic_save (base_dir : PyVal) (plot_umap : bool)
    (mapping_dict : list (string * Z)) (color_map : list (string * string))
    (total_loss : R) (v : BatchVars) : M unit :=
  emit (Print 88 []) ;;
  emit (Print 89 (summary_values total_loss (v_losses v))) ;;
  emit (Print 92 []) ;;
  save_tensor base_dir "/GMVAE_reconstructed.pt" (reconstructed (v_out v)) ;;
  let mus := mean0 (mus (v_out v)) in
  let logvars := mean0 (logvars (v_out v)) in
  let pis := mean0 (pis (v_out v)) in
  emit (Print 100 []) ;;
  save_tensor base_dir "/GMVAE_mus.pt" mus ;;
  save_tensor base_dir "/GMVAE_logvars.pt" logvars ;;
  save_tensor base_dir "/GMVAE_pis.pt" pis ;;
  emit (Print 104 []) ;;
  emit ModelEval ;;
  set_mode Evaluation ;;
  p <- get_params ;;
  path <- lift (py_add base_dir "GMVAE_model.pt") ;;
  write_file path (StateDict p) ;;
  emit (Print 108 []) ;;
  if plot_umap then plot_umap_block base_dir mapping_dict color_map v
  else ret tt.

(** Lines 155-177. *)
Definition final_save (base_dir : PyVal) (total_loss : R) (v : BatchVars)
  : M unit :=
  emit (Print 155 []) ;;
  emit (Print 158 (summary_values total_loss (v_losses v))) ;;
  emit (Print 161 []) ;;
  save_tensor base_dir "GMVAE_reconstructed.pt" (reconstructed (v_out v)) ;;
  let mus := mean0 (mus (v_out v)) in
  let logvars := mean0 (logvars (v_out v)) in
  let pis := mean0 (pis (v_out v)) in
  emit (Print 169 []) ;;
  save_tensor base_dir "/GMVAE_mus.pt" mus ;;
  save_tensor base_dir "/GMVAE_logvars.pt" logvars ;;
  save_tensor base_dir "/GMVAE_pis.pt" pis ;;
  emit (Print 173 []) ;;
  emit ModelEval ;;
  set_mode Evaluation ;;
  p <- get_params ;;
  path <- lift (py_add base_dir "/GMVAE_model.pt") ;;
  write_file path (StateDict p) ;;
  emit (Print 177 []).

(** Lines 80-85. *)
Definition print_summary (kl_weight : R) (last : option BatchVars)
  : M BatchVars :=
  v <- read_locals last ;;
  emit (Print 80 [fraction_loss (v_losses v)]) ;;
  emit (Print 81 [loss_kl (v_losses v)]) ;;
  emit (Print 82 [loss_kl_weighted (v_losses v)]) ;;
  emit (Print 83 [kl_weight]) ;;
  emit (Print 84 [loss_recon (v_losses v)]) ;;
  emit (Print 85 []) ;;
  ret v.

(** The model and the optimizer are the world the computation runs in;
    the other arguments are those of the source, in its order. *)
Definition train_GMVAE (epoch : Z) (dataloader : list Batch)
    (proportion_tensor : tensor R) (kl_weight : R)
    (mapping_dict : list (string * Z)) (color_map : list (string * string))
    (max_epochs : Z) (device : Device) (base_dir : PyVal) (plot_umap : bool)
  : M R :=
  assert_ (is_not_None base_dir) 25 ;;
  assert_ (isinstance_str base_dir || isinstance_Path base_dir) 26 ;;
  emit ModelTrain ;;
  set_mode Training ;;
  let total_loss := 0 in
  emit (ModelTo device) ;;
  p <- get_params ;;
  set_params (model_to device p) ;;
  r <- batch_loop epoch device proportion_tensor kl_weight 0 dataloader
         total_loss None ;;
  let total_loss := fst r in
  v <- print_summary kl_weight (snd r) ;;
  match checkpoint_branch epoch max_epochs with
  | PeriodicSave =>
      periodic_save base_dir plot_umap mapping_dict color_map total_loss v
  | FinalSave => final_save base_dir total_loss v
  | NoSave => ret tt
  end ;;
  ret total_loss.

End Train.

(* ================================================================== *)
(** * Vocabulary of the statements *)

(** A dimension of size [a] broadcasts against one of size [n]. *)
Definition dim_fits (n a : nat) : Prop := a = 1%nat \/ a = n.

(** [t] lives on [d] and broadcasts to the shape [(n, m)]. *)
Definition fits {A} (d : Device) (n m : nat) (t : tensor A) : Prop :=
  tdev t = d /\ dim_fits n (nrows t) /\ dim_fits m (ncols t).

(** [t] lives on [d] and has the shape [(n, m)]. *)
Definition full {A} (d : Device) (n m : nat) (t : tensor A) : Prop :=
  tdev t = d /\ nrows t = n /\ ncols t = m.

Definition all_zero (t : tensor R) : Prop :=
  forall i j, (i < nrows t)%nat -> (j < ncols t)%nat -> get t i j = 0%R.

(** A sum over the index pairs of a shape. *)
Definition sum_over (n m : nat) (f : nat -> nat -> R) : R :=
  Rsum (map (fun ij => f (fst ij) (snd ij)) (indices n m)).

Section Statements.

Context {E : torch.Elementary} {G : torch.LogGamma}.

Local Open Scope R_scope.

(** The five summands of lines 14-15 on one entry, in the order of the
    source. *)
Definition nb_terms (eps y pi r : R) : list R :=
  [ - torch.lgamma (r + eps);
    torch.lgamma (y + r + eps);
    - torch.lgamma (y + 1);
    r * torch.log (pi + eps);
    y * torch.log (1 - (pi + eps)) ].

(** What one entry adds to the mean of line 21. *)
Definition zinb_entry (eps y pi r : R) : R :=
  zero_entry eps y pi r + nb_entry eps y pi r.

(** The identity the specification writes for the negative binomial part,
    without any [eps]. *)
Definition nb_identity (y pi r : R) : R :=
  torch.lgamma (y + r) - torch.lgamma r - torch.lgamma (y + 1)
  + r * torch.log pi + y * torch.log (1 - pi).

(** The zero-case term as the specification writes it. *)
Definition zero_term_as_specified (pi r : R) : R :=
  - torch.log (torch.pow pi r
               + (1 - torch.pow pi r) * torch.exp (- r * torch.log (1 - pi))).

End Statements.

(** The [k]-th summand of the negative binomial part depends on [eps]
    under some reading of [lgamma] and [log] and at some entry. *)
Definition term_uses_eps (k : nat) : Prop :=
  exists (E : torch.Elementary) (G : torch.LogGamma) (e1 e2 y pi r : R),
    nth k (nb_terms e1 y pi r) 0%R <> nth k (nb_terms e2 y pi r) 0%R.

(** Every summand of the negative binomial part is stabilised with [eps]. *)
Definition every_nb_term_uses_eps : Prop :=
  forall k, (k < 5)%nat -> term_uses_eps k.

Section RunStatements.

Context {E : torch.Elementary} {G : torch.LogGamma} {C : Collaborators}.

(** The losses of the batches of one epoch, one after the other: each
    batch is seen by the parameters the steps before it left. *)
Fixpoint batch_losses (device : Device) (proportion_tensor : tensor R)
    (kl_weight : R) (p : Params) (dataloader : list Batch)
  : result (list R) :=
  match dataloader with
  | [] => Ok []
  | b :: rest =>
      let x := to device (data b) in
      let out := forward p Training x (labels b) in
      if shape_eqb (shape (reconstructed out)) (shape x) then
        let! l := batch_loss x out (prob_extra_zero p) (over_disp p)
                    proportion_tensor kl_weight in
        let p' := optimizer_step p
                    (backward p Training (mkBatch x (labels b))
                       proportion_tensor kl_weight) in
        let! ls := batch_losses device proportion_tensor kl_weight p' rest in
        Ok (loss l :: ls)
      else Err (AssertionError 49)
  end.

(** A batch to name where a list of batches has none. *)
Definition no_batch : Batch := mkBatch (fill Cpu 0 0 0%R) [].

(** The checkpoint of lines 87-177 goes through: string concatenation is
    defined on [base_dir] and, where colours are looked up, every label of
    the last batch has one. *)
Definition checkpoint_passes (epoch max_epochs : Z) (base_dir : PyVal)
    (plot_umap : bool) (mapping_dict : list (string * Z))
    (color_map : list (string * string)) (dataloader : list Batch) : Prop :=
  match checkpoint_branch epoch max_epochs with
  | NoSave => True
  | FinalSave => isinstance_str base_dir = true
  | PeriodicSave =>
      isinstance_str base_dir = true /\
      (plot_umap = true ->
       exists cs,
         colors_of color_map (label_map mapping_dict)
           (labels (last dataloader no_batch)) = Ok cs)
  end.

(** The events of a batch that are allowed before its shape assertion. *)
Definition before_assert (idx : nat) (e : Event) : Prop :=
  e = ZeroGrad idx \/ e = Forward idx Training \/
  exists line values, e = Print line values /\ (41 <= line <= 47)%nat.



(** The world in which the loop starts, after lines 25-29. *)
Definition entry_world (device : Device) (w : World) : World :=
  mkWorld Training (model_to device (params w))
    (ModelTo device :: ModelTrain :: log w) (files w).

(** Lines 80-179: what [train_GMVAE] does once the loop is over, from the
    running total and the locals the loop left. *)
Definition after_loop (epoch : Z) (kl_weight : R)
    (mapping_dict : list (string * Z)) (color_map : list (string * string))
    (max_epochs : Z) (base_dir : PyVal) (plot_umap : bool)
    (r : R * option BatchVars) : M R :=
  v <- print_summary kl_weight (snd r) ;;
  match checkpoint_branch epoch max_epochs with
  | PeriodicSave =>
      periodic_save base_dir plot_umap mapping_dict color_map (fst r) v
  | FinalSave => final_save base_dir (fst r) v
  | NoSave => ret tt
  end ;;
  ret (fst r).

(** What lines 41-47 print, newest first. *)
Definition first_batch_events (epoch : Z) (idx : nat) (out : ModelOutput)
    (x : tensor R) : list Event :=
  if ((epoch =? 0)%Z && (idx =? 0)%nat)%bool then
    [ Print 47 (shape_values (zs out));
      Print 46 (shape_values (pis out));
      Print 45 (shape_values (logvars out));
      Print 44 (shape_values (mus out));
      Print 43 (shape_values x);
      Print 42 (shape_values (reconstructed out));
      Print 41 [] ]
  else [].

(** A computation keeps the mode within [inv], only adds events to the
    log, and adds only events that satisfy [ok]; this whether it returns
    or raises. *)
Definition runs {A} (inv : Mode -> Prop) (ok : Event -> Prop) (c : M A)
  : Prop :=
  forall w, inv (mode w) ->
    inv (mode (fst (c w))) /\
    exists new, log (fst (c w)) = new ++ log w /\ Forall ok new.

(** A computation adds the event [e] to the log, whatever the world. *)
Definition emits {A} (e : Event) (c : M A) : Prop :=
  forall w, exists new, log (fst (c w)) = new ++ log w /\ In e new.



(** A computation returns, whatever the world. *)
Definition succeeds {A} (c : M A) : Prop :=
  forall w, exists w' a, c w = (w', Ok a).

End RunStatements.

(* ================================================================== *)
(** * Concrete inputs *)

(** The real logarithm, exponential and power: torch's functions agree
    with them on positive arguments. *)
Definition real_elementary : torch.Elementary :=
  {| torch.log := ln; torch.exp := Rtrigo_def.exp; torch.pow := Rpower |}.

(** The identity in the place of [torch.lgamma], for statements that hold
    whatever [lgamma] is. *)
Definition plain_lgamma : torch.LogGamma :=
  {| torch.lgamma := fun x => x |}.

(** The identity in the place of the elementary functions, likewise. *)
Definition plain_elementary : torch.Elementary :=
  {| torch.log := fun x => x; torch.exp := fun x => x;
     torch.pow := fun x _ => x |}.

(** A model without parameters whose reconstruction is its input; [extra]
    columns are added to the reconstruction, to get a model whose output
    has the wrong shape. *)
Definition echo_model (extra : nat) : Collaborators :=
  {| Params := unit;
     Grads := unit;
     forward := fun _ _ x _ =>
       mkOutput (mkTensor (tdev x) (nrows x) (ncols x + extra) (get x))
                (fill (tdev x) (nrows x) 1 0%R)
                (fill (tdev x) (nrows x) 1 0%R)
                (fill (tdev x) (nrows x) 2 (1 / 2)%R)
                (fill (tdev x) (nrows x) 1 0%R);
     prob_extra_zero := fun _ => fill Cpu 1 1 (1 / 2)%R;
     over_disp := fun _ => fill Cpu 1 1 1%R;
     model_to := fun _ p => p;
     backward := fun _ _ _ _ _ => tt;
     optimizer_step := fun p _ => p;
     fit_transform := fun t => t |}.

Definition start_world {C : Collaborators} (m : Mode) (p : Params) : World :=
  mkWorld m p [] [].

(** A batch of 32 samples with 99 features, all zero. *)
Definition batch_32_99 : Batch := mkBatch (fill Cpu 32 99 0%R) (repeat 0%Z 32).

(** A batch of one sample with two features. *)
Definition batch_1_2 : Batch :=
  mkBatch (mkTensor Cpu 1 2 (fun _ j => INR j)) [0%Z].

Definition uniform_2 : tensor R := fill Cpu 1 2 (1 / 2)%R.

(** What the echoing model returns on that batch. *)
Definition echo_out : ModelOutput :=
  @forward (echo_model 0) tt Training (data batch_1_2) (labels batch_1_2).

(** The two columns of a two-column tensor, exchanged. *)
Definition swap_columns (ij : nat * nat) : nat * nat :=
  (fst ij, (1 - snd ij)%nat).

Definition out_dir : PyVal := PyStr "out".

(** The dispersion parameters of the echoing model. *)
Definition echo_pi : tensor R := @prob_extra_zero (echo_model 0) tt.
Definition echo_r : tensor R := @over_disp (echo_model 0) tt.

(** The world before a first call, and a call of the echoing model on the
    one batch above, at a given epoch out of 50. *)
Definition echo_world : @World (echo_model 0) :=
  @start_world (echo_model 0) Evaluation tt.

Abbreviation echo_call epoch dataloader base_dir :=
  (@train_GMVAE plain_elementary plain_lgamma (echo_model 0) epoch dataloader
     uniform_2 1%R [] [] 50%Z Cpu base_dir false).

(** A batch of two samples with two features, and what the echoing model
    returns on it. *)
Definition batch_2_2 : Batch :=
  mkBatch (mkTensor Cpu 2 2 (fun i j => INR (i + j))) [0%Z; 1%Z].

Definition echo_out_2 : ModelOutput :=
  @forward (echo_model 0) tt Training (data batch_2_2) (labels batch_2_2).

(** The two rows of a two-row tensor, exchanged. *)
Definition swap_rows (i : nat) : nat := (1 - i)%nat.

(** The output of the echoing model with other latent means. *)
Definition wide_out (mu : R) : ModelOutput :=
  mkOutput (reconstructed echo_out) (fill Cpu 1 1 mu) (logvars echo_out)
    (pis echo_out) (zs echo_out).

(** A model like the echoing one, whose reconstruction has one more
    column for every sample after the first: a batch of one sample goes
    through, a larger one fails the assertion of line 49. *)
Definition single_sample_model : Collaborators :=
  {| Params := unit;
     Grads := unit;
     forward := fun _ _ x _ =>
       mkOutput (mkTensor (tdev x) (nrows x) (ncols x + (nrows x - 1))
                   (get x))
                (fill (tdev x) (nrows x) 1 0%R)
                (fill (tdev x) (nrows x) 1 0%R)
                (fill (tdev x) (nrows x) 2 (1 / 2)%R)
                (fill (tdev x) (nrows x) 1 0%R);
     prob_extra_zero := fun _ => fill Cpu 1 1 (1 / 2)%R;
     over_disp := fun _ => fill Cpu 1 1 1%R;
     model_to := fun _ p => p;
     backward := fun _ _ _ _ _ => tt;
     optimizer_step := fun p _ => p;
     fit_transform := fun t => t |}.

(** One cell type and its colour. *)
Definition one_type : list (string * Z) := [("T"%string, 0%Z)].
Definition one_colour : list (string * string) :=
  [("T"%string, "red"%string)].

(* ================================================================== *)
(** * Further vocabulary: what a call does and leaves behind *)

(** Reordering the samples of a batch: the rows move, the columns stay. *)
Definition rows (rho : nat -> nat) (ij : nat * nat) : nat * nat :=
  (rho (fst ij), snd ij).

Definition permute_samples (rho : nat -> nat) (out : ModelOutput)
  : ModelOutput :=
  mkOutput (reindex (rows rho) (reconstructed out))
           (reindex (rows rho) (mus out))
           (reindex (rows rho) (logvars out))
           (reindex (rows rho) (pis out))
           (reindex (rows rho) (zs out)).

Section FurtherStatements.

Context {E : torch.Elementary} {G : torch.LogGamma} {C : Collaborators}.

(** The parameters after one optimizer step per batch of a list. *)
Definition params_after (device : Device) (proportion_tensor : tensor R)
    (kl_weight : R) (p : Params) (dataloader : list Batch) : Params :=
  fold_left
    (fun p b =>
       optimizer_step p
         (backward p Training (mkBatch (to device (data b)) (labels b))
            proportion_tensor kl_weight))
    dataloader p.

(** The locals the body of the loop assigns on batch [b] when the model
    has the parameters [p]. *)
Definition batch_vars (device : Device) (proportion_tensor : tensor R)
    (kl_weight : R) (p : Params) (b : Batch) : result BatchVars :=
  let x := to device (data b) in
  let out := forward p Training x (labels b) in
  let! l := batch_loss x out (prob_extra_zero p) (over_disp p)
              proportion_tensor kl_weight in
  Ok (mkBatchVars (labels b) out l).

(** The calls on the optimizer and on the model's forward and backward
    passes, among the events of a log. *)
Definition is_call (e : Event) : bool :=
  match e with
  | ZeroGrad _ | Forward _ _ | Backward _ _ | OptimizerStep _ => true
  | _ => false
  end.

Definition calls_of (events : list Event) : list Event :=
  filter is_call events.

(** The four calls of the batch of index [idx], in the order of the
    source. *)
Definition calls_of_batch (idx : nat) : list Event :=
  [ZeroGrad idx; Forward idx Training; Backward idx Training;
   OptimizerStep idx].

(** The values printed by line 77, among the events of a log. *)
Definition printed_loss (e : Event) : list R :=
  match e with
  | Print line values => if Nat.eqb line 77 then values else []
  | _ => []
  end.

Definition printed_losses (events : list Event) : list R :=
  flat_map printed_loss events.

(** The files of the final branch, newest first. *)
Definition final_files (s : string) (v : BatchVars) (p : Params)
  : list (string * Artifact) :=
  [ ((s ++ "/GMVAE_model.pt")%string, StateDict p);
    ((s ++ "/GMVAE_pis.pt")%string, TensorFile (mean0 (pis (v_out v))));
    ((s ++ "/GMVAE_logvars.pt")%string,
     TensorFile (mean0 (logvars (v_out v))));
    ((s ++ "/GMVAE_mus.pt")%string, TensorFile (mean0 (mus (v_out v))));
    ((s ++ "GMVAE_reconstructed.pt")%string,
     TensorFile (reconstructed (v_out v))) ].

(** The files of the periodic branch before any plot, newest first. *)
Definition periodic_files (s : string) (v : BatchVars) (p : Params)
  : list (string * Artifact) :=
  [ ((s ++ "GMVAE_model.pt")%string, StateDict p);
    ((s ++ "/GMVAE_pis.pt")%string, TensorFile (mean0 (pis (v_out v))));
    ((s ++ "/GMVAE_logvars.pt")%string,
     TensorFile (mean0 (logvars (v_out v))));
    ((s ++ "/GMVAE_mus.pt")%string, TensorFile (mean0 (mus (v_out v))));
    ((s ++ "/GMVAE_reconstructed.pt")%string,
     TensorFile (reconstructed (v_out v))) ].

(** What lines 80-85 print, newest first. *)
Definition summary_events (kl_weight : R) (v : BatchVars) : list Event :=
  [ Print 85 [];
    Print 84 [loss_recon (v_losses v)];
    Print 83 [kl_weight];
    Print 82 [loss_kl_weighted (v_losses v)];
    Print 81 [loss_kl (v_losses v)];
    Print 80 [fraction_loss (v_losses v)] ].

(** The events of the final branch, newest first. *)
Definition final_events (s : string) (total : R) (v : BatchVars)
  : list Event :=
  [ Print 177 [];
    Save (s ++ "/GMVAE_model.pt")%string;
    ModelEval;
    Print 173 [];
    Save (s ++ "/GMVAE_pis.pt")%string;
    Save (s ++ "/GMVAE_logvars.pt")%string;
    Save (s ++ "/GMVAE_mus.pt")%string;
    Print 169 [];
    Save (s ++ "GMVAE_reconstructed.pt")%string;
    Print 161 [];
    Print 158 (summary_values total (v_losses v));
    Print 155 [] ].

(** The events of the periodic branch up to line 108, newest first. *)
Definition periodic_events (s : string) (total : R) (v : BatchVars)
  : list Event :=
  [ Print 108 [];
    Save (s ++ "GMVAE_model.pt")%string;
    ModelEval;
    Print 104 [];
    Save (s ++ "/GMVAE_pis.pt")%string;
    Save (s ++ "/GMVAE_logvars.pt")%string;
    Save (s ++ "/GMVAE_mus.pt")%string;
    Print 100 [];
    Save (s ++ "/GMVAE_reconstructed.pt")%string;
    Print 92 [];
    Print 89 (summary_values total (v_losses v));
    Print 88 [] ].

(** What a checkpoint branch prints before its first write. *)
Definition branch_head (b : Branch) (total : R) (v : BatchVars)
  : list Event :=
  match b with
  | PeriodicSave =>
      [Print 92 []; Print 89 (summary_values total (v_losses v)); Print 88 []]
  | FinalSave =>
      [Print 161 []; Print 158 (summary_values total (v_losses v));
       Print 155 []]
  | NoSave => []
  end.

End FurtherStatements.

(* ================================================================== *)
(** * Facts about broadcasting *)

Section BroadcastFacts.

Lemma bdim_spec (a b n : nat) :
  bdim a b = Some n ->
  dim_fits n a /\ dim_fits n b /\ (n = 1%nat -> a = 1%nat /\ b = 1%nat).
Proof.
  unfold bdim, dim_fits.
  destruct (Nat.eqb_spec a b), (Nat.eqb_spec a 1), (Nat.eqb_spec b 1);
    intros H; inversion H; subst; lia.
Qed.

Lemma bdim_fits (n a b : nat) :
  dim_fits n a -> dim_fits n b -> exists c, bdim a b = Some c /\ dim_fits n c.
Proof.
  unfold bdim, dim_fits. intros Ha Hb.
  destruct (Nat.eqb_spec a b), (Nat.eqb_spec a 1), (Nat.eqb_spec b 1);
    try (exfalso; lia); eexists; (split; [reflexivity | lia]).
Qed.

Lemma bdim_full_l (n b : nat) : dim_fits n b -> bdim n b = Some n.
Proof.
  unfold bdim, dim_fits. intros Hb.
  destruct (Nat.eqb_spec n b), (Nat.eqb_spec n 1), (Nat.eqb_spec b 1);
    f_equal; lia.
Qed.

Lemma bdim_full_r (n a : nat) : dim_fits n a -> bdim a n = Some n.
Proof.
  unfold bdim, dim_fits. intros Ha.
  destruct (Nat.eqb_spec a n), (Nat.eqb_spec a 1), (Nat.eqb_spec n 1);
    f_equal; lia.
Qed.

Lemma device_eqb_refl (d : Device) : device_eqb d d = true.
Proof. destruct d; reflexivity. Qed.

Lemma device_eqb_eq (a b : Device) : device_eqb a b = true -> a = b.
Proof. destruct a, b; simpl; congruence. Qed.

(** Reading through a broadcast dimension twice is reading through it
    once. *)
Lemma bidx_absorb (a n i : nat) :
  dim_fits n a -> (n = 1%nat -> a = 1%nat) ->
  (if Nat.eqb a 1 then 0%nat else if Nat.eqb n 1 then 0%nat else i)
  = (if Nat.eqb a 1 then 0%nat else i).
Proof.
  intros Hf H1.
  destruct (Nat.eqb_spec a 1); [reflexivity |].
  destruct (Nat.eqb_spec n 1); [exfalso; auto | reflexivity].
Qed.

Lemma full_fits {A} d n m (t : tensor A) : full d n m t -> fits d n m t.
Proof. unfold full, fits, dim_fits. intuition. Qed.

Lemma bget_map1 {A B} (f : A -> B) (t : tensor A) i j :
  bget (map1 f t) i j = f (bget t i j).
Proof. reflexivity. Qed.

(** Whatever the shapes, an entry of the result of an elementwise
    operation is the operation on the entries read through broadcasting. *)
Lemma ew2_bget {A B C} (f : A -> B -> C) a b c i j :
  ew2 f a b = Ok c -> bget c i j = f (bget a i j) (bget b i j).
Proof.
  unfold ew2. destruct (device_eqb (tdev a) (tdev b)); [| discriminate].
  destruct (bdim (nrows a) (nrows b)) as [n |] eqn:Hr; [| discriminate].
  destruct (bdim (ncols a) (ncols b)) as [m |] eqn:Hc; [| discriminate].
  intros H; inversion H; subst c; clear H.
  apply bdim_spec in Hr as (Hra & Hrb & Hr1).
  apply bdim_spec in Hc as (Hca & Hcb & Hc1).
  unfold bget; simpl.
  rewrite !bidx_absorb by (auto; intros Hn; apply Hr1 in Hn || apply Hc1 in Hn;
                           tauto).
  reflexivity.
Qed.

Lemma ew2_fits {A B C} (f : A -> B -> C) d n m a b :
  fits d n m a -> fits d n m b ->
  exists c, ew2 f a b = Ok c /\ fits d n m c.
Proof.
  intros (Hda & Hra & Hca) (Hdb & Hrb & Hcb). unfold ew2.
  rewrite Hda, Hdb, device_eqb_refl.
  destruct (bdim_fits Hra Hrb) as (r & -> & Hr).
  destruct (bdim_fits Hca Hcb) as (c & -> & Hc).
  eexists; split; [reflexivity |]. repeat split; assumption.
Qed.

Lemma ew2_full_l {A B C} (f : A -> B -> C) d n m a b :
  full d n m a -> fits d n m b ->
  exists c, ew2 f a b = Ok c /\ full d n m c.
Proof.
  intros (Hda & Hra & Hca) (Hdb & Hrb & Hcb). unfold ew2.
  rewrite Hda, Hdb, device_eqb_refl, Hra, Hca.
  rewrite (bdim_full_l Hrb), (bdim_full_l Hcb).
  eexists; split; [reflexivity |]. repeat split.
Qed.

Lemma ew2_full_r {A B C} (f : A -> B -> C) d n m a b :
  fits d n m a -> full d n m b ->
  exists c, ew2 f a b = Ok c /\ full d n m c.
Proof.
  intros (Hda & Hra & Hca) (Hdb & Hrb & Hcb). unfold ew2.
  rewrite Hda, Hdb, device_eqb_refl, Hrb, Hcb.
  rewrite (bdim_full_r Hra), (bdim_full_r Hca).
  eexists; split; [reflexivity |]. repeat split.
Qed.

Lemma where_full {A} d n m (c : tensor bool) (x other : tensor A) :
  full d n m c -> fits d n m x -> fits d n m other ->
  exists t, where_ c x other = Ok t /\ full d n m t /\
    forall i j, bget t i j
                = if bget c i j then bget x i j else bget other i j.
Proof.
  intros (Hdc & Hrc & Hcc) (Hdx & Hrx & Hcx) (Hdo & Hro & Hco).
  unfold where_, bdim3.
  rewrite Hdc, Hdx, Hdo, device_eqb_refl, Hrc, Hcc. simpl.
  rewrite (bdim_full_l Hrx), (bdim_full_l Hcx).
  rewrite (bdim_full_l Hro), (bdim_full_l Hco).
  eexists; split; [reflexivity |]. split; [repeat split |].
  intros i j. unfold bget at 1; simpl.
  assert (Hi : forall a k, dim_fits k a ->
            (if Nat.eqb a 1 then 0%nat else if Nat.eqb k 1 then 0%nat else i)
            = (if Nat.eqb a 1 then 0%nat else i)).
  { intros a k Ha. destruct (Nat.eqb_spec a 1); [reflexivity |].
    destruct (Nat.eqb_spec k 1); [| reflexivity].
    unfold dim_fits in Ha. lia. }
  assert (Hj : forall a k, dim_fits k a ->
            (if Nat.eqb a 1 then 0%nat else if Nat.eqb k 1 then 0%nat else j)
            = (if Nat.eqb a 1 then 0%nat else j)).
  { intros a k Ha. destruct (Nat.eqb_spec a 1); [reflexivity |].
    destruct (Nat.eqb_spec k 1); [| reflexivity].
    unfold dim_fits in Ha. lia. }
  unfold bget. rewrite Hrc, Hcc.
  rewrite (Hi _ _ Hrx), (Hj _ _ Hcx), (Hi _ _ Hro), (Hj _ _ Hco).
  assert (Hn : (if Nat.eqb n 1 then 0%nat else if Nat.eqb n 1 then 0%nat else i)
               = (if Nat.eqb n 1 then 0%nat else i))
    by (destruct (Nat.eqb n 1); reflexivity).
  assert (Hm : (if Nat.eqb m 1 then 0%nat else if Nat.eqb m 1 then 0%nat else j)
               = (if Nat.eqb m 1 then 0%nat else j))
    by (destruct (Nat.eqb m 1); reflexivity).
  rewrite Hn, Hm. reflexivity.
Qed.

(** Inside its shape, a tensor is read the same with and without
    broadcasting. *)
Lemma full_get_bget {A} d n m (t : tensor A) i j :
  full d n m t -> (i < n)%nat -> (j < m)%nat -> bget t i j = get t i j.
Proof.
  intros (_ & Hr & Hc) Hi Hj. unfold bget. rewrite Hr, Hc.
  destruct (Nat.eqb_spec n 1), (Nat.eqb_spec m 1); f_equal; lia.
Qed.

End BroadcastFacts.

(* ================================================================== *)
(** * Facts about sums *)

Section SumFacts.

Local Open Scope R_scope.

Lemma Rsum_app (l1 l2 : list R) : Rsum (l1 ++ l2) = Rsum l1 + Rsum l2.
Proof.
  induction l1 as [| x l1 IH]; simpl; [lra | rewrite IH; lra].
Qed.

Lemma Rsum_perm (l l' : list R) : Permutation l l' -> Rsum l = Rsum l'.
Proof.
  induction 1; simpl; lra.
Qed.

Lemma Rsum_map_ext_in {A} (f g : A -> R) (l : list A) :
  (forall x, In x l -> f x = g x) -> Rsum (map f l) = Rsum (map g l).
Proof.
  intros H. f_equal. apply map_ext_in, H.
Qed.

Lemma in_indices (n m i j : nat) :
  In (i, j) (indices n m) <-> (i < n)%nat /\ (j < m)%nat.
Proof.
  unfold indices. rewrite in_prod_iff, !in_seq. lia.
Qed.

Lemma sum_over_ext (n m : nat) (f g : nat -> nat -> R) :
  (forall i j, (i < n)%nat -> (j < m)%nat -> f i j = g i j) ->
  sum_over n m f = sum_over n m g.
Proof.
  intros H. unfold sum_over. apply Rsum_map_ext_in.
  intros [i j] Hin. apply in_indices in Hin. simpl. apply H; tauto.
Qed.

Lemma Rsum_prod_rows (h : nat -> R) (l1 l2 : list nat) :
  Rsum (map (fun ij => h (snd ij)) (list_prod l1 l2))
  = INR (List.length l1) * Rsum (map h l2).
Proof.
  induction l1 as [| a l1 IH].
  - simpl. lra.
  - cbn [list_prod]. rewrite map_app, Rsum_app, IH, map_map.
    cbn [snd]. change (List.length (a :: l1)) with (S (List.length l1)).
    rewrite S_INR. change (fun x : nat => h x) with h. ring.
Qed.

(** A summand that does not depend on the row is summed once per row. *)
Lemma sum_over_rows (n m : nat) (h : nat -> R) :
  sum_over n m (fun _ j => h j) = INR n * Rsum (map h (seq 0 m)).
Proof.
  unfold sum_over, indices.
  rewrite (Rsum_prod_rows h), length_seq. reflexivity.
Qed.

Lemma sum_over_one_row (m : nat) (f : nat -> nat -> R) :
  sum_over 1 m f = Rsum (map (f 0%nat) (seq 0 m)).
Proof.
  unfold sum_over, indices. cbn [seq list_prod].
  rewrite app_nil_r, map_map. reflexivity.
Qed.

Lemma sum_full d n m (t : tensor R) :
  full d n m t -> sum t = sum_over n m (bget t).
Proof.
  intros Hf. unfold sum, entries, sum_over.
  destruct Hf as (Hd & Hr & Hc). rewrite Hr, Hc.
  apply Rsum_map_ext_in. intros [i j] Hin. apply in_indices in Hin.
  simpl. symmetry. apply (@full_get_bget _ d n m); unfold full; tauto.
Qed.

Lemma mean_full d n m (t : tensor R) :
  full d n m t -> mean t = sum_over n m (bget t) / INR (n * m).
Proof.
  intros Hf. unfold mean, numel. rewrite (sum_full Hf).
  destruct Hf as (_ & -> & ->). reflexivity.
Qed.

(** Summing over reordered index pairs. *)
Lemma sum_over_reindex (n m : nat) (s : nat * nat -> nat * nat)
    (f : nat -> nat -> R) :
  Permutation (map s (indices n m)) (indices n m) ->
  sum_over n m (fun i j => f (fst (s (i, j))) (snd (s (i, j))))
  = sum_over n m f.
Proof.
  intros Hp. unfold sum_over.
  transitivity (Rsum (map (fun ij => f (fst ij) (snd ij))
                        (map s (indices n m)))).
  - rewrite map_map. apply Rsum_map_ext_in. intros [i j] _. reflexivity.
  - apply Rsum_perm, Permutation_map, Hp.
Qed.

End SumFacts.

(* ================================================================== *)
(** * zinb_loss entry by entry *)

Section ZinbFacts.

Context {E : torch.Elementary} {G : torch.LogGamma}.

Local Open Scope R_scope.

(** Lines 14-15 on tensors that line up: every entry of the result is
    [nb_entry] of the entries. *)
Lemma nb_case_full d n m (y pi r : tensor R) (eps : R) :
  full d n m y -> fits d n m pi -> fits d n m r ->
  exists t, nb_case y pi r eps = Ok t /\ full d n m t /\
    forall i j,
      bget t i j = nb_entry eps (bget y i j) (bget pi i j) (bget r i j).
Proof.
  intros Hy Hpi Hr. unfold nb_case, add, sub, mul.
  destruct (ew2_full_l Rplus Hy Hr) as (yr & Eyr & Fyr).
  rewrite Eyr; cbn [rbind].
  assert (F1 : fits d n m (neg (map1 torch.lgamma (add_s r eps)))) by exact Hr.
  assert (F2 : full d n m (map1 torch.lgamma (add_s yr eps))) by exact Fyr.
  destruct (ew2_full_r Rplus F1 F2) as (s1 & Es1 & Fs1).
  rewrite Es1; cbn [rbind].
  assert (F3 : full d n m (map1 torch.lgamma (add_s y 1))) by exact Hy.
  destruct (ew2_full_l Rminus Fs1 (full_fits F3)) as (s2 & Es2 & Fs2).
  rewrite Es2; cbn [rbind].
  assert (F4 : fits d n m (map1 torch.log (add_s pi eps))) by exact Hpi.
  destruct (ew2_fits Rmult Hr F4) as (t4 & Et4 & Ft4).
  rewrite Et4; cbn [rbind].
  destruct (ew2_full_l Rplus Fs2 Ft4) as (s3 & Es3 & Fs3).
  rewrite Es3; cbn [rbind].
  assert (F5 : fits d n m (map1 torch.log (rsub_s 1 (add_s pi eps))))
    by exact Hpi.
  destruct (ew2_full_l Rmult Hy F5) as (t5 & Et5 & Ft5).
  rewrite Et5; cbn [rbind].
  destruct (ew2_full_l Rplus Fs3 (full_fits Ft5)) as (t & Et & Ft).
  exists t. split; [exact Et |]. split; [exact Ft |].
  intros i j.
  rewrite (ew2_bget _ _ _ i j Et), (ew2_bget _ _ _ i j Es3),
    (ew2_bget _ _ _ i j Et5), (ew2_bget _ _ _ i j Es2),
    (ew2_bget _ _ _ i j Et4), (ew2_bget _ _ _ i j Es1).
  unfold neg, add_s, rsub_s. rewrite !bget_map1.
  rewrite (ew2_bget _ _ _ i j Eyr). reflexivity.
Qed.

(** Line 18-19 on tensors that line up. *)
Lemma zero_case_full d n m (y pi r : tensor R) (eps : R) :
  full d n m y -> fits d n m pi -> fits d n m r ->
  exists t, zero_case y pi r eps = Ok t /\ full d n m t /\
    forall i j,
      bget t i j = zero_entry eps (bget y i j) (bget pi i j) (bget r i j).
Proof.
  intros Hy Hpi Hr. unfold zero_case, zero_nb, add, mul.
  destruct (ew2_fits torch.pow Hpi Hr) as (z & Ez & Fz).
  rewrite Ez; cbn [rbind].
  assert (F1 : fits d n m (neg r)) by exact Hr.
  assert (F2 : fits d n m (map1 torch.log (add_s (rsub_s 1 pi) eps)))
    by exact Hpi.
  destruct (ew2_fits Rmult F1 F2) as (e & Ee & Fe).
  rewrite Ee; cbn [rbind].
  assert (F3 : fits d n m (rsub_s 1 z)) by exact Fz.
  assert (F4 : fits d n m (map1 torch.exp e)) by exact Fe.
  destruct (ew2_fits Rmult F3 F4) as (p & Ep & Fp).
  rewrite Ep; cbn [rbind].
  destruct (ew2_fits Rplus Fz Fp) as (q & Eq & Fq).
  rewrite Eq; cbn [rbind].
  assert (Fc : full d n m (lt_s y eps)) by exact Hy.
  assert (Fx : fits d n m (neg (map1 torch.log q))) by exact Fq.
  assert (Fo : fits d n m (scalar_tensor (tdev y) 0)).
  { destruct Hy as (Hd & _ & _). unfold fits, dim_fits; simpl. auto. }
  destruct (where_full Fc Fx Fo) as (t & Et & Ft & Hget).
  exists t. split; [exact Et |]. split; [exact Ft |].
  intros i j. rewrite Hget.
  unfold zero_entry, lt_s, neg, rsub_s, add_s in *.
  repeat rewrite ?bget_map1, ?(ew2_bget _ _ _ i j Eq), ?(ew2_bget _ _ _ i j Ep),
    ?(ew2_bget _ _ _ i j Ee), ?(ew2_bget _ _ _ i j Ez).
  reflexivity.
Qed.

(** The whole of [zinb_loss] on tensors that line up: minus the mean of
    [zinb_entry] over the entries. *)
Lemma zinb_loss_full d n m (y y_pred pi r : tensor R) (eps : R) :
  full d n m y -> fits d n m pi -> fits d n m r ->
  zinb_loss y y_pred pi r eps
  = Ok (- (sum_over n m
             (fun i j => zinb_entry eps (bget y i j) (bget pi i j) (bget r i j))
           / INR (n * m))).
Proof.
  intros Hy Hpi Hr. unfold zinb_loss, float.
  destruct (nb_case_full eps Hy Hpi Hr) as (nb & Enb & Fnb & Hnb).
  destruct (zero_case_full eps Hy Hpi Hr) as (zc & Ezc & Fzc & Hzc).
  rewrite Enb, Ezc; cbn [rbind]. unfold add.
  destruct (ew2_full_l Rplus Fzc (full_fits Fnb)) as (s & Es & Fs).
  rewrite Es; cbn [rbind]. rewrite (mean_full Fs).
  do 3 f_equal. apply sum_over_ext. intros i j _ _.
  rewrite (ew2_bget _ _ _ i j Es), Hnb, Hzc. reflexivity.
Qed.

End ZinbFacts.

(* ================================================================== *)
(** * Reordering the entries *)

Section ReorderFacts.

Local Open Scope R_scope.

Lemma list_prod_perm_l {A B} (l1 l1' : list A) (l2 : list B) :
  Permutation l1 l1' -> Permutation (list_prod l1 l2) (list_prod l1' l2).
Proof.
  induction 1 as [| x l l' _ IH | x y l | l l' l'' _ IH1 _ IH2].
  - apply Permutation_refl.
  - cbn [list_prod]. apply Permutation_app_head, IH.
  - cbn [list_prod]. rewrite !app_assoc.
    apply Permutation_app_tail, Permutation_app_comm.
  - eapply Permutation_trans; eassumption.
Qed.

Lemma map_rows_list_prod (rho : nat -> nat) (l1 l2 : list nat) :
  map (fun ij => (rho (fst ij), snd ij)) (list_prod l1 l2)
  = list_prod (map rho l1) l2.
Proof.
  induction l1 as [| a l1 IH]; [reflexivity |].
  cbn [list_prod map]. rewrite map_app, IH, map_map. reflexivity.
Qed.

(** Reordering the rows reorders the index pairs. *)
Lemma rows_perm_indices (rho : nat -> nat) (n m : nat) :
  Permutation (map rho (seq 0 n)) (seq 0 n) ->
  Permutation (map (fun ij => (rho (fst ij), snd ij)) (indices n m))
              (indices n m).
Proof.
  intros Hp. unfold indices. rewrite map_rows_list_prod.
  apply list_prod_perm_l, Hp.
Qed.

Lemma bget_row_vector {A} (t : tensor A) (i j : nat) :
  nrows t = 1%nat -> bget t i j = bget t 0%nat j.
Proof.
  intros H. unfold bget. rewrite H. reflexivity.
Qed.

Lemma full_reindex {A} d n m s (t : tensor A) :
  full d n m t -> full d n m (reindex s t).
Proof. exact (fun H => H). Qed.

End ReorderFacts.

(* ================================================================== *)
(** * The claims about zinb_loss *)

Section ZinbClaims.

Context {E : torch.Elementary} {G : torch.LogGamma}.

Local Open Scope R_scope.

(** C3, as amended.  On tensors that line up, the negative binomial part
    of [zinb_loss] is, at every entry,
    [lgamma(y+r+eps) - lgamma(r+eps) - lgamma(y+1) + r*log(pi+eps)
     + y*log(1-(pi+eps))]:
    the log-gamma identity of the specification (recovered at [eps = 0])
    with [eps] inside four of its five terms, the default of [eps] being
    [1e-10]; the term [lgamma(y+1)] takes no [eps]. *)
Theorem nb_case_entrywise d n m (y pi r : tensor R) (eps : R) :
  full d n m y -> fits d n m pi -> fits d n m r ->
  (exists t, nb_case y pi r eps = Ok t /\ full d n m t /\
     forall i j,
       bget t i j
       = torch.lgamma (bget y i j + bget r i j + eps)
         - torch.lgamma (bget r i j + eps)
         - torch.lgamma (bget y i j + 1)
         + bget r i j * torch.log (bget pi i j + eps)
         + bget y i j * torch.log (1 - (bget pi i j + eps))) /\
  (forall y0 p0 r0, nb_entry eps y0 p0 r0 = Rsum (nb_terms eps y0 p0 r0)) /\
  (forall y0 p0 r0, nb_entry 0 y0 p0 r0 = nb_identity y0 p0 r0) /\
  (forall k, (k < 5)%nat -> (term_uses_eps k <-> k <> 2%nat)) /\
  default_eps = 1e-10.
Proof.
  intros Hy Hpi Hr. split; [| split; [| split; [| split]]].
  - destruct (nb_case_full eps Hy Hpi Hr) as (t & Et & Ft & Ht).
    exists t. split; [exact Et |]. split; [exact Ft |].
    intros i j. rewrite Ht. unfold nb_entry. ring.
  - intros y0 p0 r0. unfold nb_entry, nb_terms, Rsum. simpl. ring.
  - intros y0 p0 r0. unfold nb_entry, nb_identity.
    rewrite !Rplus_0_r. ring.
  - intros k Hk. split.
    + intros (E' & G' & e1 & e2 & y0 & p0 & r0 & Hne) ->.
      apply Hne. reflexivity.
    + intros Hk2. exists plain_elementary, plain_lgamma, 0, 1, 1, 0, 1.
      destruct k as [| [| [| [| [| k]]]]]; simpl; lra || lia.
  - reflexivity.
Qed.

(** C4, as amended.  On tensors that line up, [zinb_loss] is minus the
    mean, over all entries, of the zero-case term plus the negative
    binomial term, the latter added at every entry.  The zero-case term
    is [-log(zero_nb + (1-zero_nb) * exp(-r*log(1-pi+eps)))] with
    [zero_nb = pi^r] at the entries where [y_true < eps], and exactly
    zero at the others. *)
Theorem zinb_loss_entrywise d n m (y y_pred pi r : tensor R) (eps : R) :
  full d n m y -> fits d n m pi -> fits d n m r ->
  zinb_loss y y_pred pi r eps
  = Ok (- (sum_over n m
             (fun i j =>
                zero_entry eps (bget y i j) (bget pi i j) (bget r i j)
                + nb_entry eps (bget y i j) (bget pi i j) (bget r i j))
           / INR (n * m))) /\
  (forall y0 p0 r0, y0 < eps ->
     zero_entry eps y0 p0 r0
     = - torch.log (torch.pow p0 r0
                    + (1 - torch.pow p0 r0)
                      * torch.exp (- r0 * torch.log (1 - p0 + eps)))) /\
  (forall y0 p0 r0, eps <= y0 -> zero_entry eps y0 p0 r0 = 0).
Proof.
  intros Hy Hpi Hr. split; [| split].
  - exact (zinb_loss_full y_pred eps Hy Hpi Hr).
  - intros y0 p0 r0 Hlt. unfold zero_entry, Rltb.
    destruct (Rlt_dec y0 eps); [reflexivity | contradiction].
  - intros y0 p0 r0 Hle. unfold zero_entry, Rltb.
    destruct (Rlt_dec y0 eps); [lra | reflexivity].
Qed.

(** C8.  [zinb_loss] never reads [y_pred].  On an all-zero [y_true] with
    feature-indexed [pi] and [r] its value is a function of [pi], [r] and
    [eps] alone, whatever the number of samples.  It is unchanged when
    one reordering is applied to the entries of all its tensor arguments,
    and when the samples are reordered under feature-indexed [pi] and
    [r]. *)
Theorem zinb_loss_zero_and_reordering (eps : R) :
  (forall y y_pred y_pred' pi r,
     zinb_loss y y_pred pi r eps = zinb_loss y y_pred' pi r eps) /\
  (forall d n m y y_pred pi r,
     (0 < n)%nat -> (0 < m)%nat ->
     full d n m y -> all_zero y -> full d 1 m pi -> full d 1 m r ->
     zinb_loss y y_pred pi r eps
     = Ok (- (Rsum (map (fun j => zinb_entry eps 0 (get pi 0%nat j)
                                    (get r 0%nat j))
                      (seq 0 m))
              / INR m))) /\
  (forall d n m s y y_pred pi r,
     full d n m y -> full d n m pi -> full d n m r ->
     Permutation (map s (indices n m)) (indices n m) ->
     zinb_loss (reindex s y) (reindex s y_pred) (reindex s pi) (reindex s r)
       eps
     = zinb_loss y y_pred pi r eps) /\
  (forall d n m rho y y_pred pi r,
     full d n m y -> full d 1 m pi -> full d 1 m r ->
     Permutation (map rho (seq 0 n)) (seq 0 n) ->
     zinb_loss (reindex (fun ij => (rho (fst ij), snd ij)) y)
       (reindex (fun ij => (rho (fst ij), snd ij)) y_pred) pi r eps
     = zinb_loss y y_pred pi r eps).
Proof.
  assert (Hrow : forall d n m (t : tensor R), full d 1 m t -> fits d n m t).
  { intros d n m t (Hd & Hr & Hc). unfold fits, dim_fits. auto. }
  split; [| split; [| split]].
  - reflexivity.
  - intros d n m y y_pred pi r Hn Hm Hy Hz Hpi Hr.
    rewrite (zinb_loss_full y_pred eps Hy (Hrow _ n _ _ Hpi) (Hrow _ n _ _ Hr)).
    do 2 f_equal.
    rewrite (@sum_over_ext n m _ (fun _ j =>
               zinb_entry eps 0 (get pi 0%nat j) (get r 0%nat j))).
    + rewrite sum_over_rows, mult_INR. field.
      split; apply not_0_INR; lia.
    + intros i j Hi Hj.
      rewrite (full_get_bget Hy Hi Hj).
      destruct Hy as (_ & Hyr & Hyc).
      rewrite (Hz i j) by lia.
      rewrite (bget_row_vector pi i j) by apply Hpi.
      rewrite (bget_row_vector r i j) by apply Hr.
      rewrite (full_get_bget Hpi Nat.lt_0_1 Hj).
      rewrite (full_get_bget Hr Nat.lt_0_1 Hj). reflexivity.
  - intros d n m s y y_pred pi r Hy Hpi Hr Hp.
    rewrite (zinb_loss_full (reindex s y_pred) eps (full_reindex s Hy)
               (full_fits (full_reindex s Hpi))
               (full_fits (full_reindex s Hr))).
    rewrite (zinb_loss_full y_pred eps Hy (full_fits Hpi) (full_fits Hr)).
    do 3 f_equal.
    rewrite (@sum_over_ext n m
               (fun i j => zinb_entry eps (bget y i j) (bget pi i j)
                             (bget r i j))
               (fun i j => zinb_entry eps (get y i j) (get pi i j)
                             (get r i j))).
    2:{ intros i j Hi Hj.
        rewrite (full_get_bget Hy Hi Hj), (full_get_bget Hpi Hi Hj),
          (full_get_bget Hr Hi Hj). reflexivity. }
    rewrite <- (@sum_over_reindex n m s
                  (fun i j => zinb_entry eps (get y i j) (get pi i j)
                                (get r i j)) Hp).
    apply sum_over_ext. intros i j Hi Hj.
    rewrite (full_get_bget (full_reindex s Hy) Hi Hj),
      (full_get_bget (full_reindex s Hpi) Hi Hj),
      (full_get_bget (full_reindex s Hr) Hi Hj). reflexivity.
  - intros d n m rho y y_pred pi r Hy Hpi Hr Hp.
    set (s := fun ij : nat * nat => (rho (fst ij), snd ij)).
    rewrite (zinb_loss_full (reindex s y_pred) eps (full_reindex s Hy)
               (Hrow _ n _ _ Hpi) (Hrow _ n _ _ Hr)).
    rewrite (zinb_loss_full y_pred eps Hy (Hrow _ n _ _ Hpi)
               (Hrow _ n _ _ Hr)).
    do 3 f_equal.
    rewrite (@sum_over_ext n m
               (fun i j => zinb_entry eps (bget y i j) (bget pi i j)
                             (bget r i j))
               (fun i j => zinb_entry eps (get y i j) (bget pi 0%nat j)
                             (bget r 0%nat j))).
    2:{ intros i j Hi Hj.
        rewrite (full_get_bget Hy Hi Hj).
        rewrite (bget_row_vector pi i j) by apply Hpi.
        rewrite (bget_row_vector r i j) by apply Hr. reflexivity. }
    rewrite <- (@sum_over_reindex n m s
                  (fun i j => zinb_entry eps (get y i j) (bget pi 0%nat j)
                                (bget r 0%nat j))
                  (@rows_perm_indices rho n m Hp)).
    apply sum_over_ext. intros i j Hi Hj.
    rewrite (full_get_bget (full_reindex s Hy) Hi Hj).
    rewrite (bget_row_vector pi i j) by apply Hpi.
    rewrite (bget_row_vector r i j) by apply Hr. reflexivity.
Qed.

End ZinbClaims.

(* ================================================================== *)
(** * The claims about the composite loss *)

Section CompositeClaims.

Context {E : torch.Elementary} {G : torch.LogGamma}.

Local Open Scope R_scope.

Lemma mse_loss_full d n m (a b : tensor R) :
  full d n m a -> full d n m b ->
  mse_loss a b
  = Ok (sum_over n m (fun i j => (get a i j - get b i j) ^ 2) / INR (n * m)).
Proof.
  intros Ha Hb. unfold mse_loss.
  destruct (ew2_full_l (fun x y => (x - y) ^ 2) Ha (full_fits Hb))
    as (c & Ec & Fc).
  rewrite Ec; cbn [rbind]. rewrite (mean_full Fc). do 2 f_equal.
  apply sum_over_ext. intros i j Hi Hj.
  rewrite (ew2_bget _ _ _ i j Ec), (full_get_bget Ha Hi Hj),
    (full_get_bget Hb Hi Hj). reflexivity.
Qed.

(** Tensors on two devices do not combine. *)
Lemma mse_loss_devices (a b : tensor R) :
  tdev a <> tdev b -> mse_loss a b = Err RuntimeError.
Proof.
  intros Hd. unfold mse_loss, ew2.
  destruct (device_eqb (tdev a) (tdev b)) eqn:Heq; [| reflexivity].
  apply device_eqb_eq in Heq. contradiction.
Qed.

(** Line 54 on a proportion vector of the length of a row of [pis]. *)
Lemma fraction_loss_full d n K (pis proportion_tensor : tensor R) :
  full d n K pis -> nrows proportion_tensor = 1%nat ->
  ncols proportion_tensor = K ->
  mse_loss (mean0 pis) (to (tdev pis) proportion_tensor)
  = Ok (Rsum (map (fun j => (col_mean pis j
                                  - get proportion_tensor 0%nat j) ^ 2)
                (seq 0 K))
        / INR K).
Proof.
  intros (Hd & Hr & Hc) Hpr Hpc.
  assert (Fa : full d 1 K (mean0 pis)) by (repeat split; assumption).
  assert (Fb : full d 1 K (to (tdev pis) proportion_tensor))
    by (repeat split; assumption).
  rewrite (mse_loss_full Fa Fb), sum_over_one_row, Nat.mul_1_l.
  reflexivity.
Qed.

(** Line 64 on [mus] and [logvars] of one shape. *)
Lemma kl_raw_full d n m (mus logvars : tensor R) :
  full d n m mus -> full d n m logvars ->
  kl_raw mus logvars
  = Ok (0.5 * sum_over n m
                (fun i j => -1 - get logvars i j + get mus i j ^ 2
                            + torch.exp (get logvars i j))
        / 1e9).
Proof.
  intros Hm Hl. unfold kl_raw, add.
  assert (F1 : full d n m (rsub_s (-1) logvars)) by exact Hl.
  assert (F2 : full d n m (pow_int mus 2)) by exact Hm.
  destruct (ew2_full_l Rplus F1 (full_fits F2)) as (a & Ea & Fa).
  rewrite Ea; cbn [rbind].
  assert (F3 : full d n m (map1 torch.exp logvars)) by exact Hl.
  destruct (ew2_full_l Rplus Fa (full_fits F3)) as (b & Eb & Fb).
  rewrite Eb; cbn [rbind]. rewrite (sum_full Fb). do 3 f_equal.
  apply sum_over_ext. intros i j Hi Hj.
  rewrite (ew2_bget _ _ _ i j Eb), (ew2_bget _ _ _ i j Ea).
  unfold rsub_s, pow_int. rewrite !bget_map1.
  rewrite (full_get_bget Hm Hi Hj), (full_get_bget Hl Hi Hj). reflexivity.
Qed.

Lemma clamp_kl_above (x : R) : 1 < x -> clamp_kl x = 1.
Proof.
  intros H. unfold clamp_kl, Rltb.
  destruct (Rlt_dec 1 x); [reflexivity | contradiction].
Qed.

Lemma clamp_kl_below (x : R) : x <= 1 -> clamp_kl x = x.
Proof.
  intros H. unfold clamp_kl, Rltb.
  destruct (Rlt_dec 1 x); [lra | reflexivity].
Qed.

(** C1.  The loss of a batch is
    [recon_loss*5 + zinb_val + fraction_loss*10 + kl_weighted], where
    [fraction_loss] is the mean squared error between the column means of
    [pis] and the target proportions, whatever device the latter came
    from (they are moved to the device of [pis], without which the two
    would not combine), and [recon_loss] is the mean squared error
    between the reconstruction and the input; on the literal values 0.2,
    1.5, 0.05 and 0.3 the total is 3.3. *)
Theorem batch_loss_composite d n m dp np K
    (data : tensor R) (out : ModelOutput)
    (prob_extra_zero over_disp proportion_tensor : tensor R)
    (kl_weight z k : R) :
  full d n m data -> full d n m (reconstructed out) ->
  full dp np K (pis out) ->
  nrows proportion_tensor = 1%nat -> ncols proportion_tensor = K ->
  zinb_loss data (reconstructed out) prob_extra_zero over_disp default_eps
  = Ok z ->
  kl_raw (mus out) (logvars out) = Ok k ->
  (exists l,
     batch_loss data out prob_extra_zero over_disp proportion_tensor kl_weight
     = Ok l /\
     fraction_loss l
     = Rsum (map (fun j => (col_mean (pis out) j
                            - get proportion_tensor 0%nat j) ^ 2)
               (seq 0 K))
       / INR K /\
     loss_recon l
     = sum_over n m
         (fun i j => (get (reconstructed out) i j - get data i j) ^ 2)
       / INR (n * m) /\
     zinb_loss_val l = z /\
     loss_kl_weighted l = clamp_kl (k * kl_weight) /\
     loss l
     = loss_recon l * 5 + zinb_loss_val l + fraction_loss l * 10
       + loss_kl_weighted l) /\
  (tdev proportion_tensor <> tdev (pis out) ->
   mse_loss (mean0 (pis out)) proportion_tensor = Err RuntimeError) /\
  composite 0.2 1.5 0.05 0.3 = 3.3.
Proof.
  intros Hdata Hrec Hpis Hpr Hpc Hz Hk. split; [| split].
  - unfold batch_loss.
    rewrite (@fraction_loss_full dp np K _ _ Hpis Hpr Hpc); cbn [rbind].
    rewrite (mse_loss_full Hrec Hdata); cbn [rbind].
    rewrite Hz; cbn [rbind]. rewrite Hk; cbn [rbind].
    eexists. split; [reflexivity |]. cbn.
    repeat split; reflexivity.
  - intros Hd. apply mse_loss_devices. simpl. congruence.
  - unfold composite. lra.
Qed.

(** C2.  The raw KL term of a batch is
    [0.5 * sum(-1 - logvar + mu^2 + exp(logvar)) / 1e9]; the weighted
    term is the raw term times [kl_weight]; what enters the total is
    exactly 1 when that product is above 1 and the product itself when it
    is at most 1. *)
Theorem batch_loss_kl d n m
    (data : tensor R) (out : ModelOutput)
    (prob_extra_zero over_disp proportion_tensor : tensor R)
    (kl_weight f r z : R) :
  full d n m (mus out) -> full d n m (logvars out) ->
  mse_loss (mean0 (pis out)) (to (tdev (pis out)) proportion_tensor) = Ok f ->
  mse_loss (reconstructed out) data = Ok r ->
  zinb_loss data (reconstructed out) prob_extra_zero over_disp default_eps
  = Ok z ->
  exists l,
    batch_loss data out prob_extra_zero over_disp proportion_tensor kl_weight
    = Ok l /\
    loss_kl l
    = 0.5 * sum_over n m
              (fun i j => -1 - get (logvars out) i j + get (mus out) i j ^ 2
                          + torch.exp (get (logvars out) i j))
      / 1e9 /\
    (1 < loss_kl l * kl_weight -> loss_kl_weighted l = 1) /\
    (loss_kl l * kl_weight <= 1 ->
     loss_kl_weighted l = loss_kl l * kl_weight) /\
    loss l = r * 5 + z + f * 10 + loss_kl_weighted l.
Proof.
  intros Hmus Hlog Hf Hr Hz. unfold batch_loss.
  rewrite Hf; cbn [rbind]. rewrite Hr; cbn [rbind].
  rewrite Hz; cbn [rbind].
  rewrite (kl_raw_full Hmus Hlog); cbn [rbind].
  eexists. split; [reflexivity |]. cbn.
  split; [reflexivity |]. split; [apply clamp_kl_above |].
  split; [apply clamp_kl_below | reflexivity].
Qed.

End CompositeClaims.

(* ================================================================== *)
(** * Facts about computations in the world *)

Section MonadFacts.

Context {C : Collaborators}.

Lemma runs_ret {A} inv ok (a : A) : runs inv ok (ret a).
Proof.
  intros w Hw. split; [exact Hw |]. exists [].
  split; [reflexivity | constructor].
Qed.

Lemma runs_raise {A} inv ok e : runs inv ok (@raise _ A e).
Proof.
  intros w Hw. split; [exact Hw |]. exists [].
  split; [reflexivity | constructor].
Qed.

Lemma runs_lift {A} inv ok (r : result A) : runs inv ok (lift r).
Proof.
  intros w Hw. split; [exact Hw |]. exists [].
  split; [reflexivity | constructor].
Qed.

Lemma runs_emit inv (ok : Event -> Prop) e : ok e -> runs inv ok (emit e).
Proof.
  intros He w Hw. split; [exact Hw |]. exists [e].
  split; [reflexivity | repeat constructor; exact He].
Qed.

Lemma runs_set_params inv ok p : runs inv ok (set_params p).
Proof.
  intros w Hw. split; [exact Hw |]. exists [].
  split; [reflexivity | constructor].
Qed.

Lemma runs_set_mode (inv : Mode -> Prop) ok m :
  inv m -> runs inv ok (set_mode m).
Proof.
  intros Hm w Hw. split; [exact Hm |]. exists [].
  split; [reflexivity | constructor].
Qed.

Lemma runs_get_params inv ok : runs inv ok get_params.
Proof.
  intros w Hw. split; [exact Hw |]. exists [].
  split; [reflexivity | constructor].
Qed.

Lemma runs_write_file inv (ok : Event -> Prop) path a :
  ok (Save path) -> runs inv ok (write_file path a).
Proof.
  intros He w Hw. split; [exact Hw |]. exists [Save path].
  split; [reflexivity | repeat constructor; exact He].
Qed.

Lemma runs_bind {A B} inv ok (c : M A) (k : A -> M B) :
  runs inv ok c -> (forall a, runs inv ok (k a)) -> runs inv ok (bind c k).
Proof.
  intros Hc Hk w Hw. unfold bind.
  destruct (Hc w Hw) as (Hinv & new & Hlog & Hok).
  destruct (c w) as [w1 [a | e]]; simpl in *.
  - destruct (Hk a w1 Hinv) as (Hinv2 & new2 & Hlog2 & Hok2).
    split; [exact Hinv2 |]. exists (new2 ++ new).
    split; [rewrite Hlog2, Hlog, app_assoc; reflexivity |].
    apply Forall_app; split; assumption.
  - split; [exact Hinv |]. exists new. split; assumption.
Qed.

Lemma succeeds_ret {A} (a : A) : succeeds (ret a).
Proof. intros w. exists w, a. reflexivity. Qed.

Lemma succeeds_lift {A} (a : A) : succeeds (lift (Ok a)).
Proof. intros w. exists w, a. reflexivity. Qed.

Lemma succeeds_emit e : succeeds (emit e).
Proof. intros w. eexists _, tt. reflexivity. Qed.

Lemma succeeds_set_mode m : succeeds (set_mode m).
Proof. intros w. eexists _, tt. reflexivity. Qed.

Lemma succeeds_get_params : succeeds get_params.
Proof. intros w. eexists _, _. reflexivity. Qed.

Lemma succeeds_write_file path a : succeeds (write_file path a).
Proof. intros w. eexists _, tt. reflexivity. Qed.

Lemma succeeds_bind {A B} (c : M A) (k : A -> M B) :
  succeeds c -> (forall a, succeeds (k a)) -> succeeds (bind c k).
Proof.
  intros Hc Hk w. unfold bind. destruct (Hc w) as (w1 & a & ->).
  apply Hk.
Qed.

(** An event, once in the log, stays in it. *)
Lemma log_after_emit {B} (ok : Event -> Prop) e (k : M B) w :
  runs (fun _ => True) ok k ->
  exists new, log (fst (bind (emit e) (fun _ => k) w)) = new ++ e :: log w.
Proof.
  intros Hk. unfold bind, emit.
  destruct (Hk (mkWorld (mode w) (params w) (e :: log w) (files w)) I)
    as (_ & new & Hlog & _).
  exists new. exact Hlog.
Qed.

Lemma emits_emit_bind {B} e (k : M B) :
  runs (fun _ => True) (fun _ => True) k ->
  emits e (bind (emit e) (fun _ => k)).
Proof.
  intros Hk w. destruct (log_after_emit e w Hk) as (new & Hlog).
  exists (new ++ [e]). rewrite Hlog, <- app_assoc.
  split; [reflexivity | apply in_or_app; right; left; reflexivity].
Qed.

Lemma emits_bind_l {A B} e (c : M A) (k : A -> M B) :
  emits e c -> (forall a, runs (fun _ => True) (fun _ => True) (k a)) ->
  emits e (bind c k).
Proof.
  intros Hc Hk w. destruct (Hc w) as (new & Hlog & Hin). unfold bind.
  destruct (c w) as [w1 [a | x]]; simpl in *.
  - destruct (Hk a w1 I) as (_ & new2 & Hlog2 & _).
    exists (new2 ++ new). rewrite Hlog2, Hlog, app_assoc.
    split; [reflexivity | apply in_or_app; right; exact Hin].
  - exists new. split; assumption.
Qed.

Lemma emits_bind_r {A B} e (c : M A) (k : A -> M B) :
  succeeds c -> runs (fun _ => True) (fun _ => True) c ->
  (forall a, emits e (k a)) -> emits e (bind c k).
Proof.
  intros Hs Hc Hk w. destruct (Hc w I) as (_ & new & Hlog & _).
  unfold bind. destruct (Hs w) as (w1 & a & Heq). rewrite Heq in *.
  simpl in Hlog. destruct (Hk a w1) as (new2 & Hlog2 & Hin).
  exists (new2 ++ new). rewrite Hlog2, Hlog, app_assoc.
  split; [reflexivity | apply in_or_app; left; exact Hin].
Qed.












Lemma in_log_bind {A B} e (c : M A) (k : A -> M B) w :
  (forall a, runs (fun _ => True) (fun _ => True) (k a)) ->
  In e (log (fst (c w))) -> In e (log (fst (bind c k w))).
Proof.
  intros Hk Hin. unfold bind. destruct (c w) as [w1 [a | x]]; simpl in *.
  - destruct (Hk a w1 I) as (_ & new & Hlog & _). rewrite Hlog.
    apply in_or_app; right; exact Hin.
  - exact Hin.
Qed.

End MonadFacts.

Ltac run_world :=
  cbn [bind emit ret raise lift py_add write_file set_mode set_params
       get_mode get_params mode params log files fst snd].



Ltac runs_steps :=
  repeat match goal with
         | |- runs _ _ (bind _ _) => apply runs_bind; [| intros ?]
         | |- runs _ _ (ret _) => apply runs_ret
         | |- runs _ _ (raise _) => apply runs_raise
         | |- runs _ _ (lift _) => apply runs_lift
         | |- runs _ _ (set_params _) => apply runs_set_params
         | |- runs _ _ get_params => apply runs_get_params
         | |- runs _ _ (emit _) => apply runs_emit
         | |- runs _ _ (write_file _ _) => apply runs_write_file
         | |- runs _ _ (set_mode _) => apply runs_set_mode
         end.

Ltac succeeds_steps :=
  repeat match goal with
         | |- succeeds (bind _ _) => apply succeeds_bind; [| intros ?]
         | |- succeeds (ret _) => apply succeeds_ret
         | |- succeeds (lift (Ok _)) => apply succeeds_lift
         | |- succeeds (emit _) => apply succeeds_emit
         | |- succeeds (set_mode _) => apply succeeds_set_mode
         | |- succeeds get_params => apply succeeds_get_params
         | |- succeeds (write_file _ _) => apply succeeds_write_file
         end.

(* ================================================================== *)
(** * Facts about the loop *)

Section LoopFacts.

Context {E : torch.Elementary} {G : torch.LogGamma} {C : Collaborators}.

Local Open Scope R_scope.

(** What one pass through the body of the loop does to the world. *)
Lemma train_batch_spec epoch device proportion_tensor kl_weight idx b total w :
  let x := to device (data b) in
  let out := forward (params w) (mode w) x (labels b) in
  let seen := first_batch_events epoch idx out x
              ++ Forward idx (mode w) :: ZeroGrad idx :: log w in
  train_batch epoch device proportion_tensor kl_weight idx b total w
  = if shape_eqb (shape (reconstructed out)) (shape x) then
      match batch_loss x out (prob_extra_zero (params w))
              (over_disp (params w)) proportion_tensor kl_weight with
      | Ok l =>
          (mkWorld (mode w)
             (optimizer_step (params w)
                (backward (params w) (mode w) (mkBatch x (labels b))
                   proportion_tensor kl_weight))
             (Print 77 [loss l] :: OptimizerStep idx :: Backward idx (mode w)
                :: seen)
             (files w),
           Ok (total + loss l, mkBatchVars (labels b) out l))
      | Err e => (mkWorld (mode w) (params w) seen (files w), Err e)
      end
    else (mkWorld (mode w) (params w) seen (files w), Err (AssertionError 49)).
Proof.
  intros x out seen. subst seen.
  unfold train_batch, first_batch_events, print_first_batch, assert_.
  fold x. unfold bind at 1 2 3 4.
  cbn [emit get_mode get_params mode params log files].
  fold out.
  destruct ((epoch =? 0)%Z && (idx =? 0)%nat)%bool;
    destruct (shape_eqb (shape (reconstructed out)) (shape x));
    cbn [bind emit ret raise lift mode params log files set_params app];
    try reflexivity;
    destruct (batch_loss x out (prob_extra_zero (params w))
                (over_disp (params w)) proportion_tensor kl_weight);
    reflexivity.
Qed.

Lemma batch_loop_app epoch device proportion_tensor kl_weight l1 :
  forall l2 idx total lst w,
    batch_loop epoch device proportion_tensor kl_weight idx (l1 ++ l2)
      total lst w
    = match batch_loop epoch device proportion_tensor kl_weight idx l1
              total lst w with
      | (w1, Ok r) =>
          batch_loop epoch device proportion_tensor kl_weight
            (idx + List.length l1) l2 (fst r) (snd r) w1
      | (w1, Err e) => (w1, Err e)
      end.
Proof.
  induction l1 as [| b l1 IH]; intros l2 idx total lst w.
  - cbn [batch_loop app ret List.length fst snd].
    rewrite Nat.add_0_r. reflexivity.
  - cbn [batch_loop app]. unfold bind.
    destruct (train_batch epoch device proportion_tensor kl_weight idx b
                total w) as [w1 [r | e]]; [| reflexivity].
    rewrite IH. cbn [List.length]. rewrite Nat.add_succ_r. reflexivity.
Qed.

Lemma fold_left_Rplus (ls : list R) (a : R) :
  fold_left Rplus ls a = a + Rsum ls.
Proof.
  revert a. induction ls as [| x ls IH]; intros a; simpl.
  - lra.
  - rewrite IH. lra.
Qed.

(** The loop on batches that all go through: the running total grows by
    the loss of each batch, in order, and the locals of the last batch
    are kept. *)
Lemma batch_loop_ok epoch device proportion_tensor kl_weight dataloader :
  forall idx total lst w ls,
    mode w = Training ->
    batch_losses device proportion_tensor kl_weight (params w) dataloader
    = Ok ls ->
    exists w' lst',
      batch_loop epoch device proportion_tensor kl_weight idx dataloader
        total lst w
      = (w', Ok (fold_left Rplus ls total, lst')) /\
      mode w' = Training /\ files w' = files w /\
      match dataloader with
      | [] => lst' = lst
      | _ :: _ =>
          exists v, lst' = Some v /\
                    v_labels v = labels (last dataloader no_batch)
      end.
Proof.
  induction dataloader as [| b rest IH]; intros idx total lst w ls Hm Hls.
  - cbn in Hls. inversion Hls; subst ls. exists w, lst.
    cbn. repeat split; assumption || reflexivity.
  - cbn [batch_losses] in Hls. cbn [batch_loop]. unfold bind.
    rewrite train_batch_spec. cbv zeta. rewrite Hm.
    destruct (shape_eqb _ _); [| discriminate].
    destruct (batch_loss _ _ _ _ _ _) as [l | e]; [| discriminate].
    cbn [rbind] in Hls.
    destruct (batch_losses _ _ _ _ rest) as [ls' | e] eqn:Hrest;
      [| discriminate].
    cbn [rbind] in Hls. inversion Hls; subst ls. clear Hls.
    cbn [fst snd].
    match goal with
    | |- context [batch_loop _ _ _ _ _ rest ?t ?l ?w1] =>
        destruct (IH (S idx) t l w1 ls' eq_refl Hrest)
          as (w' & lst' & Hloop & Hm' & Hf' & Hlast)
    end.
    exists w', lst'. rewrite Hloop. cbn [fold_left].
    split; [reflexivity |]. split; [exact Hm' |]. split; [exact Hf' |].
    destruct rest as [| b' rest'].
    + subst lst'. eexists; split; reflexivity.
    + exact Hlast.
Qed.

(** The events of the loop, whatever becomes of its batches. *)
Lemma runs_train_batch (inv : Mode -> Prop) (ok : Event -> Prop)
    epoch device proportion_tensor kl_weight idx b total :
  (forall i m, inv m -> ok (Forward i m) /\ ok (Backward i m)) ->
  (forall i, ok (ZeroGrad i) /\ ok (OptimizerStep i)) ->
  (forall line values,
     (41 <= line <= 47 \/ line = 77)%nat -> ok (Print line values)) ->
  runs inv ok
    (train_batch epoch device proportion_tensor kl_weight idx b total).
Proof.
  intros Hcomp Hopt Hprint w Hw. rewrite train_batch_spec. cbv zeta.
  set (x := to device (data b)).
  set (out := forward (params w) (mode w) x (labels b)).
  assert (Hfirst : Forall ok (first_batch_events epoch idx out x)).
  { unfold first_batch_events.
    destruct ((epoch =? 0)%Z && (idx =? 0)%nat)%bool;
      repeat constructor; apply Hprint; lia. }
  assert (Hseen : Forall ok (first_batch_events epoch idx out x
                             ++ [Forward idx (mode w); ZeroGrad idx])).
  { apply Forall_app; split; [exact Hfirst |].
    repeat constructor; [apply (Hcomp idx _ Hw) | apply Hopt]. }
  destruct (shape_eqb _ _);
    [destruct (batch_loss _ _ _ _ _ _) as [l | e] |];
    cbn [fst mode log]; (split; [exact Hw |]).
  - exists (Print 77 [loss l] :: OptimizerStep idx :: Backward idx (mode w)
            :: first_batch_events epoch idx out x
               ++ [Forward idx (mode w); ZeroGrad idx]).
    split; [cbn [app]; rewrite <- app_assoc; reflexivity |].
    repeat constructor;
      [apply Hprint; lia | apply Hopt | apply (Hcomp idx _ Hw) | exact Hseen].
  - eexists; split; [| exact Hseen]. rewrite <- app_assoc; reflexivity.
  - eexists; split; [| exact Hseen]. rewrite <- app_assoc; reflexivity.
Qed.

Lemma runs_batch_loop (inv : Mode -> Prop) (ok : Event -> Prop)
    epoch device proportion_tensor kl_weight dataloader :
  (forall i m, inv m -> ok (Forward i m) /\ ok (Backward i m)) ->
  (forall i, ok (ZeroGrad i) /\ ok (OptimizerStep i)) ->
  (forall line values,
     (41 <= line <= 47 \/ line = 77)%nat -> ok (Print line values)) ->
  forall idx total lst,
    runs inv ok
      (batch_loop epoch device proportion_tensor kl_weight idx dataloader
         total lst).
Proof.
  intros Hcomp Hopt Hprint.
  induction dataloader as [| b rest IH]; intros idx total lst;
    cbn [batch_loop].
  - apply runs_ret.
  - apply runs_bind; [apply runs_train_batch; assumption |].
    intros r. apply IH.
Qed.

End LoopFacts.

(* ================================================================== *)
(** * Facts about train_GMVAE *)

Section RunFacts.

Context {E : torch.Elementary} {G : torch.LogGamma} {C : Collaborators}.

Local Open Scope R_scope.

Lemma shape_eqb_eq (s1 s2 : nat * nat) : shape_eqb s1 s2 = true <-> s1 = s2.
Proof.
  destruct s1 as [a b], s2 as [c d]. unfold shape_eqb. simpl.
  rewrite andb_true_iff, !Nat.eqb_eq. split.
  - intros [-> ->]. reflexivity.
  - intros H. inversion H. auto.
Qed.

(** With a [base_dir] that passes lines 25-26, the call is the loop run
    from [entry_world], then the rest. *)
Lemma train_GMVAE_entry epoch dataloader proportion_tensor kl_weight
    mapping_dict color_map max_epochs device base_dir plot_umap w :
  isinstance_str base_dir = true \/ isinstance_Path base_dir = true ->
  train_GMVAE epoch dataloader proportion_tensor kl_weight mapping_dict
    color_map max_epochs device base_dir plot_umap w
  = bind (batch_loop epoch device proportion_tensor kl_weight 0 dataloader
            0 None)
      (after_loop epoch kl_weight mapping_dict color_map max_epochs base_dir
         plot_umap)
      (entry_world device w).
Proof.
  intros Hv. unfold train_GMVAE, after_loop, entry_world.
  destruct base_dir; simpl in Hv; try (destruct Hv; discriminate);
    reflexivity.
Qed.



(** The events of what follows the loop, by the branch taken. *)
Lemma runs_after_loop (ok : Event -> Prop) epoch kl_weight mapping_dict
    color_map max_epochs base_dir plot_umap r :
  (forall line values, (80 <= line <= 85)%nat -> ok (Print line values)) ->
  ok ModelEval ->
  (forall path, ok (Save path)) ->
  (checkpoint_branch epoch max_epochs = PeriodicSave ->
   forall line values, (88 <= line <= 111)%nat -> ok (Print line values)) ->
  (checkpoint_branch epoch max_epochs = FinalSave ->
   forall line values, (155 <= line <= 177)%nat -> ok (Print line values)) ->
  runs (fun _ => True) ok
    (after_loop epoch kl_weight mapping_dict color_map max_epochs base_dir
       plot_umap r).
Proof.
  intros Hsum Heval Hsave Hper Hfin. unfold after_loop.
  apply runs_bind.
  { unfold print_summary, read_locals. destruct (snd r); runs_steps;
      apply Hsum; lia. }
  intros v. apply runs_bind; [| intros ?; apply runs_ret].
  destruct (checkpoint_branch epoch max_epochs).
  - specialize (Hper eq_refl).
    unfold periodic_save, plot_umap_block, save_tensor, save_figure.
    destruct plot_umap; runs_steps;
      exact I || apply Heval || apply Hsave || (apply Hper; lia).
  - specialize (Hfin eq_refl). unfold final_save, save_tensor.
    runs_steps; exact I || apply Heval || apply Hsave || (apply Hfin; lia).
  - apply runs_ret.
Qed.

(** The rest of the call returns the running total when the checkpoint
    goes through. *)
Lemma after_loop_ok epoch kl_weight mapping_dict color_map max_epochs
    base_dir plot_umap dataloader total v w :
  checkpoint_passes epoch max_epochs base_dir plot_umap mapping_dict
    color_map dataloader ->
  v_labels v = labels (last dataloader no_batch) ->
  exists w',
    after_loop epoch kl_weight mapping_dict color_map max_epochs base_dir
      plot_umap (total, Some v) w
    = (w', Ok total).
Proof.
  intros Hpass Hlab. unfold after_loop, checkpoint_passes in *.
  cbn [fst snd].
  assert (Hend : forall c : M unit, succeeds c ->
            forall w0,
            exists w', bind c (fun _ => ret total) w0 = (w', Ok total)).
  { intros c Hc w0. unfold bind. destruct (Hc w0) as (w1 & [] & ->).
    exists w1. reflexivity. }
  assert (Hsum : forall k : BatchVars -> M R,
            (forall w0, exists w', k v w0 = (w', Ok total)) ->
            exists w', bind (print_summary kl_weight (Some v)) k w
                       = (w', Ok total)).
  { intros k Hk. unfold print_summary, read_locals, bind, ret, emit.
    cbn. apply Hk. }
  apply Hsum. apply Hend.
  destruct (checkpoint_branch epoch max_epochs).
  - destruct Hpass as (Hstr & Hcol).
    destruct base_dir; try discriminate.
    unfold periodic_save, plot_umap_block, save_tensor, save_figure, py_add.
    destruct plot_umap.
    + destruct (Hcol eq_refl) as (cs & Hcs). rewrite Hlab, Hcs.
      succeeds_steps.
    + succeeds_steps.
  - destruct base_dir; try discriminate.
    unfold final_save, save_tensor, py_add. succeeds_steps.
  - apply succeeds_ret.
Qed.

Lemma print_summary_succeeds kl_weight v :
  succeeds (print_summary kl_weight (Some v)).
Proof. unfold print_summary, read_locals. succeeds_steps. Qed.

Lemma print_summary_runs ok kl_weight lst :
  (forall line values, (80 <= line <= 85)%nat -> ok (Print line values)) ->
  runs (fun _ => True) ok (print_summary kl_weight lst).
Proof.
  intros H. unfold print_summary, read_locals.
  destruct lst; runs_steps; apply H; lia.
Qed.

(** Once the loop has seen a batch, the first line of a checkpoint branch
    is printed exactly when that branch is the one taken. *)
Lemma after_loop_branch_prints epoch kl_weight mapping_dict color_map
    max_epochs base_dir plot_umap total v w :
  exists new,
    log (fst (after_loop epoch kl_weight mapping_dict color_map max_epochs
                base_dir plot_umap (total, Some v) w))
    = new ++ log w /\
    (In (Print 88 []) new <->
     checkpoint_branch epoch max_epochs = PeriodicSave) /\
    (In (Print 155 []) new <->
     checkpoint_branch epoch max_epochs = FinalSave).
Proof.
  set (ok := fun e : Event =>
               (e = Print 88 [] ->
                checkpoint_branch epoch max_epochs = PeriodicSave) /\
               (e = Print 155 [] ->
                checkpoint_branch epoch max_epochs = FinalSave)).
  assert (Hruns : runs (fun _ => True) ok
                    (after_loop epoch kl_weight mapping_dict color_map
                       max_epochs base_dir plot_umap (total, Some v))).
  { apply runs_after_loop; subst ok; cbv beta.
    - intros line values Hl. split; intros Heq; inversion Heq; lia.
    - split; discriminate.
    - intros path. split; discriminate.
    - intros Hb line values Hl. split; intros Heq; [exact Hb |].
      inversion Heq; lia.
    - intros Hb line values Hl. split; intros Heq; [| exact Hb].
      inversion Heq; lia. }
  destruct (Hruns w I) as (_ & new & Hlog & Hok).
  rewrite Forall_forall in Hok.
  exists new. split; [exact Hlog |].
  split; (split; [intros Hin; apply (Hok _ Hin); reflexivity | intros Hb]).
  - assert (Hem : emits (Print 88 [])
                    (after_loop epoch kl_weight mapping_dict color_map
                       max_epochs base_dir plot_umap (total, Some v))).
    { unfold after_loop. rewrite Hb. cbn [fst snd].
      apply emits_bind_r;
        [apply print_summary_succeeds
        | apply print_summary_runs; intros; exact I |].
      intros v'. apply emits_bind_l; [| intros; apply runs_ret].
      unfold periodic_save. apply emits_emit_bind.
      unfold plot_umap_block, save_tensor, save_figure.
      destruct plot_umap; runs_steps; exact I. }
    destruct (Hem w) as (new' & Hlog' & Hin).
    rewrite Hlog in Hlog'. apply app_inv_tail in Hlog'. subst new'.
    exact Hin.
  - assert (Hem : emits (Print 155 [])
                    (after_loop epoch kl_weight mapping_dict color_map
                       max_epochs base_dir plot_umap (total, Some v))).
    { unfold after_loop. rewrite Hb. cbn [fst snd].
      apply emits_bind_r;
        [apply print_summary_succeeds
        | apply print_summary_runs; intros; exact I |].
      intros v'. apply emits_bind_l; [| intros; apply runs_ret].
      unfold final_save. apply emits_emit_bind.
      unfold save_tensor. runs_steps; exact I. }
    destruct (Hem w) as (new' & Hlog' & Hin).
    rewrite Hlog in Hlog'. apply app_inv_tail in Hlog'. subst new'.
    exact Hin.
Qed.


Lemma batch_losses_length device proportion_tensor kl_weight dataloader :
  forall p ls,
    batch_losses device proportion_tensor kl_weight p dataloader = Ok ls ->
    List.length ls = List.length dataloader.
Proof.
  induction dataloader as [| b rest IH]; intros p ls H; cbn in H.
  - inversion H. reflexivity.
  - destruct (shape_eqb _ _); [| discriminate].
    destruct (batch_loss _ _ _ _ _ _); [| discriminate]. cbn [rbind] in H.
    destruct (batch_losses _ _ _ _ rest) eqn:Hrest; [| discriminate].
    cbn [rbind] in H. inversion H. cbn. f_equal. eapply IH, Hrest.
Qed.


(** A call on at least one batch, each of which goes through, with a
    checkpoint that goes through, returns the sum of the losses. *)
Lemma train_GMVAE_returns epoch dataloader proportion_tensor kl_weight
    mapping_dict color_map max_epochs device base_dir plot_umap w ls :
  isinstance_str base_dir = true \/ isinstance_Path base_dir = true ->
  dataloader <> [] ->
  batch_losses device proportion_tensor kl_weight
    (model_to device (params w)) dataloader
  = Ok ls ->
  checkpoint_passes epoch max_epochs base_dir plot_umap mapping_dict
    color_map dataloader ->
  exists w',
    train_GMVAE epoch dataloader proportion_tensor kl_weight mapping_dict
      color_map max_epochs device base_dir plot_umap w
    = (w', Ok (Rsum ls)).
Proof.
  intros Hv Hne Hls Hpass.
  rewrite (@train_GMVAE_entry _ _ _ _ _ _ _ _ _ _ w Hv).
  destruct (@batch_loop_ok _ _ _ epoch device proportion_tensor kl_weight
              dataloader 0%nat 0 None (entry_world device w) ls eq_refl Hls)
    as (w1 & lst' & Hloop & _ & _ & Hlast).
  unfold bind. rewrite Hloop.
  destruct dataloader as [| b rest]; [contradiction |].
  destruct Hlast as (v & -> & Hlab).
  rewrite fold_left_Rplus, Rplus_0_l.
  eapply after_loop_ok; eassumption.
Qed.

(** torch raises nothing but [RuntimeError] in the loss of a batch. *)
Lemma ew2_err {A B D} (f : A -> B -> D) a b e :
  ew2 f a b = Err e -> e = RuntimeError.
Proof.
  unfold ew2. destruct (device_eqb _ _); [| congruence].
  destruct (bdim (nrows a) (nrows b)); [| congruence].
  destruct (bdim (ncols a) (ncols b)); congruence.
Qed.

Lemma where_err {A} c (x other : tensor A) e :
  where_ c x other = Err e -> e = RuntimeError.
Proof.
  unfold where_. destruct (_ && _)%bool; [| congruence].
  destruct (bdim3 _ _ _); [| congruence].
  destruct (bdim3 _ _ _); congruence.
Qed.

Ltac err_chain H :=
  repeat match type of H with
         | context [rbind ?r _] =>
             let Hr := fresh "Hr" in
             destruct r eqn:Hr; cbn [rbind] in H;
             [| inversion H; subst;
                first [ apply ew2_err in Hr | apply where_err in Hr ];
                assumption ]
         end.

Lemma batch_loss_err x out pez od proportion_tensor kl_weight e :
  batch_loss x out pez od proportion_tensor kl_weight = Err e ->
  e = RuntimeError.
Proof.
  intros H.
  unfold batch_loss, mse_loss, zinb_loss, nb_case, zero_case, zero_nb, kl_raw,
    add, sub, mul in H.
  err_chain H.
  first [ discriminate H | apply ew2_err in H; exact H
        | apply where_err in H; exact H ].
Qed.

End RunFacts.

(* ================================================================== *)
(** * The claims about train_GMVAE *)

Section RunClaims.

Context {E : torch.Elementary} {G : torch.LogGamma} {C : Collaborators}.

Local Open Scope R_scope.

Lemma checkpoint_branch_periodic (epoch max_epochs : Z) :
  checkpoint_branch epoch max_epochs = PeriodicSave <->
  ((epoch + 1) mod 10 = 0 /\ epoch <> max_epochs - 1)%Z.
Proof.
  unfold checkpoint_branch.
  destruct (Z.eqb_spec ((epoch + 1) mod 10) 0),
    (Z.eqb_spec epoch (max_epochs - 1)); simpl;
    split; intros H; try discriminate; try tauto; reflexivity.
Qed.

Lemma checkpoint_branch_final (epoch max_epochs : Z) :
  checkpoint_branch epoch max_epochs = FinalSave <->
  epoch = (max_epochs - 1)%Z.
Proof.
  unfold checkpoint_branch.
  destruct (Z.eqb_spec ((epoch + 1) mod 10) 0),
    (Z.eqb_spec epoch (max_epochs - 1)); simpl;
    split; intros H; try discriminate; try tauto; reflexivity.
Qed.

(** C5.  The periodic branch is taken exactly when
    [(epoch+1) % 10 == 0] and [epoch != max_epochs - 1], the final branch
    exactly when [epoch == max_epochs - 1], never both: epoch 9 of 50 is
    periodic, epoch 49 of 50 is final, epoch 9 of 10 is final only.  In a
    call whose loop went through at least one batch, the first line of
    the periodic branch is printed exactly under the first condition and
    the first line of the final branch exactly under the second. *)
Theorem checkpoint_trigger (epoch max_epochs : Z) :
  (checkpoint_branch epoch max_epochs = PeriodicSave <->
   ((epoch + 1) mod 10 = 0 /\ epoch <> max_epochs - 1)%Z) /\
  (checkpoint_branch epoch max_epochs = FinalSave <->
   epoch = (max_epochs - 1)%Z) /\
  checkpoint_branch 9 50 = PeriodicSave /\
  checkpoint_branch 49 50 = FinalSave /\
  checkpoint_branch 9 10 = FinalSave /\
  (forall dataloader proportion_tensor kl_weight mapping_dict color_map
          device base_dir plot_umap w w1 total v,
     isinstance_str base_dir = true \/ isinstance_Path base_dir = true ->
     batch_loop epoch device proportion_tensor kl_weight 0 dataloader 0 None
       (entry_world device w)
     = (w1, Ok (total, Some v)) ->
     exists new,
       log (fst (train_GMVAE epoch dataloader proportion_tensor kl_weight
                   mapping_dict color_map max_epochs device base_dir
                   plot_umap w))
       = new ++ log w1 /\
       (In (Print 88 []) new <->
        ((epoch + 1) mod 10 = 0 /\ epoch <> max_epochs - 1)%Z) /\
       (In (Print 155 []) new <-> epoch = (max_epochs - 1)%Z)).
Proof.
  split; [apply checkpoint_branch_periodic |].
  split; [apply checkpoint_branch_final |].
  split; [reflexivity |]. split; [reflexivity |]. split; [reflexivity |].
  intros dataloader proportion_tensor kl_weight mapping_dict color_map
    device base_dir plot_umap w w1 total v Hv Hloop.
  rewrite (@train_GMVAE_entry _ _ _ _ _ _ _ _ _ _ _ _ _ w Hv).
  unfold bind at 1. rewrite Hloop.
  destruct (after_loop_branch_prints epoch kl_weight mapping_dict color_map
              max_epochs base_dir plot_umap total v w1)
    as (new & Hlog & H88 & H155).
  exists new. split; [exact Hlog |]. split.
  - etransitivity; [exact H88 | apply checkpoint_branch_periodic].
  - etransitivity; [exact H155 | apply checkpoint_branch_final].
Qed.

(** C6.  When the reconstruction of a batch has not the shape of its
    input, the call raises the assertion error of line 49: after the
    forward pass of that batch, with nothing done on it but the optional
    printing of shapes (no loss, no backward pass, no optimizer step: the
    parameters and the files are as the batch found them) and with no
    later batch touched.  When the shapes are equal, the batch raises no
    such error. *)
Theorem shape_assertion epoch device proportion_tensor kl_weight :
  (forall pre b post mapping_dict color_map max_epochs base_dir plot_umap
          w w1 r,
     isinstance_str base_dir = true \/ isinstance_Path base_dir = true ->
     batch_loop epoch device proportion_tensor kl_weight 0 pre 0 None
       (entry_world device w)
     = (w1, Ok r) ->
     shape (reconstructed (forward (params w1) Training
                             (to device (data b)) (labels b)))
     <> shape (to device (data b)) ->
     exists w',
       train_GMVAE epoch (pre ++ b :: post) proportion_tensor kl_weight
         mapping_dict color_map max_epochs device base_dir plot_umap w
       = (w', Err (AssertionError 49)) /\
       params w' = params w1 /\ files w' = files w1 /\
       exists new,
         log w' = new ++ log w1 /\
         Forall (before_assert (List.length pre)) new /\
         In (Forward (List.length pre) Training) new) /\
  (forall idx b total w,
     shape (reconstructed (forward (params w) (mode w)
                             (to device (data b)) (labels b)))
     = shape (to device (data b)) ->
     snd (train_batch epoch device proportion_tensor kl_weight idx b total w)
     <> Err (AssertionError 49)).
Proof.
  split.
  - intros pre b post mapping_dict color_map max_epochs base_dir plot_umap
      w w1 r Hv Hpre Hshape.
    assert (Hm : mode w1 = Training).
    { destruct (@runs_batch_loop _ _ _ (fun m => m = Training)
                  (fun _ => True) epoch device proportion_tensor kl_weight
                  pre) with (idx := 0%nat) (total := 0) (lst := @None BatchVars)
                  (w := entry_world device w) as (Hm & _); auto.
      rewrite Hpre in Hm. exact Hm. }
    rewrite (@train_GMVAE_entry _ _ _ _ _ _ _ _ _ _ _ _ _ w Hv).
    unfold bind at 1. rewrite batch_loop_app, Hpre.
    cbn [batch_loop Nat.add]. unfold bind at 1.
    rewrite train_batch_spec. cbv zeta. rewrite Hm.
    destruct (shape_eqb _ _) eqn:Heq;
      [apply shape_eqb_eq in Heq; contradiction |].
    eexists. split; [reflexivity |]. cbn [params files log].
    split; [reflexivity |]. split; [reflexivity |].
    eexists (_ ++ [Forward _ _; ZeroGrad _]).
    split; [rewrite <- app_assoc; reflexivity |].
    split.
    + apply Forall_app; split.
      * unfold first_batch_events.
        destruct ((epoch =? 0)%Z && (List.length pre =? 0)%nat)%bool;
          repeat first [apply Forall_nil | apply Forall_cons];
          right; right; eexists _, _; (split; [reflexivity | lia]).
      * repeat first [apply Forall_nil | apply Forall_cons];
          [right; left | left]; reflexivity.
    + apply in_or_app; right; left; reflexivity.
  - intros idx b total w Hshape. rewrite train_batch_spec. cbv zeta.
    apply shape_eqb_eq in Hshape. rewrite Hshape.
    destruct (batch_loss _ _ _ _ _ _) as [l | e] eqn:Hl; cbn [snd].
    + discriminate.
    + apply batch_loss_err in Hl. subst e. discriminate.
Qed.

(** C7, as amended.  On a sequence of at least one batch, each of which
    goes through, and with a checkpoint that goes through, the call
    returns the sum of the losses of the batches, one loss per batch,
    counted from 0 and not divided by the number of batches. *)
Theorem epoch_total epoch dataloader proportion_tensor kl_weight mapping_dict
    color_map max_epochs device base_dir plot_umap w ls :
  isinstance_str base_dir = true \/ isinstance_Path base_dir = true ->
  dataloader <> [] ->
  batch_losses device proportion_tensor kl_weight
    (model_to device (params w)) dataloader
  = Ok ls ->
  checkpoint_passes epoch max_epochs base_dir plot_umap mapping_dict
    color_map dataloader ->
  List.length ls = List.length dataloader /\
  exists w',
    train_GMVAE epoch dataloader proportion_tensor kl_weight mapping_dict
      color_map max_epochs device base_dir plot_umap w
    = (w', Ok (Rsum ls)).
Proof.
  intros Hv Hne Hls Hpass.
  split; [eapply batch_losses_length, Hls |].
  apply train_GMVAE_returns; assumption.
Qed.




(** C10.  With [base_dir] None the call raises the assertion error of
    line 25, and with a [base_dir] that is neither a string nor a Path
    that of line 26, in both cases leaving the world as it found it: no
    batch is processed.  With a string or a Path both assertions pass:
    the call is the loop, run from the world in which the model has been
    set to training mode and moved to the device, then the rest; if there
    is a batch, its forward pass takes place. *)
Theorem entry_assertions epoch dataloader proportion_tensor kl_weight
    mapping_dict color_map max_epochs device plot_umap w :
  train_GMVAE epoch dataloader proportion_tensor kl_weight mapping_dict
    color_map max_epochs device PyNone plot_umap w
  = (w, Err (AssertionError 25)) /\
  (forall base_dir,
     is_not_None base_dir = true ->
     isinstance_str base_dir = false -> isinstance_Path base_dir = false ->
     train_GMVAE epoch dataloader proportion_tensor kl_weight mapping_dict
       color_map max_epochs device base_dir plot_umap w
     = (w, Err (AssertionError 26))) /\
  (forall base_dir,
     isinstance_str base_dir = true \/ isinstance_Path base_dir = true ->
     train_GMVAE epoch dataloader proportion_tensor kl_weight mapping_dict
       color_map max_epochs device base_dir plot_umap w
     = bind (batch_loop epoch device proportion_tensor kl_weight 0 dataloader
               0 None)
         (after_loop epoch kl_weight mapping_dict color_map max_epochs
            base_dir plot_umap)
         (entry_world device w) /\
     (dataloader <> [] ->
      In (Forward 0 Training)
        (log (fst (train_GMVAE epoch dataloader proportion_tensor kl_weight
                     mapping_dict color_map max_epochs device base_dir
                     plot_umap w))))).
Proof.
  split; [reflexivity |]. split.
  - intros base_dir Hn Hs Hp.
    destruct base_dir; try discriminate. reflexivity.
  - intros base_dir Hv.
    pose proof (@train_GMVAE_entry _ _ _ epoch dataloader proportion_tensor
                  kl_weight mapping_dict color_map max_epochs device base_dir
                  plot_umap w Hv) as Hentry.
    split; [exact Hentry |].
    intros Hne. rewrite Hentry.
    destruct dataloader as [| b rest]; [contradiction |].
    apply in_log_bind.
    { intros r. apply runs_after_loop; intros; exact I. }
    cbn [batch_loop]. apply in_log_bind.
    { intros r. apply runs_batch_loop; intros; repeat split. }
    rewrite train_batch_spec. cbv zeta.
    destruct (shape_eqb _ _); [destruct (batch_loss _ _ _ _ _ _) |];
      cbn [fst log entry_world mode];
      repeat (apply in_cons); apply in_or_app; right; left; reflexivity.
Qed.

End RunClaims.

(* ================================================================== *)
(** * The statements at concrete inputs *)

Local Open Scope R_scope.

Lemma full_batch_1_2 : full Cpu 1 2 (data batch_1_2).
Proof. repeat split. Qed.

Lemma full_uniform_2 : full Cpu 1 2 uniform_2.
Proof. repeat split. Qed.

Lemma fits_uniform_2 : fits Cpu 1 2 uniform_2.
Proof. apply full_fits, full_uniform_2. Qed.

Lemma fits_echo_pi : fits Cpu 1 2 echo_pi.
Proof. unfold fits, dim_fits; simpl; auto. Qed.

Lemma fits_echo_r : fits Cpu 1 2 echo_r.
Proof. unfold fits, dim_fits; simpl; auto. Qed.

Lemma echo_zinb_loss :
  exists z,
    @zinb_loss plain_elementary plain_lgamma (data batch_1_2)
      (reconstructed echo_out) echo_pi echo_r default_eps
    = Ok z.
Proof.
  eexists.
  apply (zinb_loss_full _ _ full_batch_1_2 fits_echo_pi fits_echo_r).
Qed.

Lemma echo_kl_raw :
  exists k,
    @kl_raw plain_elementary (mus echo_out) (logvars echo_out) = Ok k.
Proof.
  eexists. apply (@kl_raw_full plain_elementary Cpu 1 1); repeat split.
Qed.

Lemma echo_fraction_loss :
  exists f,
    mse_loss (mean0 (pis echo_out)) (to (tdev (pis echo_out)) uniform_2)
    = Ok f.
Proof.
  eexists. apply (@fraction_loss_full Cpu 1 2); repeat split.
Qed.

Lemma echo_loss_recon :
  exists r, mse_loss (reconstructed echo_out) (data batch_1_2) = Ok r.
Proof.
  eexists. apply (@mse_loss_full Cpu 1 2); repeat split.
Qed.

Lemma echo_batch_losses :
  exists ls,
    @batch_losses plain_elementary plain_lgamma (echo_model 0) Cpu uniform_2
      1 tt [batch_1_2]
    = Ok ls.
Proof.
  destruct echo_fraction_loss as (f & Hf).
  destruct echo_loss_recon as (r & Hr).
  destruct echo_zinb_loss as (z & Hz).
  destruct echo_kl_raw as (k & Hk).
  cbn [batch_losses].
  change (to Cpu (data batch_1_2)) with (data batch_1_2).
  change (@forward (echo_model 0) tt Training (data batch_1_2)
            (labels batch_1_2)) with echo_out.
  change (shape_eqb (shape (reconstructed echo_out)) (shape (data batch_1_2)))
    with true.
  cbv iota. unfold batch_loss.
  change (@prob_extra_zero (echo_model 0) tt) with echo_pi.
  change (@over_disp (echo_model 0) tt) with echo_r.
  rewrite Hf; cbn [rbind]. rewrite Hr; cbn [rbind].
  rewrite Hz; cbn [rbind]. rewrite Hk; cbn [rbind].
  eexists. reflexivity.
Qed.

Lemma echo_checkpoint_passes (epoch : Z) :
  checkpoint_passes epoch 50 out_dir false [] [] [batch_1_2].
Proof.
  unfold checkpoint_passes.
  destruct (checkpoint_branch epoch 50); repeat split; discriminate.
Qed.


Lemma echo_loop_returns (epoch : Z) (w : @World (echo_model 0)) :
  exists w1 total v,
    @batch_loop plain_elementary plain_lgamma (echo_model 0) epoch Cpu
      uniform_2 1 0 [batch_1_2] 0 None (entry_world Cpu w)
    = (w1, Ok (total, Some v)).
Proof.
  destruct echo_batch_losses as (ls & Hls).
  destruct (@batch_loop_ok plain_elementary plain_lgamma (echo_model 0)
              epoch Cpu uniform_2 1 [batch_1_2] 0%nat 0 None
              (entry_world Cpu w) ls eq_refl Hls)
    as (w1 & lst' & Hloop & _ & _ & (v & -> & _)).
  exists w1, (fold_left Rplus ls 0), v. exact Hloop.
Qed.

(** ** C1 *)

Lemma batch_loss_composite_witness :
  full Cpu 1 2 (data batch_1_2) /\
  full Cpu 1 2 (reconstructed echo_out) /\
  full Cpu 1 2 (pis echo_out) /\
  exists l,
    @batch_loss plain_elementary plain_lgamma (data batch_1_2) echo_out
      echo_pi echo_r uniform_2 1
    = Ok l /\
    loss l
    = loss_recon l * 5 + zinb_loss_val l + fraction_loss l * 10
      + loss_kl_weighted l.
Proof.
  assert (Hd : full Cpu 1 2 (data batch_1_2)) by (repeat split).
  assert (Hr : full Cpu 1 2 (reconstructed echo_out)) by (repeat split).
  assert (Hp : full Cpu 1 2 (pis echo_out)) by (repeat split).
  split; [exact Hd |]. split; [exact Hr |]. split; [exact Hp |].
  destruct echo_zinb_loss as (z & Hz).
  destruct echo_kl_raw as (k & Hk).
  destruct (@batch_loss_composite plain_elementary plain_lgamma Cpu 1 2 Cpu 1
              2 (data batch_1_2) echo_out echo_pi echo_r uniform_2 1 z k
              Hd Hr Hp eq_refl eq_refl Hz Hk)
    as ((l & Hl & _ & _ & _ & _ & Htotal) & _).
  exists l. split; assumption.
Defined.

(** ** C2 *)

Lemma batch_loss_kl_witness :
  full Cpu 1 1 (mus echo_out) /\ full Cpu 1 1 (logvars echo_out) /\
  exists l,
    @batch_loss plain_elementary plain_lgamma (data batch_1_2) echo_out
      echo_pi echo_r uniform_2 1
    = Ok l /\
    (loss_kl l * 1 <= 1 -> loss_kl_weighted l = loss_kl l * 1).
Proof.
  assert (Hm : full Cpu 1 1 (mus echo_out)) by (repeat split).
  assert (Hl : full Cpu 1 1 (logvars echo_out)) by (repeat split).
  split; [exact Hm |]. split; [exact Hl |].
  destruct echo_fraction_loss as (f & Hf).
  destruct echo_loss_recon as (r & Hr).
  destruct echo_zinb_loss as (z & Hz).
  destruct (@batch_loss_kl plain_elementary plain_lgamma Cpu 1 1
              (data batch_1_2) echo_out echo_pi echo_r uniform_2 1 f r z
              Hm Hl Hf Hr Hz)
    as (l & Hloss & _ & _ & Hbelow & _).
  exists l. split; assumption.
Defined.

(** ** C3 *)

Lemma nb_case_entrywise_witness :
  full Cpu 1 2 (data batch_1_2) /\ fits Cpu 1 2 uniform_2 /\
  exists t,
    @nb_case plain_elementary plain_lgamma (data batch_1_2) uniform_2
      uniform_2 default_eps
    = Ok t /\
    full Cpu 1 2 t.
Proof.
  split; [exact full_batch_1_2 |]. split; [exact fits_uniform_2 |].
  destruct (@nb_case_entrywise plain_elementary plain_lgamma Cpu 1 2
              (data batch_1_2) uniform_2 uniform_2 default_eps
              full_batch_1_2 fits_uniform_2 fits_uniform_2)
    as ((t & Et & Ft & _) & _).
  exists t. split; assumption.
Defined.

(** The term [lgamma(y+1)] of the negative binomial part does not depend
    on [eps], whatever [lgamma] is: not every term is stabilised. *)
Lemma nb_terms_not_all_stabilised : ~ every_nb_term_uses_eps.
Proof.
  intros H.
  destruct (H 2%nat ltac:(lia)) as (E & G & e1 & e2 & y & pi & r & Hne).
  apply Hne. reflexivity.
Qed.

(** ** C4 *)

Lemma zinb_loss_entrywise_witness :
  full Cpu 1 2 (data batch_1_2) /\ fits Cpu 1 2 uniform_2 /\
  exists z,
    @zinb_loss plain_elementary plain_lgamma (data batch_1_2)
      (data batch_1_2) uniform_2 uniform_2 default_eps
    = Ok z.
Proof.
  split; [exact full_batch_1_2 |]. split; [exact fits_uniform_2 |].
  destruct (@zinb_loss_entrywise plain_elementary plain_lgamma Cpu 1 2
              (data batch_1_2) (data batch_1_2) uniform_2 uniform_2
              default_eps full_batch_1_2 fits_uniform_2 fits_uniform_2)
    as (Hz & _).
  eexists. exact Hz.
Defined.

Lemma zero_entry_half :
  @zero_entry real_elementary (1 / 2) 0 (1 / 2) 1 = 0.
Proof.
  unfold zero_entry, Rltb. destruct (Rlt_dec 0 (1 / 2)) as [_ | Hn]; [| lra].
  cbn [torch.log torch.exp torch.pow real_elementary].
  rewrite Rpower_1 by lra.
  replace (1 - 1 / 2 + 1 / 2) with 1 by lra.
  rewrite ln_1, Rmult_0_r, exp_0.
  replace (1 / 2 + (1 - 1 / 2) * 1) with 1 by lra.
  rewrite ln_1. lra.
Qed.

Lemma zero_term_as_specified_half :
  @zero_term_as_specified real_elementary (1 / 2) 1 = - ln (3 / 2).
Proof.
  unfold zero_term_as_specified.
  cbn [torch.log torch.exp torch.pow real_elementary].
  rewrite Rpower_1 by lra.
  replace (1 - 1 / 2) with (/ 2) by lra.
  rewrite ln_Rinv by lra.
  replace (- (1) * - ln 2) with (ln 2) by lra.
  rewrite exp_ln by lra.
  f_equal. f_equal. lra.
Qed.

(** With [y_true = 0], [pi = 0.5], [r = 1] and [eps = 0.5] the zero-case
    term of the code is 0, and the term as the specification writes it,
    without [eps], is [-log(1.5)]. *)
Lemma zero_case_differs_from_specified :
  exists t,
    @zero_case real_elementary (fill Cpu 1 1 0) (fill Cpu 1 1 (1 / 2))
      (fill Cpu 1 1 1) (1 / 2)
    = Ok t /\
    get t 0%nat 0%nat = 0 /\
    get t 0%nat 0%nat <> @zero_term_as_specified real_elementary (1 / 2) 1.
Proof.
  assert (Hy : full Cpu 1 1 (fill Cpu 1 1 0)) by (repeat split).
  assert (Hp : fits Cpu 1 1 (fill Cpu 1 1 (1 / 2)))
    by (apply full_fits; repeat split).
  assert (Hr : fits Cpu 1 1 (fill Cpu 1 1 1))
    by (apply full_fits; repeat split).
  destruct (@zero_case_full real_elementary Cpu 1 1 _ _ _ (1 / 2) Hy Hp Hr)
    as (t & Et & Ft & Hget).
  exists t. split; [exact Et |].
  assert (H0 : get t 0%nat 0%nat = 0).
  { rewrite <- (full_get_bget Ft Nat.lt_0_1 Nat.lt_0_1), Hget.
    exact zero_entry_half. }
  split; [exact H0 |].
  rewrite H0, zero_term_as_specified_half.
  assert (Hln : ln 1 < ln (3 / 2)) by (apply ln_increasing; lra).
  rewrite ln_1 in Hln. lra.
Qed.

(** ** C5 *)

Lemma checkpoint_trigger_witness :
  exists new (w1 : @World (echo_model 0)),
    log (fst (echo_call 9 [batch_1_2] out_dir echo_world)) = new ++ log w1 /\
    In (Print 88 []) new.
Proof.
  destruct (echo_loop_returns 9 echo_world) as (w1 & total & v & Hloop).
  destruct (@checkpoint_trigger plain_elementary plain_lgamma (echo_model 0)
              9 50) as (_ & _ & _ & _ & _ & Hrun).
  destruct (Hrun [batch_1_2] uniform_2 1 [] [] Cpu out_dir false echo_world
              w1 total v (or_introl eq_refl) Hloop)
    as (new & Hlog & H88 & _).
  exists new, w1. split; [exact Hlog |].
  apply H88. split; [reflexivity | discriminate].
Defined.

(** ** C6 *)

Lemma shape_assertion_witness :
  shape (reconstructed (@forward (echo_model 1) tt Training
                          (to Cpu (data batch_32_99)) (labels batch_32_99)))
  = (32%nat, 100%nat) /\
  shape (to Cpu (data batch_32_99)) = (32%nat, 99%nat) /\
  exists w',
    @train_GMVAE plain_elementary plain_lgamma (echo_model 1) 0
      [batch_32_99] uniform_2 1 [] [] 50 Cpu out_dir false
      (@start_world (echo_model 1) Evaluation tt)
    = (w', Err (AssertionError 49)).
Proof.
  split; [reflexivity |]. split; [reflexivity |].
  destruct (@shape_assertion plain_elementary plain_lgamma (echo_model 1)
              0 Cpu uniform_2 1) as (Hraise & _).
  destruct (Hraise [] batch_32_99 [] [] [] 50%Z out_dir false
              (@start_world (echo_model 1) Evaluation tt)
              (entry_world Cpu (@start_world (echo_model 1) Evaluation tt))
              (0, None) (or_introl eq_refl) eq_refl)
    as (w' & Hrun & _).
  - unfold shape. cbn. intros Heq. inversion Heq.
  - exists w'. exact Hrun.
Defined.

(** ** C7 *)

Lemma epoch_total_witness :
  exists ls w',
    @batch_losses plain_elementary plain_lgamma (echo_model 0) Cpu uniform_2
      1 tt [batch_1_2]
    = Ok ls /\
    echo_call 49 [batch_1_2] out_dir echo_world = (w', Ok (Rsum ls)).
Proof.
  destruct echo_batch_losses as (ls & Hls).
  destruct (@epoch_total plain_elementary plain_lgamma (echo_model 0) 49
              [batch_1_2] uniform_2 1 [] [] 50%Z Cpu out_dir false echo_world
              ls) as (_ & w' & Hrun).
  - left; reflexivity.
  - discriminate.
  - exact Hls.
  - apply echo_checkpoint_passes.
  - exists ls, w'. split; [exact Hls | exact Hrun].
Defined.

(** With no batch at all the call does not return: line 80 reads
    [fraction_loss], which no iteration has assigned. *)
Lemma empty_epoch_raises :
  snd (echo_call 49 [] out_dir echo_world) = Err UnboundLocalError /\
  snd (echo_call 49 [] out_dir echo_world) <> Ok (Rsum []).
Proof.
  assert (H : snd (echo_call 49 [] out_dir echo_world) = Err UnboundLocalError)
    by reflexivity.
  split; [exact H |]. rewrite H. discriminate.
Qed.

(** ** C8 *)

Lemma zinb_loss_zero_and_reordering_witness :
  all_zero (fill Cpu 3 2 0) /\
  @zinb_loss plain_elementary plain_lgamma (fill Cpu 3 2 0) (fill Cpu 3 2 1)
    uniform_2 uniform_2 default_eps
  = @zinb_loss plain_elementary plain_lgamma (fill Cpu 1 2 0)
      (fill Cpu 1 2 5) uniform_2 uniform_2 default_eps /\
  Permutation (map swap_columns (indices 1 2)) (indices 1 2) /\
  @zinb_loss plain_elementary plain_lgamma
    (reindex swap_columns (data batch_1_2))
    (reindex swap_columns (data batch_1_2))
    (reindex swap_columns uniform_2) (reindex swap_columns uniform_2)
    default_eps
  = @zinb_loss plain_elementary plain_lgamma (data batch_1_2)
      (data batch_1_2) uniform_2 uniform_2 default_eps.
Proof.
  destruct (@zinb_loss_zero_and_reordering plain_elementary plain_lgamma
              default_eps) as (_ & Hzero & Hperm & _).
  assert (Hz : forall n, all_zero (fill Cpu n 2 0))
    by (intros n i j _ _; reflexivity).
  assert (Hp : Permutation (map swap_columns (indices 1 2)) (indices 1 2))
    by apply perm_swap.
  split; [apply Hz |]. split; [| split; [exact Hp |]].
  - assert (Hfull : forall n, full Cpu n 2 (fill Cpu n 2 0))
      by (intros n; repeat split).
    pose proof (Hzero Cpu 3%nat 2%nat (fill Cpu 3 2 0) (fill Cpu 3 2 1)
                  uniform_2 uniform_2 ltac:(lia) ltac:(lia) (Hfull 3%nat)
                  (Hz 3%nat) full_uniform_2 full_uniform_2) as H3.
    pose proof (Hzero Cpu 1%nat 2%nat (fill Cpu 1 2 0) (fill Cpu 1 2 5)
                  uniform_2 uniform_2 ltac:(lia) ltac:(lia) (Hfull 1%nat)
                  (Hz 1%nat) full_uniform_2 full_uniform_2) as H1.
    rewrite H3, H1. reflexivity.
  - apply (Hperm Cpu 1%nat 2%nat).
    + exact full_batch_1_2.
    + exact full_uniform_2.
    + exact full_uniform_2.
    + exact Hp.
Defined.

(** ** C9 *)


(** ** C10 *)

Lemma entry_assertions_witness :
  snd (echo_call 0 [batch_1_2] (PyInt 3) echo_world)
  = Err (AssertionError 26) /\
  In (Forward 0 Training)
    (log (fst (echo_call 0 [batch_1_2] (PyPath "out") echo_world))).
Proof.
  destruct (@entry_assertions plain_elementary plain_lgamma (echo_model 0) 0
              [batch_1_2] uniform_2 1 [] [] 50%Z Cpu false echo_world)
    as (_ & Hother & Hpass).
  split.
  - rewrite (Hother (PyInt 3) eq_refl eq_refl eq_refl). reflexivity.
  - destruct (Hpass (PyPath "out") (or_intror eq_refl)) as (_ & Hin).
    apply Hin. discriminate.
Defined.

(* ================================================================== *)
(** * Running the world step by step *)

Section StepFacts.

Context {E : torch.Elementary} {G : torch.LogGamma} {C : Collaborators}.

Local Open Scope R_scope.

Ltac step_world :=
  cbv [final_save periodic_save plot_umap_block print_summary read_locals
       final_files periodic_files final_events periodic_events
       summary_events branch_head save_tensor save_figure
       bind emit lift raise ret py_add write_file set_mode set_params
       get_mode get_params mode params log files app fst snd].

Lemma print_summary_some kl_weight v w :
  print_summary kl_weight (Some v) w
  = (mkWorld (mode w) (params w) (summary_events kl_weight v ++ log w)
       (files w),
     Ok v).
Proof. step_world. reflexivity. Qed.

Lemma print_summary_none kl_weight w :
  print_summary kl_weight None w = (w, Err UnboundLocalError).
Proof. reflexivity. Qed.

Lemma final_save_str s total v w :
  final_save (PyStr s) total v w
  = (mkWorld Evaluation (params w) (final_events s total v ++ log w)
       (final_files s v (params w) ++ files w),
     Ok tt).
Proof. step_world. reflexivity. Qed.

Lemma final_save_other base_dir total v w :
  isinstance_str base_dir = false ->
  final_save base_dir total v w
  = (mkWorld (mode w) (params w) (branch_head FinalSave total v ++ log w)
       (files w),
     Err TypeError).
Proof.
  intros H. destruct base_dir; try discriminate H; step_world; reflexivity.
Qed.

Lemma periodic_save_other base_dir plot_umap mapping_dict color_map total v w :
  isinstance_str base_dir = false ->
  periodic_save base_dir plot_umap mapping_dict color_map total v w
  = (mkWorld (mode w) (params w) (branch_head PeriodicSave total v ++ log w)
       (files w),
     Err TypeError).
Proof.
  intros H. destruct base_dir; try discriminate H; step_world; reflexivity.
Qed.

Lemma periodic_save_str_no_plot s mapping_dict color_map total v w :
  periodic_save (PyStr s) false mapping_dict color_map total v w
  = (mkWorld Evaluation (params w) (periodic_events s total v ++ log w)
       (periodic_files s v (params w) ++ files w),
     Ok tt).
Proof. step_world. reflexivity. Qed.

(** With the plot asked for and a label or a colour missing, the branch
    raises once its files are written. *)
Lemma periodic_save_str_plot_err s mapping_dict color_map total v w e :
  colors_of color_map (label_map mapping_dict) (v_labels v) = Err e ->
  periodic_save (PyStr s) true mapping_dict color_map total v w
  = (mkWorld Evaluation (params w)
       (Print 111 [] :: periodic_events s total v ++ log w)
       (periodic_files s v (params w) ++ files w),
     Err e).
Proof. intros H. step_world. rewrite H. reflexivity. Qed.

Lemma periodic_save_str_plot_ok s mapping_dict color_map total v w cs :
  colors_of color_map (label_map mapping_dict) (v_labels v) = Ok cs ->
  periodic_save (PyStr s) true mapping_dict color_map total v w
  = (mkWorld Evaluation (params w)
       (Save (s ++ "umap_recon.png")%string
        :: Save (s ++ "umap_latent.png")%string
        :: Print 111 [] :: periodic_events s total v ++ log w)
       (((s ++ "umap_recon.png")%string,
         Figure (fit_transform (reconstructed (v_out v))) cs)
        :: ((s ++ "umap_latent.png")%string,
            Figure (fit_transform (zs (v_out v))) cs)
        :: periodic_files s v (params w) ++ files w),
     Ok tt).
Proof. intros H. step_world. rewrite H. reflexivity. Qed.

Lemma calls_of_app (l1 l2 : list Event) :
  calls_of (l1 ++ l2) = calls_of l1 ++ calls_of l2.
Proof. apply filter_app. Qed.

Lemma printed_losses_app (l1 l2 : list Event) :
  printed_losses (l1 ++ l2) = printed_losses l1 ++ printed_losses l2.
Proof. apply flat_map_app. Qed.

(** Events that are neither calls nor prints of line 77. *)
Lemma quiet_events (l : list Event) :
  Forall (fun e => is_call e = false /\ printed_loss e = []) l ->
  calls_of l = [] /\ printed_losses l = [].
Proof.
  induction 1 as [| e l (Hc & Hp) _ (IHc & IHp)]; [split; reflexivity |].
  unfold calls_of, printed_losses in *. cbn [filter flat_map].
  rewrite Hc, Hp, IHc, IHp. split; reflexivity.
Qed.

Lemma quiet_print (line : nat) (values : list R) :
  line <> 77%nat ->
  is_call (Print line values) = false /\ printed_loss (Print line values) = [].
Proof.
  intros H. split; [reflexivity |]. unfold printed_loss.
  destruct (Nat.eqb_spec line 77); [contradiction | reflexivity].
Qed.

Lemma quiet_first_batch epoch idx out x :
  Forall (fun e => is_call e = false /\ printed_loss e = [])
    (first_batch_events epoch idx out x).
Proof.
  unfold first_batch_events.
  destruct ((epoch =? 0)%Z && (idx =? 0)%nat)%bool;
    repeat first [apply Forall_nil | apply Forall_cons];
    apply quiet_print; discriminate.
Qed.

(** The loop on batches that all go through, in full: the total, the
    parameters, the calls in their order, the printed losses and the
    locals of the last batch. *)
Lemma batch_loop_exact epoch device proportion_tensor kl_weight dataloader :
  forall idx total lst w ls,
    mode w = Training ->
    batch_losses device proportion_tensor kl_weight (params w) dataloader
    = Ok ls ->
    exists w' lst' new,
      batch_loop epoch device proportion_tensor kl_weight idx dataloader
        total lst w
      = (w', Ok (fold_left Rplus ls total, lst')) /\
      mode w' = Training /\ files w' = files w /\
      params w'
      = params_after device proportion_tensor kl_weight (params w) dataloader /\
      log w' = new ++ log w /\
      rev (calls_of new)
      = flat_map calls_of_batch (seq idx (List.length dataloader)) /\
      rev (printed_losses new) = ls /\
      match dataloader with
      | [] => lst' = lst
      | _ :: _ =>
          exists v, lst' = Some v /\
            batch_vars device proportion_tensor kl_weight
              (params_after device proportion_tensor kl_weight (params w)
                 (removelast dataloader))
              (last dataloader no_batch)
            = Ok v
      end.
Proof.
  induction dataloader as [| b rest IH]; intros idx total lst w ls Hm Hls.
  - cbn in Hls. inversion Hls; subst ls. exists w, lst, [].
    cbn. repeat split; assumption || reflexivity.
  - cbn [batch_losses] in Hls. cbn [batch_loop]. unfold bind.
    rewrite train_batch_spec. cbv zeta. rewrite Hm.
    set (x := to device (data b)) in *.
    set (out := forward (params w) Training x (labels b)) in *.
    destruct (shape_eqb _ _); [| discriminate].
    destruct (batch_loss _ _ _ _ _ _) as [l | e] eqn:Hloss; [| discriminate].
    cbn [rbind] in Hls.
    destruct (batch_losses _ _ _ _ rest) as [ls' | e] eqn:Hrest;
      [| discriminate].
    cbn [rbind] in Hls. inversion Hls; subst ls. clear Hls.
    cbn [fst snd].
    match goal with
    | |- context [batch_loop _ _ _ _ _ rest ?t ?l0 ?w1] =>
        destruct (IH (S idx) t l0 w1 ls' eq_refl Hrest)
          as (w' & lst' & new & Hloop & Hm' & Hf' & Hp' & Hlog & Hcalls
              & Hprints & Hlast)
    end.
    cbn [params log files mode] in Hp', Hlog, Hf'.
    exists w', lst',
      (new ++ Print 77 [loss l] :: OptimizerStep idx :: Backward idx Training
           :: first_batch_events epoch idx out x
              ++ [Forward idx Training; ZeroGrad idx]).
    rewrite Hloop. cbn [fold_left].
    split; [reflexivity |]. split; [exact Hm' |]. split; [exact Hf' |].
    split; [exact Hp' |].
    destruct (quiet_events (quiet_first_batch epoch idx out x)) as (Hq1 & Hq2).
    split; [| split; [| split]].
    + rewrite Hlog, <- !app_assoc. cbn [app]. rewrite <- app_assoc.
      reflexivity.
    + rewrite calls_of_app, rev_app_distr, Hcalls.
      unfold calls_of at 1. cbn [filter is_call].
      fold (calls_of (first_batch_events epoch idx out x
                      ++ [Forward idx Training; ZeroGrad idx])).
      rewrite calls_of_app, Hq1. cbn [List.length seq flat_map].
      unfold calls_of. cbn. reflexivity.
    + rewrite printed_losses_app, rev_app_distr, Hprints.
      unfold printed_losses at 1. cbn [flat_map printed_loss Nat.eqb].
      fold (printed_losses (first_batch_events epoch idx out x
                            ++ [Forward idx Training; ZeroGrad idx])).
      rewrite printed_losses_app, Hq2. cbn. reflexivity.
    + destruct rest as [| b' rest'].
      * subst lst'. eexists; split; [reflexivity |].
        cbn [removelast last params_after fold_left].
        unfold batch_vars. fold x. fold out. rewrite Hloss. reflexivity.
      * destruct Hlast as (v & Hv & Hvars). exists v. split; [exact Hv |].
        change (removelast (b :: b' :: rest'))
          with (b :: removelast (b' :: rest')).
        change (last (b :: b' :: rest') no_batch)
          with (last (b' :: rest') no_batch).
        exact Hvars.
Qed.

(** The loop leaves the files and the mode alone, whatever becomes of its
    batches. *)
Lemma batch_loop_keeps epoch device proportion_tensor kl_weight dataloader :
  forall idx total lst w,
    files (fst (batch_loop epoch device proportion_tensor kl_weight idx
                  dataloader total lst w))
    = files w /\
    mode (fst (batch_loop epoch device proportion_tensor kl_weight idx
                 dataloader total lst w))
    = mode w.
Proof.
  induction dataloader as [| b rest IH]; intros idx total lst w.
  - split; reflexivity.
  - cbn [batch_loop]. unfold bind. rewrite train_batch_spec. cbv zeta.
    destruct (shape_eqb _ _);
      [destruct (batch_loss _ _ _ _ _ _) as [l | e] |];
      try (split; reflexivity).
    match goal with
    | |- context [batch_loop _ _ _ _ _ rest ?t ?l0 ?w1] =>
        destruct (IH (S idx) t l0 w1) as (Hf & Hm)
    end.
    rewrite Hf, Hm. split; reflexivity.
Qed.

(** What follows the loop, once the loop has seen a batch. *)
Lemma after_loop_some epoch kl_weight mapping_dict color_map max_epochs
    base_dir plot_umap total v w :
  after_loop epoch kl_weight mapping_dict color_map max_epochs base_dir
    plot_umap (total, Some v) w
  = match
      match checkpoint_branch epoch max_epochs with
      | PeriodicSave =>
          periodic_save base_dir plot_umap mapping_dict color_map total v
      | FinalSave => final_save base_dir total v
      | NoSave => ret tt
      end
        (mkWorld (mode w) (params w) (summary_events kl_weight v ++ log w)
           (files w))
    with
    | (w', Ok _) => (w', Ok total)
    | (w', Err e) => (w', Err e)
    end.
Proof.
  unfold after_loop. cbn [fst snd]. unfold bind at 1.
  rewrite print_summary_some. unfold bind at 1.
  destruct (checkpoint_branch epoch max_epochs).
  - destruct (periodic_save _ _ _ _ _ _ _) as [w' [[] | e]]; reflexivity.
  - destruct (final_save _ _ _ _) as [w' [[] | e]]; reflexivity.
  - reflexivity.
Qed.

(** A call whose batches all go through, up to the end of its loop. *)
Lemma train_GMVAE_through_loop epoch dataloader proportion_tensor kl_weight
    mapping_dict color_map max_epochs device base_dir plot_umap w ls :
  isinstance_str base_dir = true \/ isinstance_Path base_dir = true ->
  dataloader <> [] ->
  batch_losses device proportion_tensor kl_weight
    (model_to device (params w)) dataloader
  = Ok ls ->
  exists w1 v new,
    train_GMVAE epoch dataloader proportion_tensor kl_weight mapping_dict
      color_map max_epochs device base_dir plot_umap w
    = after_loop epoch kl_weight mapping_dict color_map max_epochs base_dir
        plot_umap (Rsum ls, Some v) w1 /\
    mode w1 = Training /\ files w1 = files w /\
    params w1
    = params_after device proportion_tensor kl_weight
        (model_to device (params w)) dataloader /\
    log w1 = new ++ log w /\
    rev (calls_of new)
    = flat_map calls_of_batch (seq 0 (List.length dataloader)) /\
    rev (printed_losses new) = ls /\
    batch_vars device proportion_tensor kl_weight
      (params_after device proportion_tensor kl_weight
         (model_to device (params w)) (removelast dataloader))
      (last dataloader no_batch)
    = Ok v.
Proof.
  intros Hv Hne Hls.
  rewrite (@train_GMVAE_entry _ _ _ _ _ _ _ _ _ _ _ _ _ w Hv).
  destruct (@batch_loop_exact epoch device proportion_tensor kl_weight
              dataloader 0%nat 0 None (entry_world device w) ls eq_refl Hls)
    as (w1 & lst' & new & Hloop & Hm & Hf & Hp & Hlog & Hcalls & Hprints
        & Hlast).
  destruct dataloader as [| b rest]; [contradiction |].
  destruct Hlast as (v & -> & Hvars).
  exists w1, v, (new ++ [ModelTo device; ModelTrain]).
  unfold bind at 1. rewrite Hloop, fold_left_Rplus, Rplus_0_l.
  split; [reflexivity |]. split; [exact Hm |]. split; [exact Hf |].
  split; [exact Hp |].
  split; [rewrite Hlog, <- app_assoc; reflexivity |].
  split; [| split; [| exact Hvars]].
  - rewrite calls_of_app. unfold calls_of at 2. cbn [filter is_call].
    rewrite app_nil_r. exact Hcalls.
  - rewrite printed_losses_app. unfold printed_losses at 2.
    cbn [flat_map printed_loss app]. rewrite app_nil_r. exact Hprints.
Qed.

Lemma append_inj_l (s a b : string) :
  (s ++ a)%string = (s ++ b)%string -> a = b.
Proof.
  induction s as [| c s IH]; cbn [append]; intros H.
  - exact H.
  - injection H as H. exact (IH H).
Qed.

End StepFacts.

(* ================================================================== *)
(** * Facts about the dictionaries *)

Section DictFacts.

Lemma dict_get_err {K V} (eqb : K -> K -> bool) (d : list (K * V)) k e :
  dict_get eqb d k = Err e -> e = KeyError.
Proof.
  induction d as [| [k' v'] d IH]; cbn [dict_get].
  - intros H. inversion H. reflexivity.
  - destruct (eqb k' k); [discriminate | exact IH].
Qed.

Lemma dict_get_set_same {V} (d : list (Z * V)) k v :
  dict_get Z.eqb (dict_set Z.eqb d k v) k = Ok v.
Proof.
  induction d as [| [k' v'] d IH]; cbn [dict_set dict_get].
  - rewrite Z.eqb_refl. reflexivity.
  - destruct (Z.eqb k' k) eqn:Hk; cbn [dict_get]; rewrite Hk;
      [reflexivity | exact IH].
Qed.

Lemma dict_get_set_other {V} (d : list (Z * V)) k v k' :
  k' <> k ->
  dict_get Z.eqb (dict_set Z.eqb d k v) k' = dict_get Z.eqb d k'.
Proof.
  intros Hne. induction d as [| [k0 v0] d IH]; cbn [dict_set dict_get].
  - destruct (Z.eqb_spec k k'); [congruence | reflexivity].
  - destruct (Z.eqb_spec k0 k) as [-> | Hk0]; cbn [dict_get].
    + destruct (Z.eqb_spec k k'); [congruence | reflexivity].
    + destruct (Z.eqb k0 k'); [reflexivity | exact IH].
Qed.

(** Later entries of the mapping dictionary with other codes do not touch
    the entry of a code. *)
Lemma label_fold_other (post : list (string * Z)) :
  forall (d : list (Z * string)) v,
    (forall kv, In kv post -> snd kv <> v) ->
    dict_get Z.eqb
      (fold_left (fun d kv => dict_set Z.eqb d (snd kv) (fst kv)) post d) v
    = dict_get Z.eqb d v.
Proof.
  induction post as [| kv post IH]; intros d v Hpost; cbn [fold_left].
  - reflexivity.
  - rewrite IH by (intros kv' Hin; apply Hpost; right; exact Hin).
    apply dict_get_set_other. intros Heq. symmetry in Heq.
    exact (Hpost kv (or_introl eq_refl) Heq).
Qed.

Lemma label_map_last (pre post : list (string * Z)) name v :
  (forall kv, In kv post -> snd kv <> v) ->
  dict_get Z.eqb (label_map (pre ++ (name, v) :: post)) v = Ok name.
Proof.
  intros Hpost. unfold label_map. rewrite fold_left_app. cbn [fold_left].
  rewrite (label_fold_other post _ Hpost). cbn [fst snd].
  apply dict_get_set_same.
Qed.

Lemma label_map_missing (mapping_dict : list (string * Z)) v :
  (forall name, ~ In (name, v) mapping_dict) ->
  dict_get Z.eqb (label_map mapping_dict) v = Err KeyError.
Proof.
  intros Hmiss. unfold label_map. rewrite label_fold_other; [reflexivity |].
  intros [name v'] Hin Heq. cbn [snd] in Heq. subst v'.
  exact (Hmiss name Hin).
Qed.

(** A label without a name makes the colours fail, wherever it stands
    among the labels. *)
Lemma colors_of_missing color_map (lm : list (Z * string)) label k :
  In label k ->
  dict_get Z.eqb lm label = Err KeyError ->
  colors_of color_map lm k = Err KeyError.
Proof.
  intros Hin Hget. induction k as [| a k IH]; [contradiction |].
  cbn [colors_of].
  destruct (dict_get Z.eqb lm a) as [name | e] eqn:Ha; cbn [rbind].
  - destruct Hin as [-> | Hin]; [congruence |].
    destruct (dict_get String.eqb color_map name) as [c | e] eqn:Hc;
      cbn [rbind].
    + rewrite (IH Hin). reflexivity.
    + apply dict_get_err in Hc. subst e. reflexivity.
  - apply dict_get_err in Ha. subst e. reflexivity.
Qed.

Lemma colors_of_length color_map (lm : list (Z * string)) k :
  forall cs, colors_of color_map lm k = Ok cs ->
             List.length cs = List.length k.
Proof.
  induction k as [| a k IH]; intros cs H; cbn [colors_of] in H.
  - inversion H. reflexivity.
  - destruct (dict_get Z.eqb lm a) as [name | e]; [| discriminate].
    cbn [rbind] in H.
    destruct (dict_get String.eqb color_map name) as [c | e];
      [| discriminate].
    cbn [rbind] in H.
    destruct (colors_of color_map lm k) as [cs' | e]; [| discriminate].
    cbn [rbind] in H. inversion H. cbn [List.length].
    f_equal. apply IH. reflexivity.
Qed.

End DictFacts.

(* ================================================================== *)
(** * Further properties of train_GMVAE *)

Section RunProperties.

Context {E : torch.Elementary} {G : torch.LogGamma} {C : Collaborators}.

Local Open Scope R_scope.

(** X1.  A call at the last epoch with a string [base_dir], on batches
    that all go through, returns the total, leaves the model in
    evaluation mode and adds exactly five files.  The state dictionary it
    writes holds the parameters after the optimizer step of the last
    batch, while the reconstruction and the three latent means it writes
    were computed on the last batch before that step. *)
Theorem final_checkpoint_contents epoch dataloader proportion_tensor
    kl_weight mapping_dict color_map max_epochs device s plot_umap w ls :
  dataloader <> [] ->
  batch_losses device proportion_tensor kl_weight
    (model_to device (params w)) dataloader
  = Ok ls ->
  checkpoint_branch epoch max_epochs = FinalSave ->
  exists w' v,
    train_GMVAE epoch dataloader proportion_tensor kl_weight mapping_dict
      color_map max_epochs device (PyStr s) plot_umap w
    = (w', Ok (Rsum ls)) /\
    mode w' = Evaluation /\
    batch_vars device proportion_tensor kl_weight
      (params_after device proportion_tensor kl_weight
         (model_to device (params w)) (removelast dataloader))
      (last dataloader no_batch)
    = Ok v /\
    files w'
    = final_files s v
        (params_after device proportion_tensor kl_weight
           (model_to device (params w)) dataloader)
      ++ files w.
Proof.
  intros Hne Hls Hb.
  destruct (@train_GMVAE_through_loop _ _ _ epoch dataloader proportion_tensor
              kl_weight mapping_dict color_map max_epochs device (PyStr s)
              plot_umap w ls (or_introl eq_refl) Hne Hls)
    as (w1 & v & new & Hrun & Hm & Hf & Hp & _ & _ & _ & Hvars).
  rewrite Hrun, after_loop_some, Hb, final_save_str.
  eexists _, v. split; [reflexivity |]. cbn [mode files params].
  split; [reflexivity |]. split; [exact Hvars |].
  rewrite Hp, Hf. reflexivity.
Qed.

(** X2.  A call at a periodic epoch with a string [base_dir] and no plot,
    on batches that all go through, returns the total, leaves the model
    in evaluation mode and adds exactly five files.  It writes the three
    latent means where the final branch writes them, but the
    reconstruction and the model under other paths than the final
    branch: the separator is missing from the model's path here and from
    the reconstruction's path there. *)
Theorem periodic_checkpoint_contents epoch dataloader proportion_tensor
    kl_weight mapping_dict color_map max_epochs device s w ls :
  dataloader <> [] ->
  batch_losses device proportion_tensor kl_weight
    (model_to device (params w)) dataloader
  = Ok ls ->
  checkpoint_branch epoch max_epochs = PeriodicSave ->
  exists w' v,
    train_GMVAE epoch dataloader proportion_tensor kl_weight mapping_dict
      color_map max_epochs device (PyStr s) false w
    = (w', Ok (Rsum ls)) /\
    mode w' = Evaluation /\
    files w'
    = periodic_files s v
        (params_after device proportion_tensor kl_weight
           (model_to device (params w)) dataloader)
      ++ files w /\
    map fst (periodic_files s v (params w'))
    = [ (s ++ "GMVAE_model.pt")%string; (s ++ "/GMVAE_pis.pt")%string;
        (s ++ "/GMVAE_logvars.pt")%string; (s ++ "/GMVAE_mus.pt")%string;
        (s ++ "/GMVAE_reconstructed.pt")%string ] /\
    map fst (final_files s v (params w'))
    = [ (s ++ "/GMVAE_model.pt")%string; (s ++ "/GMVAE_pis.pt")%string;
        (s ++ "/GMVAE_logvars.pt")%string; (s ++ "/GMVAE_mus.pt")%string;
        (s ++ "GMVAE_reconstructed.pt")%string ] /\
    (s ++ "GMVAE_model.pt")%string <> (s ++ "/GMVAE_model.pt")%string /\
    (s ++ "/GMVAE_reconstructed.pt")%string
    <> (s ++ "GMVAE_reconstructed.pt")%string.
Proof.
  intros Hne Hls Hb.
  destruct (@train_GMVAE_through_loop _ _ _ epoch dataloader proportion_tensor
              kl_weight mapping_dict color_map max_epochs device (PyStr s)
              false w ls (or_introl eq_refl) Hne Hls)
    as (w1 & v & new & Hrun & Hm & Hf & Hp & _ & _ & _ & Hvars).
  rewrite Hrun, after_loop_some, Hb, periodic_save_str_no_plot.
  eexists _, v. split; [reflexivity |]. cbn [mode files params].
  split; [reflexivity |]. split; [rewrite Hp, Hf; reflexivity |].
  split; [reflexivity |]. split; [reflexivity |].
  split; intros Heq; apply append_inj_l in Heq; discriminate Heq.
Qed.

(** X3.  With the plot asked for at a periodic epoch, a label of the last
    batch that the mapping dictionary does not hold makes the call raise
    [KeyError]: after the five files have been written and the model has
    been set to evaluation mode, and without the total being returned. *)
Theorem plot_missing_label_raises epoch dataloader proportion_tensor
    kl_weight mapping_dict color_map max_epochs device s w ls label :
  dataloader <> [] ->
  batch_losses device proportion_tensor kl_weight
    (model_to device (params w)) dataloader
  = Ok ls ->
  checkpoint_branch epoch max_epochs = PeriodicSave ->
  In label (labels (last dataloader no_batch)) ->
  (forall name, ~ In (name, label) mapping_dict) ->
  exists w' v,
    train_GMVAE epoch dataloader proportion_tensor kl_weight mapping_dict
      color_map max_epochs device (PyStr s) true w
    = (w', Err KeyError) /\
    mode w' = Evaluation /\
    files w'
    = periodic_files s v
        (params_after device proportion_tensor kl_weight
           (model_to device (params w)) dataloader)
      ++ files w.
Proof.
  intros Hne Hls Hb Hin Hmiss.
  destruct (@train_GMVAE_through_loop _ _ _ epoch dataloader proportion_tensor
              kl_weight mapping_dict color_map max_epochs device (PyStr s)
              true w ls (or_introl eq_refl) Hne Hls)
    as (w1 & v & new & Hrun & Hm & Hf & Hp & _ & _ & _ & Hvars).
  assert (Hlab : v_labels v = labels (last dataloader no_batch)).
  { unfold batch_vars in Hvars.
    destruct (batch_loss _ _ _ _ _ _); [| discriminate].
    cbn [rbind] in Hvars. inversion Hvars. reflexivity. }
  assert (Hcol : colors_of color_map (label_map mapping_dict) (v_labels v)
                 = Err KeyError).
  { rewrite Hlab. apply (colors_of_missing _ _ label _ Hin).
    apply label_map_missing, Hmiss. }
  rewrite Hrun, after_loop_some, Hb.
  rewrite periodic_save_str_plot_err with (e := KeyError) by exact Hcol.
  eexists _, v. split; [reflexivity |]. cbn [mode files params].
  split; [reflexivity |]. rewrite Hp, Hf. reflexivity.
Qed.

(** X4.  A [Path] passes the entry assertions, but at a checkpoint epoch
    the first write concatenates it with a string: on batches that all go
    through, the call raises [TypeError] once the whole loop has run.
    The parameters have had every optimizer step, no file is written, the
    model stays in training mode and the total is not returned. *)
Theorem path_base_dir_raises epoch dataloader proportion_tensor kl_weight
    mapping_dict color_map max_epochs device s plot_umap w ls :
  dataloader <> [] ->
  batch_losses device proportion_tensor kl_weight
    (model_to device (params w)) dataloader
  = Ok ls ->
  checkpoint_branch epoch max_epochs <> NoSave ->
  exists w',
    train_GMVAE epoch dataloader proportion_tensor kl_weight mapping_dict
      color_map max_epochs device (PyPath s) plot_umap w
    = (w', Err TypeError) /\
    mode w' = Training /\ files w' = files w /\
    params w'
    = params_after device proportion_tensor kl_weight
        (model_to device (params w)) dataloader.
Proof.
  intros Hne Hls Hb.
  destruct (@train_GMVAE_through_loop _ _ _ epoch dataloader proportion_tensor
              kl_weight mapping_dict color_map max_epochs device (PyPath s)
              plot_umap w ls (or_intror eq_refl) Hne Hls)
    as (w1 & v & new & Hrun & Hm & Hf & Hp & _).
  rewrite Hrun, after_loop_some.
  destruct (checkpoint_branch epoch max_epochs); [| | contradiction].
  - rewrite periodic_save_other by reflexivity.
    eexists. split; [reflexivity |]. cbn [mode files params]. auto.
  - rewrite final_save_other by reflexivity.
    eexists. split; [reflexivity |]. cbn [mode files params]. auto.
Qed.

(** X5.  In a call that returns, every batch gets exactly one
    [zero_grad], one forward pass, one backward pass and one optimizer
    step, in this order and batch after batch, all in training mode; line
    77 prints one loss per batch, in order, and the value returned is the
    sum of the printed losses. *)
Theorem calls_and_printed_losses epoch dataloader proportion_tensor kl_weight
    mapping_dict color_map max_epochs device base_dir plot_umap w ls :
  isinstance_str base_dir = true \/ isinstance_Path base_dir = true ->
  dataloader <> [] ->
  batch_losses device proportion_tensor kl_weight
    (model_to device (params w)) dataloader
  = Ok ls ->
  checkpoint_passes epoch max_epochs base_dir plot_umap mapping_dict
    color_map dataloader ->
  exists w' new,
    train_GMVAE epoch dataloader proportion_tensor kl_weight mapping_dict
      color_map max_epochs device base_dir plot_umap w
    = (w', Ok (Rsum (rev (printed_losses new)))) /\
    log w' = new ++ log w /\
    rev (calls_of new)
    = flat_map calls_of_batch (seq 0 (List.length dataloader)) /\
    rev (printed_losses new) = ls.
Proof.
  intros Hv Hne Hls Hpass.
  destruct (@train_GMVAE_through_loop _ _ _ epoch dataloader proportion_tensor
              kl_weight mapping_dict color_map max_epochs device base_dir
              plot_umap w ls Hv Hne Hls)
    as (w1 & v & new & Hrun & Hm & Hf & Hp & Hlog & Hcalls & Hprints & Hvars).
  assert (Hlab : v_labels v = labels (last dataloader no_batch)).
  { unfold batch_vars in Hvars.
    destruct (batch_loss _ _ _ _ _ _); [| discriminate].
    cbn [rbind] in Hvars. inversion Hvars. reflexivity. }
  assert (Hret : exists w',
            after_loop epoch kl_weight mapping_dict color_map max_epochs
              base_dir plot_umap (Rsum ls, Some v) w1
            = (w', Ok (Rsum ls)))
    by (eapply after_loop_ok; eassumption).
  destruct Hret as (w' & Hafter).
  assert (Hruns : runs (fun _ => True)
                    (fun e => is_call e = false /\ printed_loss e = [])
                    (after_loop epoch kl_weight mapping_dict color_map
                       max_epochs base_dir plot_umap (Rsum ls, Some v))).
  { apply runs_after_loop;
      try (intros; apply quiet_print; lia);
      intros; split; reflexivity. }
  destruct (Hruns w1 I) as (_ & new2 & Hlog2 & Hquiet).
  rewrite Hafter in Hlog2. cbn [fst] in Hlog2.
  destruct (quiet_events Hquiet) as (Hq1 & Hq2).
  exists w', (new2 ++ new).
  rewrite printed_losses_app, Hq2, calls_of_app, Hq1. cbn [app].
  rewrite Hprints, Hcalls, Hrun.
  split; [exact Hafter |]. split; [| split; reflexivity].
  rewrite Hlog2, Hlog, app_assoc. reflexivity.
Qed.

(** X6.  Nothing but a checkpoint branch writes files or leaves training
    mode.  With a [base_dir] that passes the entry assertions, a call at
    an epoch without checkpoint leaves the files as they were and the
    model in training mode, whether it returns or raises; and an error
    raised in the loop, at any epoch, reaches the caller as it is, with
    the files as they were and the model in training mode. *)
Theorem no_checkpoint_no_files epoch dataloader proportion_tensor kl_weight
    mapping_dict color_map max_epochs device base_dir plot_umap w :
  isinstance_str base_dir = true \/ isinstance_Path base_dir = true ->
  (checkpoint_branch epoch max_epochs = NoSave ->
   files (fst (train_GMVAE epoch dataloader proportion_tensor kl_weight
                 mapping_dict color_map max_epochs device base_dir plot_umap
                 w))
   = files w /\
   mode (fst (train_GMVAE epoch dataloader proportion_tensor kl_weight
                mapping_dict color_map max_epochs device base_dir plot_umap
                w))
   = Training) /\
  (forall w1 e,
     batch_loop epoch device proportion_tensor kl_weight 0 dataloader 0 None
       (entry_world device w)
     = (w1, Err e) ->
     train_GMVAE epoch dataloader proportion_tensor kl_weight mapping_dict
       color_map max_epochs device base_dir plot_umap w
     = (w1, Err e) /\
     files w1 = files w /\ mode w1 = Training).
Proof.
  intros Hv.
  rewrite (@train_GMVAE_entry _ _ _ _ _ _ _ _ _ _ _ _ _ w Hv).
  destruct (batch_loop_keeps epoch device proportion_tensor kl_weight
              dataloader 0 0 None (entry_world device w)) as (Hf & Hm).
  cbn [entry_world files mode] in Hf, Hm.
  split.
  - intros Hb. unfold bind at 1 2.
    destruct (batch_loop _ _ _ _ _ _ _ _ _) as [w1 [[total [v |]] | e]];
      cbn [fst] in Hf, Hm.
    + rewrite after_loop_some, Hb. cbn [ret fst files mode]. auto.
    + unfold after_loop. cbn [fst snd]. unfold bind.
      rewrite print_summary_none. cbn [fst]. auto.
    + cbn [fst]. auto.
  - intros w1 e Hloop. unfold bind at 1. rewrite Hloop in *.
    cbn [fst] in Hf, Hm. auto.
Qed.

End RunProperties.

(* ================================================================== *)
(** * Further properties of the losses *)

Section LossProperties.

Context {E : torch.Elementary} {G : torch.LogGamma}.

Local Open Scope R_scope.

Lemma ew2_ok_device {A B D} (f : A -> B -> D) a b c :
  ew2 f a b = Ok c -> tdev a = tdev b.
Proof.
  unfold ew2. destruct (device_eqb (tdev a) (tdev b)) eqn:Hd;
    [| discriminate].
  intros _. apply device_eqb_eq, Hd.
Qed.

Lemma bdim_none (a b : nat) :
  a <> b -> a <> 1%nat -> b <> 1%nat -> bdim a b = None.
Proof.
  intros Hab Ha Hb. unfold bdim.
  destruct (Nat.eqb_spec a b), (Nat.eqb_spec a 1), (Nat.eqb_spec b 1);
    congruence.
Qed.

Lemma Rsum_nonneg (l : list R) : Forall (fun x => 0 <= x) l -> 0 <= Rsum l.
Proof.
  induction 1 as [| x l Hx _ IH]; simpl; lra.
Qed.

Lemma sum_over_nonneg (n m : nat) (f : nat -> nat -> R) :
  (forall i j, 0 <= f i j) -> 0 <= sum_over n m f.
Proof.
  intros H. unfold sum_over. apply Rsum_nonneg.
  apply Forall_forall. intros x Hin. apply in_map_iff in Hin.
  destruct Hin as ([i j] & <- & _). apply H.
Qed.

(** The parts of a loss that was computed. *)
Lemma batch_loss_inv data out pez od proportion_tensor kl_weight l :
  batch_loss data out pez od proportion_tensor kl_weight = Ok l ->
  exists f r z k,
    mse_loss (mean0 (pis out)) (to (tdev (pis out)) proportion_tensor)
    = Ok f /\
    mse_loss (reconstructed out) data = Ok r /\
    zinb_loss data (reconstructed out) pez od default_eps = Ok z /\
    kl_raw (mus out) (logvars out) = Ok k /\
    l = mkLosses f r z k (clamp_kl (k * kl_weight))
          (composite r z f (clamp_kl (k * kl_weight))).
Proof.
  unfold batch_loss. intros H.
  destruct (mse_loss (mean0 (pis out)) _) as [f | e]; [| discriminate].
  cbn [rbind] in H.
  destruct (mse_loss (reconstructed out) data) as [r | e]; [| discriminate].
  cbn [rbind] in H.
  destruct (zinb_loss _ _ _ _ _) as [z | e]; [| discriminate].
  cbn [rbind] in H.
  destruct (kl_raw _ _) as [k | e]; [| discriminate].
  cbn [rbind] in H. inversion H.
  exists f, r, z, k. repeat split; reflexivity.
Qed.

Lemma clamp_kl_min (x : R) : clamp_kl x = Rmin x 1.
Proof.
  unfold clamp_kl, Rltb, Rmin.
  destruct (Rlt_dec 1 x), (Rle_dec x 1); lra.
Qed.

(** X8.  The weighted KL term that enters the total is the smaller of
    the product [loss_kl * kl_weight] and 1, whatever the sign of the two
    factors: it never exceeds 1 and it has no floor, a product at or
    below 1 passes through as it is and a negative product gives a
    negative term.  Where [exp] is at least [1 + x], as the exponential
    is, the raw KL term of [mus] and [logvars] of one shape is not
    negative, so that the weighted term lies between 0 and 1 for a
    [kl_weight] that is not negative, and is the product itself, at most
    0, for a [kl_weight] that is not positive. *)
Theorem kl_term_bounds d n m data out pez od proportion_tensor kl_weight l :
  batch_loss data out pez od proportion_tensor kl_weight = Ok l ->
  loss_kl_weighted l = Rmin (loss_kl l * kl_weight) 1 /\
  loss_kl_weighted l <= 1 /\
  (loss_kl l * kl_weight <= 1 ->
   loss_kl_weighted l = loss_kl l * kl_weight) /\
  (loss_kl l * kl_weight < 0 -> loss_kl_weighted l < 0) /\
  ((forall x, 1 + x <= torch.exp x) ->
   full d n m (mus out) -> full d n m (logvars out) ->
   0 <= loss_kl l /\
   (0 <= kl_weight -> 0 <= loss_kl_weighted l <= 1) /\
   (kl_weight <= 0 ->
    loss_kl_weighted l = loss_kl l * kl_weight /\ loss_kl_weighted l <= 0)).
Proof.
  intros Hl.
  destruct (batch_loss_inv _ _ _ _ _ _ Hl)
    as (f & r & z & k & _ & _ & _ & Hk & ->).
  cbn [loss_kl_weighted loss_kl]. rewrite clamp_kl_min.
  split; [reflexivity |]. split; [apply Rmin_r |].
  split; [intros Hle; apply Rmin_left, Hle |].
  split.
  { intros Hneg. rewrite Rmin_left by lra. exact Hneg. }
  intros Hexp Hmus Hlog.
  rewrite (kl_raw_full Hmus Hlog) in Hk. injection Hk as Hk'.
  set (S := sum_over n m _) in Hk'.
  assert (Hsum : 0 <= S).
  { apply sum_over_nonneg. intros i j.
    specialize (Hexp (get (logvars out) i j)).
    assert (0 <= get (mus out) i j ^ 2) by (apply pow2_ge_0).
    lra. }
  assert (Hk0 : 0 <= k).
  { rewrite <- Hk'. unfold Rdiv.
    apply Rmult_le_pos;
      [apply Rmult_le_pos; [lra | exact Hsum]
      | left; apply Rinv_0_lt_compat; lra]. }
  split; [exact Hk0 |]. split.
  - intros Hw. split; [| apply Rmin_r].
    apply Rmin_glb; [apply Rmult_le_pos; assumption | lra].
  - intros Hw.
    assert (Hprod : k * kl_weight <= 0).
    { replace (k * kl_weight) with (- (k * - kl_weight)) by ring.
      assert (0 <= k * - kl_weight) by (apply Rmult_le_pos; lra). lra. }
    rewrite Rmin_left by lra. split; [reflexivity | exact Hprod].
Qed.

(** X9.  Once the product [loss_kl * kl_weight] is above 1 the weighted
    term is the constant 1: two outputs of the model with the same
    reconstruction and the same [pis] then have the same loss, whatever
    their [mus] and [logvars]. *)
Theorem kl_saturation data out out' pez od proportion_tensor kl_weight l l' :
  batch_loss data out pez od proportion_tensor kl_weight = Ok l ->
  batch_loss data out' pez od proportion_tensor kl_weight = Ok l' ->
  reconstructed out = reconstructed out' -> pis out = pis out' ->
  1 < loss_kl l * kl_weight -> 1 < loss_kl l' * kl_weight ->
  loss_kl_weighted l = 1 /\ loss_kl_weighted l' = 1 /\ loss l = loss l'.
Proof.
  intros Hl Hl' Hrec Hpis Hk Hk'.
  destruct (batch_loss_inv _ _ _ _ _ _ Hl)
    as (f & r & z & k & Hf & Hr & Hz & _ & ->).
  destruct (batch_loss_inv _ _ _ _ _ _ Hl')
    as (f' & r' & z' & k' & Hf' & Hr' & Hz' & _ & ->).
  cbn [loss_kl_weighted loss_kl loss] in *.
  rewrite <- Hrec in Hr', Hz'. rewrite <- Hpis in Hf'.
  assert (f' = f) by congruence. assert (r' = r) by congruence.
  assert (z' = z) by congruence. subst f' r' z'.
  rewrite (clamp_kl_above Hk), (clamp_kl_above Hk').
  repeat split; reflexivity.
Qed.

(** X10.  With an [eps] that is not positive the test [y_true < eps]
    holds at no count, so the zero-inflated part is zero everywhere:
    on counts that are not negative, [zinb_loss] is then minus the mean
    of the negative binomial term alone. *)
Theorem zinb_loss_nonpositive_eps d n m (y y_pred pi r : tensor R) (eps : R) :
  eps <= 0 ->
  full d n m y -> fits d n m pi -> fits d n m r ->
  (forall i j, (i < n)%nat -> (j < m)%nat -> 0 <= get y i j) ->
  zinb_loss y y_pred pi r eps
  = Ok (- (sum_over n m
             (fun i j => nb_entry eps (get y i j) (bget pi i j) (bget r i j))
           / INR (n * m))).
Proof.
  intros Heps Hy Hpi Hr Hpos.
  rewrite (zinb_loss_full y_pred eps Hy Hpi Hr). do 3 f_equal.
  apply sum_over_ext. intros i j Hi Hj.
  rewrite (full_get_bget Hy Hi Hj). unfold zinb_entry, zero_entry, Rltb.
  specialize (Hpos i j Hi Hj).
  destruct (Rlt_dec (get y i j) eps); lra.
Qed.

End LossProperties.

(* ================================================================== *)
(** * The order of the samples of a batch *)

Section SampleOrder.

Context {E : torch.Elementary} {G : torch.LogGamma}.

Local Open Scope R_scope.

Variables (rho : nat -> nat) (n : nat).

Hypothesis rho_perm : Permutation (map rho (seq 0 n)) (seq 0 n).

Lemma col_mean_rows (t : tensor R) (j : nat) :
  nrows t = n -> col_mean (reindex (rows rho) t) j = col_mean t j.
Proof.
  intros Hn. unfold col_mean. cbn [nrows reindex get rows fst snd].
  rewrite Hn. f_equal.
  transitivity (Rsum (map (fun i => get t i j) (map rho (seq 0 n)))).
  - rewrite map_map. reflexivity.
  - apply Rsum_perm, Permutation_map, rho_perm.
Qed.

Lemma sum_over_rows_perm (m : nat) (f : nat -> nat -> R) :
  sum_over n m (fun i j => f (rho i) j) = sum_over n m f.
Proof.
  exact (@sum_over_reindex n m (rows rho) f
           (@rows_perm_indices rho n m rho_perm)).
Qed.

Lemma mse_loss_rows d m (a b : tensor R) :
  full d n m a -> full d n m b ->
  mse_loss (reindex (rows rho) a) (reindex (rows rho) b) = mse_loss a b.
Proof.
  intros Ha Hb.
  rewrite (mse_loss_full (full_reindex (rows rho) Ha)
             (full_reindex (rows rho) Hb)).
  rewrite (mse_loss_full Ha Hb). do 2 f_equal.
  exact (sum_over_rows_perm m (fun i j => (get a i j - get b i j) ^ 2)).
Qed.

Lemma fraction_loss_rows d K (pis proportion_tensor : tensor R) :
  full d n K pis -> nrows proportion_tensor = 1%nat ->
  ncols proportion_tensor = K ->
  mse_loss (mean0 (reindex (rows rho) pis))
    (to (tdev (reindex (rows rho) pis)) proportion_tensor)
  = mse_loss (mean0 pis) (to (tdev pis) proportion_tensor).
Proof.
  intros Hp Hr Hc.
  rewrite (@fraction_loss_full d n K _ _ (full_reindex (rows rho) Hp) Hr Hc).
  rewrite (@fraction_loss_full d n K _ _ Hp Hr Hc). do 3 f_equal.
  apply map_ext. intros j. rewrite col_mean_rows by apply Hp. reflexivity.
Qed.

Lemma kl_raw_rows d m (mus logvars : tensor R) :
  full d n m mus -> full d n m logvars ->
  kl_raw (reindex (rows rho) mus) (reindex (rows rho) logvars)
  = kl_raw mus logvars.
Proof.
  intros Hm Hl.
  rewrite (kl_raw_full (full_reindex (rows rho) Hm)
             (full_reindex (rows rho) Hl)).
  rewrite (kl_raw_full Hm Hl). do 3 f_equal.
  exact (sum_over_rows_perm m
           (fun i j => -1 - get logvars i j + get mus i j ^ 2
                       + torch.exp (get logvars i j))).
Qed.

Lemma zinb_loss_rows d m (y y_pred y_pred' pi r : tensor R) (eps : R) :
  full d n m y -> full d 1 m pi -> full d 1 m r ->
  zinb_loss (reindex (rows rho) y) y_pred' pi r eps
  = zinb_loss y y_pred pi r eps.
Proof.
  intros Hy Hpi Hr.
  assert (Fpi : fits d n m pi)
    by (destruct Hpi as (? & ? & ?); unfold fits, dim_fits; auto).
  assert (Fr : fits d n m r)
    by (destruct Hr as (? & ? & ?); unfold fits, dim_fits; auto).
  rewrite (zinb_loss_full y_pred' eps (full_reindex (rows rho) Hy) Fpi Fr).
  rewrite (zinb_loss_full y_pred eps Hy Fpi Fr). do 3 f_equal.
  rewrite <- (sum_over_rows_perm m
                (fun i j => zinb_entry eps (bget y i j) (bget pi i j)
                              (bget r i j))).
  apply sum_over_ext. intros i j Hi Hj.
  rewrite (full_get_bget (full_reindex (rows rho) Hy) Hi Hj).
  cbn [reindex get rows fst snd].
  assert (Hrho : (rho i < n)%nat).
  { assert (Hin : In (rho i) (map rho (seq 0 n)))
      by (apply in_map, in_seq; lia).
    apply (Permutation_in _ rho_perm), in_seq in Hin. lia. }
  rewrite (full_get_bget Hy Hrho Hj).
  rewrite (bget_row_vector pi i j), (bget_row_vector pi (rho i) j)
    by apply Hpi.
  rewrite (bget_row_vector r i j), (bget_row_vector r (rho i) j)
    by apply Hr.
  reflexivity.
Qed.

(** X7.  The loss of a batch does not depend on the order of its
    samples: reordering the rows of the input and of everything the model
    returns for it, under feature-indexed dispersion parameters, leaves
    every component of the loss and the total as they were. *)
Theorem batch_loss_sample_order d m dp K dk L
    (data : tensor R) (out : ModelOutput)
    (pez od proportion_tensor : tensor R) (kl_weight : R) :
  full d n m data -> full d n m (reconstructed out) ->
  full dp n K (pis out) ->
  nrows proportion_tensor = 1%nat -> ncols proportion_tensor = K ->
  full d 1 m pez -> full d 1 m od ->
  full dk n L (mus out) -> full dk n L (logvars out) ->
  batch_loss (reindex (rows rho) data) (permute_samples rho out) pez od
    proportion_tensor kl_weight
  = batch_loss data out pez od proportion_tensor kl_weight.
Proof.
  intros Hdata Hrec Hpis Hpr Hpc Hpez Hod Hmus Hlog.
  unfold batch_loss.
  cbn [permute_samples pis reconstructed mus logvars].
  rewrite (@fraction_loss_rows dp K _ _ Hpis Hpr Hpc).
  rewrite (@mse_loss_rows d m _ _ Hrec Hdata).
  rewrite (@zinb_loss_rows d m data (reconstructed out)
             (reindex (rows rho) (reconstructed out)) pez od default_eps
             Hdata Hpez Hod).
  rewrite (@kl_raw_rows dk L _ _ Hmus Hlog).
  reflexivity.
Qed.

End SampleOrder.

(* ================================================================== *)
(** * Shapes and devices that do not agree *)

Section Mismatches.

Context {E : torch.Elementary} {G : torch.LogGamma}.

Local Open Scope R_scope.

Lemma nb_case_devices (y pi r : tensor R) (eps : R) t :
  nb_case y pi r eps = Ok t -> tdev r = tdev y /\ tdev pi = tdev y.
Proof.
  unfold nb_case, add, sub, mul. intros H.
  destruct (ew2 Rplus y r) as [yr |] eqn:Hyr; [| discriminate H].
  cbn [rbind] in H. apply ew2_ok_device in Hyr.
  match type of H with
  | context [rbind ?c _] => destruct c as [s1 |]; [| discriminate H]
  end.
  cbn [rbind] in H.
  match type of H with
  | context [rbind ?c _] => destruct c as [s2 |]; [| discriminate H]
  end.
  cbn [rbind] in H.
  destruct (ew2 Rmult r (map1 torch.log (add_s pi eps))) as [t4 |] eqn:Ht4;
    [| discriminate H].
  apply ew2_ok_device in Ht4. cbn [tdev map1 add_s] in Ht4.
  split; congruence.
Qed.

Lemma zinb_loss_only_runtime (y y_pred pi r : tensor R) (eps : R) e :
  zinb_loss y y_pred pi r eps = Err e -> e = RuntimeError.
Proof.
  intros H.
  unfold zinb_loss, nb_case, zero_case, zero_nb, add, sub, mul in H.
  repeat match type of H with
         | context [rbind ?c _] =>
             let Hc := fresh "Hc" in
             destruct c eqn:Hc; cbn [rbind] in H;
             [| inversion H; subst;
                first [ apply ew2_err in Hc | apply where_err in Hc ];
                assumption ]
         end.
  discriminate H.
Qed.

(** X11.  [zinb_loss] raises nothing but torch's [RuntimeError], and it
    raises it whenever [pi] or [r] lives on another device than [y_true],
    each of them with more than one entry (a tensor without dimensions
    may meet a tensor of any device). *)
Theorem zinb_loss_devices (y y_pred pi r : tensor R) (eps : R) :
  (forall e, zinb_loss y y_pred pi r eps = Err e -> e = RuntimeError) /\
  ((1 < numel y)%nat ->
   (tdev pi <> tdev y /\ (1 < numel pi)%nat) \/
   (tdev r <> tdev y /\ (1 < numel r)%nat) ->
   zinb_loss y y_pred pi r eps = Err RuntimeError).
Proof.
  split; [intros e; apply zinb_loss_only_runtime |].
  intros _ Hdev.
  destruct (zinb_loss y y_pred pi r eps) as [z | e] eqn:Hz.
  - exfalso. unfold zinb_loss, float in Hz.
    destruct (nb_case y pi r eps) as [t |] eqn:Hnb; [| discriminate].
    apply nb_case_devices in Hnb.
    destruct Hnb, Hdev as [(? & _) | (? & _)]; contradiction.
  - apply zinb_loss_only_runtime in Hz. subst e. reflexivity.
Qed.

(** X12.  The target proportions are compared with the column means of
    [pis] under torch's broadcasting.  A proportion vector whose length
    is neither that of a row of [pis] nor 1 makes the loss of the batch
    raise [RuntimeError]; a proportion vector of length 1 raises nothing:
    its single value is compared with every column mean. *)
Theorem proportion_length d n K p
    (data : tensor R) (out : ModelOutput)
    (pez od proportion_tensor : tensor R) (kl_weight : R) :
  full d n K (pis out) ->
  nrows proportion_tensor = 1%nat -> ncols proportion_tensor = p ->
  (p <> K -> p <> 1%nat -> K <> 1%nat ->
   batch_loss data out pez od proportion_tensor kl_weight
   = Err RuntimeError) /\
  (p = 1%nat ->
   mse_loss (mean0 (pis out)) (to (tdev (pis out)) proportion_tensor)
   = Ok (Rsum (map (fun j => (col_mean (pis out) j
                              - get proportion_tensor 0%nat 0%nat) ^ 2)
                 (seq 0 K))
         / INR K)).
Proof.
  intros (Hd & Hr & Hc) Hpr Hpc. split.
  - intros HpK Hp1 HK1. unfold batch_loss, mse_loss at 1, ew2.
    cbn [tdev nrows ncols mean0 to]. rewrite device_eqb_refl, Hpr, Hc, Hpc.
    cbn [bdim Nat.eqb]. rewrite (@bdim_none K p) by congruence.
    reflexivity.
  - intros ->. unfold mse_loss.
    assert (Fa : full d 1 K (mean0 (pis out))) by (repeat split; assumption).
    assert (Fb : fits d 1 K (to (tdev (pis out)) proportion_tensor)).
    { unfold fits, dim_fits. cbn [tdev nrows ncols to]. auto. }
    destruct (ew2_full_l (fun x y => (x - y) ^ 2) Fa Fb) as (c & Ec & Fc).
    rewrite Ec; cbn [rbind]. rewrite (mean_full Fc), sum_over_one_row.
    rewrite Nat.mul_1_l. do 3 f_equal. apply map_ext_in. intros j Hj.
    apply in_seq in Hj. rewrite (ew2_bget _ _ _ 0%nat j Ec).
    rewrite (full_get_bget Fa Nat.lt_0_1) by lia.
    unfold bget. cbn [nrows ncols to get mean0]. rewrite Hpr, Hpc.
    reflexivity.
Qed.

End Mismatches.

(* ================================================================== *)
(** * Further properties of the checkpoints and of the colours *)

Section Schedule.

(** X13.  An epoch takes a checkpoint branch exactly when
    [(epoch+1) % 10 == 0] or it is the last one, so that among any ten
    epochs in a row at least one takes a checkpoint branch. *)
Theorem checkpoint_within_ten_epochs (max_epochs : Z) :
  (forall epoch,
     checkpoint_branch epoch max_epochs <> NoSave <->
     ((epoch + 1) mod 10 = 0 \/ epoch = max_epochs - 1)%Z) /\
  (forall first,
     exists epoch,
       (first <= epoch <= first + 9)%Z /\
       checkpoint_branch epoch max_epochs <> NoSave).
Proof.
  assert (Hiff : forall epoch,
            checkpoint_branch epoch max_epochs <> NoSave <->
            ((epoch + 1) mod 10 = 0 \/ epoch = max_epochs - 1)%Z).
  { intros epoch. unfold checkpoint_branch.
    destruct (Z.eqb_spec ((epoch + 1) mod 10) 0),
      (Z.eqb_spec epoch (max_epochs - 1)); simpl;
      split; intros H; try discriminate; try tauto; try congruence. }
  split; [exact Hiff |].
  intros first. exists (first + 9 - first mod 10)%Z.
  pose proof (Z.mod_pos_bound first 10 ltac:(lia)) as Hb.
  split; [lia |]. apply Hiff. left.
  replace (first + 9 - first mod 10 + 1)%Z
    with (10 * (first / 10 + 1))%Z.
  - rewrite Z.mul_comm. apply Z_mod_mult.
  - pose proof (Z.div_mod first 10 ltac:(lia)). lia.
Qed.

(** X14.  The colour lookup turns the mapping dictionary round, from
    names to codes into codes to names.  A code gets the name of its last
    entry in the dictionary, so of two names with one code the later one
    wins; a code that no name has raises [KeyError]. *)
Theorem label_map_lookup (mapping_dict : list (string * Z)) (v : Z) :
  (forall pre post name,
     mapping_dict = pre ++ (name, v) :: post ->
     (forall kv, In kv post -> snd kv <> v) ->
     dict_get Z.eqb (label_map mapping_dict) v = Ok name) /\
  ((forall name, ~ In (name, v) mapping_dict) ->
   dict_get Z.eqb (label_map mapping_dict) v = Err KeyError).
Proof.
  split.
  - intros pre post name -> Hpost. apply label_map_last, Hpost.
  - apply label_map_missing.
Qed.

End Schedule.

(* ================================================================== *)
(** * The figures of the periodic branch *)

Section Figures.

Context {E : torch.Elementary} {G : torch.LogGamma} {C : Collaborators}.

Local Open Scope R_scope.

(** X15.  With the plot asked for at a periodic epoch and a colour for
    every label of the last batch, the call returns the total and adds
    two figures to the five files, where UMAP and matplotlib raise
    nothing.  Both figures are coloured by one list, which has one colour
    per label of the last batch, in their order; their paths are
    [base_dir] followed by the file name, without separator. *)
Theorem plot_writes_two_figures epoch dataloader proportion_tensor
    kl_weight mapping_dict color_map max_epochs device s w ls cs :
  dataloader <> [] ->
  batch_losses device proportion_tensor kl_weight
    (model_to device (params w)) dataloader
  = Ok ls ->
  checkpoint_branch epoch max_epochs = PeriodicSave ->
  colors_of color_map (label_map mapping_dict)
    (labels (last dataloader no_batch))
  = Ok cs ->
  exists w' v,
    train_GMVAE epoch dataloader proportion_tensor kl_weight mapping_dict
      color_map max_epochs device (PyStr s) true w
    = (w', Ok (Rsum ls)) /\
    files w'
    = ((s ++ "umap_recon.png")%string,
       Figure (fit_transform (reconstructed (v_out v))) cs)
      :: ((s ++ "umap_latent.png")%string,
          Figure (fit_transform (zs (v_out v))) cs)
      :: periodic_files s v
           (params_after device proportion_tensor kl_weight
              (model_to device (params w)) dataloader)
      ++ files w /\
    List.length cs = List.length (labels (last dataloader no_batch)).
Proof.
  intros Hne Hls Hb Hcs.
  destruct (@train_GMVAE_through_loop _ _ _ epoch dataloader proportion_tensor
              kl_weight mapping_dict color_map max_epochs device (PyStr s)
              true w ls (or_introl eq_refl) Hne Hls)
    as (w1 & v & new & Hrun & Hm & Hf & Hp & _ & _ & _ & Hvars).
  assert (Hlab : v_labels v = labels (last dataloader no_batch)).
  { unfold batch_vars in Hvars.
    destruct (batch_loss _ _ _ _ _ _); [| discriminate].
    cbn [rbind] in Hvars. inversion Hvars. reflexivity. }
  rewrite <- Hlab in Hcs.
  rewrite Hrun, after_loop_some, Hb.
  rewrite periodic_save_str_plot_ok with (cs := cs) by exact Hcs.
  eexists _, v. split; [reflexivity |]. cbn [files params].
  split; [rewrite Hp, Hf; reflexivity |].
  rewrite <- Hlab. apply (colors_of_length _ _ _ Hcs).
Qed.

End Figures.

(* ================================================================== *)
(** * An epoch that breaks off *)

Section PartialEpoch.

Context {E : torch.Elementary} {G : torch.LogGamma} {C : Collaborators}.

Local Open Scope R_scope.

(** X16.  When a batch fails, by the shape assertion or in its loss,
    after batches that went through, the call raises that error and the
    running total is lost, but the model keeps the optimizer steps of the
    batches before: the failing batch has had [zero_grad] and its forward
    pass and nothing more, the batches after it are not touched, and no
    file is written. *)
Theorem failed_batch_keeps_earlier_steps epoch pre b post proportion_tensor
    kl_weight mapping_dict color_map max_epochs device base_dir plot_umap w
    ls e :
  isinstance_str base_dir = true \/ isinstance_Path base_dir = true ->
  batch_losses device proportion_tensor kl_weight
    (model_to device (params w)) pre
  = Ok ls ->
  batch_losses device proportion_tensor kl_weight
    (params_after device proportion_tensor kl_weight
       (model_to device (params w)) pre)
    [b]
  = Err e ->
  exists w' new,
    train_GMVAE epoch (pre ++ b :: post) proportion_tensor kl_weight
      mapping_dict color_map max_epochs device base_dir plot_umap w
    = (w', Err e) /\
    params w'
    = params_after device proportion_tensor kl_weight
        (model_to device (params w)) pre /\
    files w' = files w /\ mode w' = Training /\
    log w' = new ++ log w /\
    rev (calls_of new)
    = flat_map calls_of_batch (seq 0 (List.length pre))
      ++ [ZeroGrad (List.length pre); Forward (List.length pre) Training] /\
    rev (printed_losses new) = ls.
Proof.
  intros Hv Hls Hfail.
  rewrite (@train_GMVAE_entry _ _ _ _ _ _ _ _ _ _ _ _ _ w Hv).
  unfold bind at 1. rewrite batch_loop_app.
  destruct (@batch_loop_exact _ _ _ epoch device proportion_tensor kl_weight
              pre 0%nat 0 None (entry_world device w) ls eq_refl Hls)
    as (w1 & lst' & new & Hloop & Hm & Hf & Hp & Hlog & Hcalls & Hprints & _).
  rewrite Hloop. cbn [fst snd batch_loop Nat.add]. unfold bind.
  rewrite train_batch_spec. cbv zeta.
  cbn [entry_world params files log] in Hp, Hf, Hlog.
  rewrite Hm, Hp, Hf, Hlog.
  cbn [batch_losses] in Hfail.
  set (x := to device (data b)) in *.
  set (out := forward _ Training x (labels b)) in *.
  assert (Hquiet : calls_of (first_batch_events epoch (List.length pre) out x)
                   = [] /\
                   printed_losses
                     (first_batch_events epoch (List.length pre) out x)
                   = [])
    by apply quiet_events, quiet_first_batch.
  destruct Hquiet as (Hq1 & Hq2).
  assert (Hnew : forall (A : Type) e0,
            exists w' new0,
              (mkWorld Training
                 (params_after device proportion_tensor kl_weight
                    (model_to device (params w)) pre)
                 (first_batch_events epoch (List.length pre) out x
                  ++ Forward (List.length pre) Training
                     :: ZeroGrad (List.length pre)
                     :: new ++ ModelTo device :: ModelTrain :: log w)
                 (files w),
               @Err A e0)
              = (w', Err e0) /\
              params w'
              = params_after device proportion_tensor kl_weight
                  (model_to device (params w)) pre /\
              files w' = files w /\ mode w' = Training /\
              log w' = new0 ++ log w /\
              rev (calls_of new0)
              = flat_map calls_of_batch (seq 0 (List.length pre))
                ++ [ZeroGrad (List.length pre);
                    Forward (List.length pre) Training] /\
              rev (printed_losses new0) = ls).
  { intros A e0. eexists.
    exists (first_batch_events epoch (List.length pre) out x
            ++ [Forward (List.length pre) Training;
                ZeroGrad (List.length pre)]
            ++ new ++ [ModelTo device; ModelTrain]).
    split; [reflexivity |]. cbn [params files mode log].
    split; [reflexivity |]. split; [reflexivity |]. split; [reflexivity |].
    split; [| split].
    - rewrite <- !app_assoc. reflexivity.
    - rewrite !calls_of_app, Hq1. cbn [app].
      rewrite !rev_app_distr, Hcalls. unfold calls_of.
      cbn [filter is_call rev app]. reflexivity.
    - rewrite !printed_losses_app, Hq2. cbn [app].
      rewrite !rev_app_distr, Hprints. unfold printed_losses.
      cbn [flat_map printed_loss rev app]. apply app_nil_r. }
  destruct (shape_eqb _ _).
  - destruct (batch_loss _ _ _ _ _ _) as [l | e0].
    + cbn [rbind] in Hfail. discriminate Hfail.
    + cbn [rbind] in Hfail. injection Hfail as <-. apply Hnew.
  - injection Hfail as <-. apply Hnew.
Qed.

End PartialEpoch.

(* ================================================================== *)
(** * What a call reports and leaves *)

Section Reports.

Context {E : torch.Elementary} {G : torch.LogGamma} {C : Collaborators}.

Local Open Scope R_scope.

(** X17.  Whatever the epoch, a call on no batch at all that passes the
    entry assertions raises [UnboundLocalError]: line 80 reads a local
    that only the body of the loop assigns.  By then the model has been
    set to training mode and moved to the device, and nothing else has
    happened. *)
Theorem empty_dataloader_raises epoch proportion_tensor kl_weight
    mapping_dict color_map max_epochs device base_dir plot_umap w :
  isinstance_str base_dir = true \/ isinstance_Path base_dir = true ->
  train_GMVAE epoch [] proportion_tensor kl_weight mapping_dict color_map
    max_epochs device base_dir plot_umap w
  = (mkWorld Training (model_to device (params w))
       (ModelTo device :: ModelTrain :: log w) (files w),
     Err UnboundLocalError).
Proof.
  intros Hv.
  rewrite (@train_GMVAE_entry _ _ _ _ _ _ _ _ _ _ _ _ _ w Hv).
  cbn [batch_loop]. unfold bind at 1. cbn [ret].
  unfold after_loop. cbn [fst snd]. unfold bind at 1.
  rewrite print_summary_none. reflexivity.
Qed.

(** X18.  What the call prints after the loop are the losses of the last
    batch alone, as they were computed before its optimizer step: lines
    80 to 84 print its fraction loss, its raw and its weighted KL term
    and its reconstruction loss, and line 89 or 158 of a checkpoint
    branch prints its raw KL term, its reconstruction, fraction and ZINB
    losses beside the total of the epoch. *)
Theorem summary_reports_last_batch epoch dataloader proportion_tensor
    kl_weight mapping_dict color_map max_epochs device s w ls :
  dataloader <> [] ->
  batch_losses device proportion_tensor kl_weight
    (model_to device (params w)) dataloader
  = Ok ls ->
  exists w' v new,
    train_GMVAE epoch dataloader proportion_tensor kl_weight mapping_dict
      color_map max_epochs device (PyStr s) false w
    = (w', Ok (Rsum ls)) /\
    batch_vars device proportion_tensor kl_weight
      (params_after device proportion_tensor kl_weight
         (model_to device (params w)) (removelast dataloader))
      (last dataloader no_batch)
    = Ok v /\
    log w'
    = match checkpoint_branch epoch max_epochs with
      | PeriodicSave => periodic_events s (Rsum ls) v
      | FinalSave => final_events s (Rsum ls) v
      | NoSave => []
      end
      ++ [ Print 85 [];
           Print 84 [loss_recon (v_losses v)];
           Print 83 [kl_weight];
           Print 82 [loss_kl_weighted (v_losses v)];
           Print 81 [loss_kl (v_losses v)];
           Print 80 [fraction_loss (v_losses v)] ]
      ++ new ++ log w /\
    (checkpoint_branch epoch max_epochs <> NoSave ->
     In (Print (match checkpoint_branch epoch max_epochs with
                | FinalSave => 158
                | _ => 89
                end)
           [loss_kl (v_losses v); loss_recon (v_losses v); Rsum ls;
            fraction_loss (v_losses v); zinb_loss_val (v_losses v)])
        (log w')).
Proof.
  intros Hne Hls.
  destruct (@train_GMVAE_through_loop _ _ _ epoch dataloader proportion_tensor
              kl_weight mapping_dict color_map max_epochs device (PyStr s)
              false w ls (or_introl eq_refl) Hne Hls)
    as (w1 & v & new & Hrun & Hm & Hf & Hp & Hlog & Hcalls & Hprints & Hvars).
  rewrite Hrun, after_loop_some.
  destruct (checkpoint_branch epoch max_epochs) eqn:Hb.
  - rewrite periodic_save_str_no_plot.
    eexists _, v, new.
    split; [reflexivity |]. split; [exact Hvars |]. cbn [log].
    split; [rewrite Hlog; reflexivity |]. intros _.
    apply in_or_app. left. unfold periodic_events, summary_values.
    do 10 right. left. reflexivity.
  - rewrite final_save_str.
    eexists _, v, new.
    split; [reflexivity |]. split; [exact Hvars |]. cbn [log].
    split; [rewrite Hlog; reflexivity |]. intros _.
    apply in_or_app. left. unfold final_events, summary_values.
    do 10 right. left. reflexivity.
  - eexists _, v, new.
    split; [reflexivity |]. split; [exact Hvars |]. cbn [ret fst log].
    split; [rewrite Hlog; reflexivity |]. intros H; contradiction.
Qed.

(** X19.  The checkpoint branches never change the parameters: a call
    that returns leaves the parameters as the loop left them, after one
    optimizer step per batch in the order of the batches.  It removes no
    file and adds none at an epoch without checkpoint, five in the final
    branch and in the periodic branch, and two more in the periodic
    branch with the plot. *)
Theorem returning_call_state epoch dataloader proportion_tensor kl_weight
    mapping_dict color_map max_epochs device base_dir plot_umap w ls :
  isinstance_str base_dir = true \/ isinstance_Path base_dir = true ->
  dataloader <> [] ->
  batch_losses device proportion_tensor kl_weight
    (model_to device (params w)) dataloader
  = Ok ls ->
  checkpoint_passes epoch max_epochs base_dir plot_umap mapping_dict
    color_map dataloader ->
  exists w' written,
    train_GMVAE epoch dataloader proportion_tensor kl_weight mapping_dict
      color_map max_epochs device base_dir plot_umap w
    = (w', Ok (Rsum ls)) /\
    params w'
    = params_after device proportion_tensor kl_weight
        (model_to device (params w)) dataloader /\
    files w' = written ++ files w /\
    List.length written
    = match checkpoint_branch epoch max_epochs with
      | NoSave => 0%nat
      | FinalSave => 5%nat
      | PeriodicSave => if plot_umap then 7%nat else 5%nat
      end.
Proof.
  intros Hv Hne Hls Hpass.
  destruct (@train_GMVAE_through_loop _ _ _ epoch dataloader proportion_tensor
              kl_weight mapping_dict color_map max_epochs device base_dir
              plot_umap w ls Hv Hne Hls)
    as (w1 & v & new & Hrun & Hm & Hf & Hp & _ & _ & _ & Hvars).
  assert (Hlab : v_labels v = labels (last dataloader no_batch)).
  { unfold batch_vars in Hvars.
    destruct (batch_loss _ _ _ _ _ _); [| discriminate].
    cbn [rbind] in Hvars. inversion Hvars. reflexivity. }
  rewrite Hrun, after_loop_some. unfold checkpoint_passes in Hpass.
  destruct (checkpoint_branch epoch max_epochs).
  - destruct Hpass as (Hstr & Hcol).
    destruct base_dir as [| s | s | z]; try discriminate Hstr.
    destruct plot_umap.
    + destruct (Hcol eq_refl) as (cs & Hcs). rewrite <- Hlab in Hcs.
      rewrite periodic_save_str_plot_ok with (cs := cs) by exact Hcs.
      eexists _, (_ :: _ :: periodic_files s v (params w1)).
      split; [reflexivity |]. cbn [params files].
      split; [exact Hp |]. rewrite Hf. split; reflexivity.
    + rewrite periodic_save_str_no_plot.
      eexists _, (periodic_files s v (params w1)).
      split; [reflexivity |]. cbn [params files].
      split; [exact Hp |]. rewrite Hf. split; reflexivity.
  - destruct base_dir as [| s | s | z]; try discriminate Hpass.
    rewrite final_save_str.
    eexists _, (final_files s v (params w1)).
    split; [reflexivity |]. cbn [params files].
    split; [exact Hp |]. rewrite Hf. split; reflexivity.
  - eexists _, [].
    split; [reflexivity |]. cbn [ret fst params files].
    split; [exact Hp |]. rewrite Hf. split; reflexivity.
Qed.

End Reports.

(* ================================================================== *)
(** * The reconstruction and the ZINB term *)

Section Reconstruction.

Context {E : torch.Elementary} {G : torch.LogGamma}.

Local Open Scope R_scope.

(** X20.  [zinb_loss] casts [y_pred] and never reads it: the ZINB term of
    a batch is a function of the input and of the two dispersion
    parameters alone.  So two outputs of the model on one input give the
    same ZINB term whatever they are, and outputs that differ in the
    reconstruction alone give losses that differ by five times the
    difference of their reconstruction losses. *)
Theorem zinb_term_ignores_reconstruction (data : tensor R)
    (out out' : ModelOutput) (pez od proportion_tensor : tensor R)
    (kl_weight : R) (l l' : Losses) :
  batch_loss data out pez od proportion_tensor kl_weight = Ok l ->
  batch_loss data out' pez od proportion_tensor kl_weight = Ok l' ->
  zinb_loss data data pez od default_eps = Ok (zinb_loss_val l) /\
  zinb_loss_val l = zinb_loss_val l' /\
  (mus out = mus out' -> logvars out = logvars out' -> pis out = pis out' ->
   loss l - loss l' = 5 * (loss_recon l - loss_recon l')).
Proof.
  intros Hl Hl'.
  destruct (batch_loss_inv _ _ _ _ _ _ Hl)
    as (f & r & z & k & Hf & Hr & Hz & Hk & ->).
  destruct (batch_loss_inv _ _ _ _ _ _ Hl')
    as (f' & r' & z' & k' & Hf' & Hr' & Hz' & Hk' & ->).
  cbn [zinb_loss_val loss loss_recon].
  change (zinb_loss data (reconstructed out') pez od default_eps)
    with (zinb_loss data (reconstructed out) pez od default_eps) in Hz'.
  assert (z' = z) by congruence. subst z'.
  split; [exact Hz |]. split; [reflexivity |].
  intros Hmus Hlog Hpis. rewrite <- Hmus, <- Hlog in Hk'.
  rewrite <- Hpis in Hf'.
  assert (f' = f) by congruence. assert (k' = k) by congruence.
  subst f' k'. unfold composite. ring.
Qed.

End Reconstruction.

(* ================================================================== *)
(** * The further statements at concrete inputs *)

Section LossDefined.

Context {E : torch.Elementary} {G : torch.LogGamma}.

Local Open Scope R_scope.

(** On tensors whose shapes agree the loss of a batch is computed. *)
Lemma batch_loss_defined d n m dp np K dk nk L
    (data : tensor R) (out : ModelOutput)
    (pez od proportion_tensor : tensor R) (kl_weight : R) :
  full d n m data -> full d n m (reconstructed out) ->
  full dp np K (pis out) ->
  nrows proportion_tensor = 1%nat -> ncols proportion_tensor = K ->
  fits d n m pez -> fits d n m od ->
  full dk nk L (mus out) -> full dk nk L (logvars out) ->
  exists l,
    batch_loss data out pez od proportion_tensor kl_weight = Ok l.
Proof.
  intros Hdata Hrec Hpis Hpr Hpc Hpez Hod Hmus Hlog. unfold batch_loss.
  rewrite (@fraction_loss_full dp np K _ _ Hpis Hpr Hpc); cbn [rbind].
  rewrite (mse_loss_full Hrec Hdata); cbn [rbind].
  rewrite (zinb_loss_full (reconstructed out) default_eps Hdata Hpez Hod);
    cbn [rbind].
  rewrite (kl_raw_full Hmus Hlog); cbn [rbind].
  eexists. reflexivity.
Qed.

End LossDefined.

Local Open Scope R_scope.

Lemma echo_batch_loss (E : torch.Elementary) (mu kl_weight : R) :
  exists l,
    @batch_loss E plain_lgamma (data batch_1_2) (wide_out mu) echo_pi echo_r
      uniform_2 kl_weight
    = Ok l.
Proof.
  apply (@batch_loss_defined E plain_lgamma Cpu 1 2 Cpu 1 2 Cpu 1 1);
    try apply fits_echo_pi; try apply fits_echo_r; repeat split.
Qed.

Lemma wide_out_loss_kl (mu kl_weight : R) (l : Losses) :
  @batch_loss plain_elementary plain_lgamma (data batch_1_2) (wide_out mu)
    echo_pi echo_r uniform_2 kl_weight
  = Ok l ->
  loss_kl l = 0.5 * (mu ^ 2 - 1) / 1e9.
Proof.
  intros Hl.
  destruct (batch_loss_inv _ _ _ _ _ _ Hl)
    as (f & r & z & k & _ & _ & _ & Hk & ->).
  cbn [loss_kl].
  rewrite (@kl_raw_full plain_elementary Cpu 1 1) in Hk by (repeat split).
  injection Hk as <-. rewrite sum_over_one_row.
  cbn [seq map Rsum fold_right].
  cbn [get fill mus logvars wide_out echo_out forward echo_model
         torch.exp plain_elementary].
  lra.
Qed.

Lemma swap_rows_perm : Permutation (map swap_rows (seq 0 2)) (seq 0 2).
Proof. apply perm_swap. Qed.

Lemma echo_colours :
  colors_of one_colour (label_map one_type)
    (labels (last [batch_1_2] no_batch))
  = Ok ["red"%string].
Proof. reflexivity. Qed.

(** ** X1 *)

Lemma final_checkpoint_contents_witness :
  exists ls w',
    @batch_losses plain_elementary plain_lgamma (echo_model 0) Cpu uniform_2
      1 tt [batch_1_2]
    = Ok ls /\
    echo_call 49 [batch_1_2] out_dir echo_world = (w', Ok (Rsum ls)) /\
    mode w' = Evaluation /\
    List.length (files w') = 5%nat.
Proof.
  destruct echo_batch_losses as (ls & Hls).
  destruct (@final_checkpoint_contents plain_elementary plain_lgamma
              (echo_model 0) 49 [batch_1_2] uniform_2 1 [] [] 50%Z Cpu
              "out"%string false echo_world ls)
    as (w' & v & Hrun & Hm & _ & Hf).
  - discriminate.
  - exact Hls.
  - reflexivity.
  - exists ls, w'. split; [exact Hls |]. split; [exact Hrun |].
    split; [exact Hm |]. rewrite Hf. reflexivity.
Defined.

(** ** X2 *)

Lemma periodic_checkpoint_contents_witness :
  exists ls w',
    @batch_losses plain_elementary plain_lgamma (echo_model 0) Cpu uniform_2
      1 tt [batch_1_2]
    = Ok ls /\
    echo_call 9 [batch_1_2] out_dir echo_world = (w', Ok (Rsum ls)) /\
    mode w' = Evaluation /\
    List.length (files w') = 5%nat.
Proof.
  destruct echo_batch_losses as (ls & Hls).
  destruct (@periodic_checkpoint_contents plain_elementary plain_lgamma
              (echo_model 0) 9 [batch_1_2] uniform_2 1 [] [] 50%Z Cpu
              "out"%string echo_world ls)
    as (w' & v & Hrun & Hm & Hf & _).
  - discriminate.
  - exact Hls.
  - reflexivity.
  - exists ls, w'. split; [exact Hls |]. split; [exact Hrun |].
    split; [exact Hm |]. rewrite Hf. reflexivity.
Defined.

(** ** X3 *)

Lemma plot_missing_label_raises_witness :
  exists w',
    @train_GMVAE plain_elementary plain_lgamma (echo_model 0) 9 [batch_1_2]
      uniform_2 1 [] [] 50%Z Cpu out_dir true echo_world
    = (w', Err KeyError) /\
    mode w' = Evaluation /\
    List.length (files w') = 5%nat.
Proof.
  destruct echo_batch_losses as (ls & Hls).
  destruct (@plot_missing_label_raises plain_elementary plain_lgamma
              (echo_model 0) 9 [batch_1_2] uniform_2 1 [] [] 50%Z Cpu
              "out"%string echo_world ls 0%Z)
    as (w' & v & Hrun & Hm & Hf).
  - discriminate.
  - exact Hls.
  - reflexivity.
  - left. reflexivity.
  - intros name [].
  - exists w'. split; [exact Hrun |]. split; [exact Hm |].
    rewrite Hf. reflexivity.
Defined.

(** ** X4 *)

Lemma path_base_dir_raises_witness :
  exists w',
    echo_call 49 [batch_1_2] (PyPath "out") echo_world = (w', Err TypeError) /\
    mode w' = Training /\ files w' = [].
Proof.
  destruct echo_batch_losses as (ls & Hls).
  destruct (@path_base_dir_raises plain_elementary plain_lgamma
              (echo_model 0) 49 [batch_1_2] uniform_2 1 [] [] 50%Z Cpu
              "out"%string false echo_world ls)
    as (w' & Hrun & Hm & Hf & _).
  - discriminate.
  - exact Hls.
  - discriminate.
  - exists w'. split; [exact Hrun |]. split; [exact Hm | exact Hf].
Defined.

(** ** X5 *)

Lemma calls_and_printed_losses_witness :
  exists w' new,
    echo_call 3 [batch_1_2] out_dir echo_world
    = (w', Ok (Rsum (rev (printed_losses new)))) /\
    log w' = new ++ log echo_world /\
    rev (calls_of new)
    = [ZeroGrad 0; Forward 0 Training; Backward 0 Training; OptimizerStep 0].
Proof.
  destruct echo_batch_losses as (ls & Hls).
  destruct (@calls_and_printed_losses plain_elementary plain_lgamma
              (echo_model 0) 3 [batch_1_2] uniform_2 1 [] [] 50%Z Cpu
              out_dir false echo_world ls)
    as (w' & new & Hrun & Hlog & Hcalls & _).
  - left. reflexivity.
  - discriminate.
  - exact Hls.
  - apply echo_checkpoint_passes.
  - exists w', new. split; [exact Hrun |]. split; [exact Hlog |].
    exact Hcalls.
Defined.

(** ** X6 *)

Lemma no_checkpoint_no_files_witness :
  files (fst (echo_call 3 [batch_1_2] out_dir echo_world)) = [] /\
  mode (fst (echo_call 3 [batch_1_2] out_dir echo_world)) = Training.
Proof.
  destruct (@no_checkpoint_no_files plain_elementary plain_lgamma
              (echo_model 0) 3 [batch_1_2] uniform_2 1 [] [] 50%Z Cpu
              out_dir false echo_world (or_introl eq_refl))
    as (Hquiet & _).
  exact (Hquiet eq_refl).
Defined.

(** ** X7 *)

Lemma batch_loss_sample_order_witness :
  @batch_loss plain_elementary plain_lgamma
    (reindex (rows swap_rows) (data batch_2_2))
    (permute_samples swap_rows echo_out_2) uniform_2 uniform_2 uniform_2 1
  = @batch_loss plain_elementary plain_lgamma (data batch_2_2) echo_out_2
      uniform_2 uniform_2 uniform_2 1.
Proof.
  apply (@batch_loss_sample_order plain_elementary plain_lgamma swap_rows 2
           swap_rows_perm Cpu 2 Cpu 2 Cpu 1);
    repeat split.
Defined.

(** ** X8 *)

Lemma wide_out_loss_kl_real (mu kl_weight : R) (l : Losses) :
  @batch_loss real_elementary plain_lgamma (data batch_1_2) (wide_out mu)
    echo_pi echo_r uniform_2 kl_weight
  = Ok l ->
  loss_kl l = 0.5 * mu ^ 2 / 1e9.
Proof.
  intros Hl.
  destruct (batch_loss_inv _ _ _ _ _ _ Hl)
    as (f & r & z & k & _ & _ & _ & Hk & ->).
  cbn [loss_kl].
  rewrite (@kl_raw_full real_elementary Cpu 1 1) in Hk by (repeat split).
  injection Hk as <-. rewrite sum_over_one_row.
  cbn [seq map Rsum fold_right].
  cbn [get fill mus logvars wide_out echo_out forward echo_model
         torch.exp real_elementary].
  rewrite exp_0. lra.
Qed.

Lemma kl_term_bounds_witness :
  exists l,
    @batch_loss real_elementary plain_lgamma (data batch_1_2) (wide_out 2)
      echo_pi echo_r uniform_2 (-3)
    = Ok l /\
    loss_kl l * -3 < 0 /\
    loss_kl_weighted l = loss_kl l * -3 /\
    loss_kl_weighted l < 0 /\
    0 <= loss_kl l.
Proof.
  destruct (echo_batch_loss real_elementary 2 (-3)) as (l & Hl).
  pose proof (wide_out_loss_kl_real Hl) as Hk.
  assert (Hneg : loss_kl l * -3 < 0) by (rewrite Hk; lra).
  destruct (@kl_term_bounds real_elementary plain_lgamma Cpu 1 1 _ _ _ _ _
              _ l Hl)
    as (_ & _ & Hpass & Hbelow & Hexp).
  destruct (Hexp exp_ineq1_le) as (Hk0 & _); [repeat split .. |].
  exists l. split; [exact Hl |]. split; [exact Hneg |].
  split; [apply Hpass; lra |]. split; [exact (Hbelow Hneg) | exact Hk0].
Defined.

(** ** X9 *)

Lemma kl_saturation_witness :
  exists l l',
    @batch_loss plain_elementary plain_lgamma (data batch_1_2) (wide_out 2)
      echo_pi echo_r uniform_2 1e10
    = Ok l /\
    @batch_loss plain_elementary plain_lgamma (data batch_1_2) (wide_out 3)
      echo_pi echo_r uniform_2 1e10
    = Ok l' /\
    loss_kl l <> loss_kl l' /\
    loss_kl_weighted l = 1 /\ loss_kl_weighted l' = 1 /\ loss l = loss l'.
Proof.
  destruct (echo_batch_loss plain_elementary 2 1e10) as (l & Hl).
  destruct (echo_batch_loss plain_elementary 3 1e10) as (l' & Hl').
  pose proof (wide_out_loss_kl Hl) as Hk.
  pose proof (wide_out_loss_kl Hl') as Hk'.
  exists l, l'. split; [exact Hl |]. split; [exact Hl' |].
  split; [rewrite Hk, Hk'; lra |].
  apply (@kl_saturation plain_elementary plain_lgamma _ _ _ _ _ _ _ l l'
           Hl Hl' eq_refl eq_refl).
  - rewrite Hk. lra.
  - rewrite Hk'. lra.
Defined.

(** ** X10 *)

Lemma zinb_loss_nonpositive_eps_witness :
  @zinb_loss plain_elementary plain_lgamma (data batch_1_2)
    (reconstructed echo_out) echo_pi echo_r 0
  = Ok (- (sum_over 1 2
             (fun i j =>
                @nb_entry plain_elementary plain_lgamma 0
                  (get (data batch_1_2) i j) (bget echo_pi i j)
                  (bget echo_r i j))
           / INR (1 * 2))).
Proof.
  apply (@zinb_loss_nonpositive_eps plain_elementary plain_lgamma Cpu 1 2).
  - lra.
  - apply full_batch_1_2.
  - apply fits_echo_pi.
  - apply fits_echo_r.
  - intros i j _ _. cbn [get data batch_1_2]. apply pos_INR.
Defined.

(** ** X11 *)

Lemma zinb_loss_devices_witness :
  @zinb_loss plain_elementary plain_lgamma (data batch_1_2)
    (reconstructed echo_out) (fill Cuda 1 2 (1 / 2)) echo_r default_eps
  = Err RuntimeError.
Proof.
  apply (proj2 (@zinb_loss_devices plain_elementary plain_lgamma
                  (data batch_1_2) (reconstructed echo_out)
                  (fill Cuda 1 2 (1 / 2)) echo_r default_eps)).
  - cbn. lia.
  - left. split; [discriminate | cbn; lia].
Defined.

(** ** X12 *)

Lemma proportion_length_witness :
  @batch_loss plain_elementary plain_lgamma (data batch_1_2) echo_out echo_pi
    echo_r (fill Cpu 1 3 (1 / 3)) 1
  = Err RuntimeError /\
  mse_loss (mean0 (pis echo_out)) (to (tdev (pis echo_out)) (fill Cpu 1 1 1))
  = Ok (Rsum (map (fun j => (col_mean (pis echo_out) j
                             - get (fill Cpu 1 1 1) 0%nat 0%nat) ^ 2)
                (seq 0 2))
        / INR 2).
Proof.
  split.
  - apply (proj1 (@proportion_length plain_elementary plain_lgamma Cpu 1 2 3
                    (data batch_1_2) echo_out echo_pi echo_r
                    (fill Cpu 1 3 (1 / 3)) 1
                    ltac:(repeat split) eq_refl eq_refl));
      discriminate.
  - apply (proj2 (@proportion_length plain_elementary plain_lgamma Cpu 1 2 1
                    (data batch_1_2) echo_out echo_pi echo_r
                    (fill Cpu 1 1 1) 1
                    ltac:(repeat split) eq_refl eq_refl)).
    reflexivity.
Defined.

(** ** X14 *)

Lemma label_map_lookup_witness :
  dict_get Z.eqb (label_map [("T"%string, 0%Z); ("B"%string, 0%Z)]) 0%Z
  = Ok "B"%string /\
  dict_get Z.eqb (label_map [("T"%string, 0%Z); ("B"%string, 0%Z)]) 1%Z
  = Err KeyError.
Proof.
  split.
  - apply (proj1 (label_map_lookup [("T"%string, 0%Z); ("B"%string, 0%Z)]
                    0%Z)
             [("T"%string, 0%Z)] [] "B"%string eq_refl).
    intros kv [].
  - apply (proj2 (label_map_lookup [("T"%string, 0%Z); ("B"%string, 0%Z)]
                    1%Z)).
    intros name [H | [H | []]]; discriminate H.
Defined.

(** ** X15 *)

Lemma plot_writes_two_figures_witness :
  exists ls w',
    @batch_losses plain_elementary plain_lgamma (echo_model 0) Cpu uniform_2
      1 tt [batch_1_2]
    = Ok ls /\
    @train_GMVAE plain_elementary plain_lgamma (echo_model 0) 9 [batch_1_2]
      uniform_2 1 one_type one_colour 50%Z Cpu out_dir true echo_world
    = (w', Ok (Rsum ls)) /\
    map fst (firstn 2 (files w'))
    = ["outumap_recon.png"%string; "outumap_latent.png"%string].
Proof.
  destruct echo_batch_losses as (ls & Hls).
  destruct (@plot_writes_two_figures plain_elementary plain_lgamma
              (echo_model 0) 9 [batch_1_2] uniform_2 1 one_type one_colour
              50%Z Cpu "out"%string echo_world ls ["red"%string])
    as (w' & v & Hrun & Hf & _).
  - discriminate.
  - exact Hls.
  - reflexivity.
  - exact echo_colours.
  - exists ls, w'. split; [exact Hls |]. split; [exact Hrun |].
    rewrite Hf. reflexivity.
Defined.

(** ** X16 *)

Lemma single_sample_batch_losses :
  exists ls,
    @batch_losses plain_elementary plain_lgamma single_sample_model Cpu
      uniform_2 1 tt [batch_1_2]
    = Ok ls.
Proof.
  destruct echo_fraction_loss as (f & Hf).
  destruct echo_loss_recon as (r & Hr).
  destruct echo_zinb_loss as (z & Hz).
  destruct echo_kl_raw as (k & Hk).
  cbn [batch_losses].
  change (to Cpu (data batch_1_2)) with (data batch_1_2).
  change (@forward single_sample_model tt Training (data batch_1_2)
            (labels batch_1_2)) with echo_out.
  change (shape_eqb (shape (reconstructed echo_out)) (shape (data batch_1_2)))
    with true.
  cbv iota. unfold batch_loss.
  change (@prob_extra_zero single_sample_model tt) with echo_pi.
  change (@over_disp single_sample_model tt) with echo_r.
  rewrite Hf; cbn [rbind]. rewrite Hr; cbn [rbind].
  rewrite Hz; cbn [rbind]. rewrite Hk; cbn [rbind].
  eexists. reflexivity.
Qed.

Lemma failed_batch_keeps_earlier_steps_witness :
  exists ls w' new,
    @batch_losses plain_elementary plain_lgamma single_sample_model Cpu
      uniform_2 1 tt [batch_1_2]
    = Ok ls /\
    @train_GMVAE plain_elementary plain_lgamma single_sample_model 3
      ([batch_1_2] ++ batch_2_2 :: [batch_1_2]) uniform_2 1 [] [] 50%Z Cpu
      out_dir false (@start_world single_sample_model Evaluation tt)
    = (w', Err (AssertionError 49)) /\
    log w' = new ++ [] /\
    rev (calls_of new)
    = [ZeroGrad 0; Forward 0 Training; Backward 0 Training; OptimizerStep 0;
       ZeroGrad 1; Forward 1 Training] /\
    rev (printed_losses new) = ls.
Proof.
  destruct single_sample_batch_losses as (ls & Hls).
  destruct (@failed_batch_keeps_earlier_steps plain_elementary plain_lgamma
              single_sample_model 3 [batch_1_2] batch_2_2 [batch_1_2]
              uniform_2 1 [] [] 50%Z Cpu out_dir false
              (@start_world single_sample_model Evaluation tt) ls
              (AssertionError 49))
    as (w' & new & Hrun & _ & _ & _ & Hlog & Hcalls & Hprints).
  - left. reflexivity.
  - exact Hls.
  - reflexivity.
  - exists ls, w', new. split; [exact Hls |]. split; [exact Hrun |].
    split; [exact Hlog |]. split; [exact Hcalls | exact Hprints].
Defined.

(** ** X17 *)

Lemma empty_dataloader_raises_witness :
  echo_call 9 [] out_dir echo_world
  = (@mkWorld (echo_model 0) Training tt [ModelTo Cpu; ModelTrain] [],
     Err UnboundLocalError).
Proof.
  apply (@empty_dataloader_raises plain_elementary plain_lgamma
           (echo_model 0) 9 uniform_2 1 [] [] 50%Z Cpu out_dir false
           echo_world).
  left. reflexivity.
Defined.

(** ** X18 *)

Lemma summary_reports_last_batch_witness :
  exists ls w' v new,
    @batch_losses plain_elementary plain_lgamma (echo_model 0) Cpu uniform_2
      1 tt [batch_1_2]
    = Ok ls /\
    echo_call 49 [batch_1_2] out_dir echo_world = (w', Ok (Rsum ls)) /\
    log w'
    = final_events "out"%string (Rsum ls) v
      ++ [ Print 85 [];
           Print 84 [loss_recon (v_losses v)];
           Print 83 [1];
           Print 82 [loss_kl_weighted (v_losses v)];
           Print 81 [loss_kl (v_losses v)];
           Print 80 [fraction_loss (v_losses v)] ]
      ++ new ++ [].
Proof.
  destruct echo_batch_losses as (ls & Hls).
  destruct (@summary_reports_last_batch plain_elementary plain_lgamma
              (echo_model 0) 49 [batch_1_2] uniform_2 1 [] [] 50%Z Cpu
              "out"%string echo_world ls)
    as (w' & v & new & Hrun & _ & Hlog & _).
  - discriminate.
  - exact Hls.
  - exists ls, w', v, new. split; [exact Hls |]. split; [exact Hrun |].
    exact Hlog.
Defined.

(** ** X19 *)

Lemma returning_call_state_witness :
  exists ls w' written,
    @batch_losses plain_elementary plain_lgamma (echo_model 0) Cpu uniform_2
      1 tt [batch_1_2]
    = Ok ls /\
    echo_call 9 [batch_1_2] out_dir echo_world = (w', Ok (Rsum ls)) /\
    files w' = written ++ [] /\
    List.length written = 5%nat.
Proof.
  destruct echo_batch_losses as (ls & Hls).
  destruct (@returning_call_state plain_elementary plain_lgamma
              (echo_model 0) 9 [batch_1_2] uniform_2 1 [] [] 50%Z Cpu
              out_dir false echo_world ls)
    as (w' & written & Hrun & _ & Hf & Hn).
  - left. reflexivity.
  - discriminate.
  - exact Hls.
  - apply echo_checkpoint_passes.
  - exists ls, w', written. split; [exact Hls |]. split; [exact Hrun |].
    split; [exact Hf | exact Hn].
Defined.

(** ** X20 *)

Lemma zinb_term_ignores_reconstruction_witness :
  exists l l',
    @batch_loss plain_elementary plain_lgamma (data batch_1_2) (wide_out 2)
      echo_pi echo_r uniform_2 1
    = Ok l /\
    @batch_loss plain_elementary plain_lgamma (data batch_1_2) (wide_out 3)
      echo_pi echo_r uniform_2 1
    = Ok l' /\
    zinb_loss_val l = zinb_loss_val l'.
Proof.
  destruct (echo_batch_loss plain_elementary 2 1) as (l & Hl).
  destruct (echo_batch_loss plain_elementary 3 1) as (l' & Hl').
  exists l, l'. split; [exact Hl |]. split; [exact Hl' |].
  apply (@zinb_term_ignores_reconstruction plain_elementary plain_lgamma
           _ _ _ _ _ _ _ l l' Hl Hl').
Defined.
